(** * Crypto Insights Agent: streaming event pipeline with cache-aside access

A shallow embedding of the agent's core:
- [agent_core.py]: the keyword intent resolver, the cache-aside price and
  news accessors, the wallet and token-list fetchers;
- [main.py]: the event producer [stream_agent_response];
- [sentient_adapter.py]: the SSE frame adapter [_sse_adapter];
- [telegram_bot.py]: the context rewrite and the token-list pagination.

Conventions.  Python [str] is [string] (ASCII; [lower] and [strip] act on
the ASCII range).  Python dicts, lists and scalars that travel in event
payloads are values of [json].  Timestamps are [Z] microseconds.  Numeric
columns and API numbers are [Z] in units of the stored precision
(NUMERIC(_, 10)); the float conversions of the source are modelled only
as far as they can raise.  The network, the process environment, the
clock and the fault behaviour of the database are fields of [Env]. *)

From Stdlib Require Import String Ascii List ZArith Lia Bool Arith.
From Stdlib Require Decimal DecimalZ DecimalPos.
Import ListNotations.

Local Open Scope string_scope.

(** ** Python string operations *)

Module PyStr.

(** [str.isspace] on the ASCII range: TAB..CR, FS..US and SPACE. *)
Definition is_space (c : ascii) : bool :=
  let n := nat_of_ascii c in
  (((9 <=? n) && (n <=? 13)) || ((28 <=? n) && (n <=? 32)))%nat.

Definition lower_char (c : ascii) : ascii :=
  let n := nat_of_ascii c in
  if ((65 <=? n) && (n <=? 90))%nat then ascii_of_nat (n + 32) else c.

Definition upper_char (c : ascii) : ascii :=
  let n := nat_of_ascii c in
  if ((97 <=? n) && (n <=? 122))%nat then ascii_of_nat (n - 32) else c.

Fixpoint map_chars (f : ascii -> ascii) (s : string) : string :=
  match s with
  | EmptyString => EmptyString
  | String c r => String (f c) (map_chars f r)
  end.

Definition lower : string -> string := map_chars lower_char.
Definition upper : string -> string := map_chars upper_char.

Fixpoint lstrip (s : string) : string :=
  match s with
  | String c r => if is_space c then lstrip r else s
  | EmptyString => EmptyString
  end.

Fixpoint rstrip (s : string) : string :=
  match s with
  | EmptyString => EmptyString
  | String c r =>
      match rstrip r with
      | EmptyString => if is_space c then EmptyString else String c EmptyString
      | r' => String c r'
      end
  end.

Definition strip (s : string) : string := rstrip (lstrip s).

(** [needle in hay] *)
Fixpoint contains (needle hay : string) : bool :=
  String.prefix needle hay ||
  match hay with
  | EmptyString => false
  | String _ r => contains needle r
  end.

(** Python truthiness of a [str]. *)
Definition truthy (s : string) : bool := negb (s =? "").

(** [s[:n]] for [n >= 0]. *)
Definition take (n : nat) (s : string) : string := String.substring 0 n s.

(** [s[-n:]] for [n > 0]. *)
Definition take_last (n : nat) (s : string) : string :=
  String.substring (String.length s - n) n s.

(** The character class [[a-f0-9]]. *)
Definition is_hex_lower (c : ascii) : bool :=
  let n := nat_of_ascii c in
  (((48 <=? n) && (n <=? 57)) || ((97 <=? n) && (n <=? 102)))%nat.

(** [n] characters of class [[a-f0-9]] at the head of [s]. *)
Fixpoint take_hex (n : nat) (s : string) : option string :=
  match n with
  | O => Some EmptyString
  | S n' =>
      match s with
      | String c r =>
          if is_hex_lower c
          then option_map (String c) (take_hex n' r)
          else None
      | EmptyString => None
      end
  end.

(** A match of [0x[a-f0-9]{40}] anchored at the head of [s]. *)
Definition wallet_at (s : string) : option string :=
  match s with
  | String "0" (String "x" r) => option_map (fun h => "0x" ++ h) (take_hex 40 r)
  | _ => None
  end.

(** [re.search(r'0x[a-f0-9]{40}', s)]: the leftmost match, if any. *)
Fixpoint wallet_search (s : string) : option string :=
  match wallet_at s with
  | Some a => Some a
  | None =>
      match s with
      | String _ r => wallet_search r
      | EmptyString => None
      end
  end.

(** [sep.join(parts)] *)
Fixpoint join (sep : string) (parts : list string) : string :=
  match parts with
  | [] => ""
  | [p] => p
  | p :: ps => p ++ sep ++ join sep ps
  end.

End PyStr.

(** ** Python values that travel in payloads

    A [JObj] lists the items of a dict in insertion order; the dicts the
    source builds have distinct keys. *)

#[local] Set Warnings "-register-all".

Inductive json : Type :=
| JNull
| JBool (b : bool)
| JNum (n : Z)
| JStr (s : string)
| JArr (items : list json)
| JObj (fields : list (string * json)).

Module PyDict.

(** [d.get(k)] on an association list in insertion order. *)
Fixpoint assoc (k : string) (fields : list (string * json)) : option json :=
  match fields with
  | [] => None
  | (k', v) :: r => if k' =? k then Some v else assoc k r
  end.

(** [k in d]; on a value that is not a dict the answer is [false]. *)
Definition has_key (k : string) (d : json) : bool :=
  match d with
  | JObj fields => match assoc k fields with Some _ => true | None => false end
  | _ => false
  end.

(** [d.get(k)], [None] being [JNull]. *)
Definition get (k : string) (d : json) : json :=
  match d with
  | JObj fields => match assoc k fields with Some v => v | None => JNull end
  | _ => JNull
  end.

Definition of_opt_num (x : option Z) : json :=
  match x with Some n => JNum n | None => JNull end.

Definition to_opt_num (v : json) : option Z :=
  match v with JNum n => Some n | _ => None end.

Definition of_opt_str (x : option string) : json :=
  match x with Some s => JStr s | None => JNull end.

Definition error_dict (msg : string) : json := JObj [("error", JStr msg)].

(** [type(v).__name__] of a decoded value.  A number of the model is named
    as an [int]; that a number with a fraction is a [float] is not
    modelled. *)
Definition type_name (v : json) : string :=
  match v with
  | JNull => "NoneType"
  | JBool _ => "bool"
  | JNum _ => "int"
  | JStr _ => "str"
  | JArr _ => "list"
  | JObj _ => "dict"
  end.

(** [str(e)] for the [AttributeError] of [v.get] on a value without that
    method. *)
Definition no_attribute_get (v : json) : string :=
  "'" ++ type_name v ++ "' object has no attribute 'get'".

End PyDict.

(** ** The intent resolver ([agent_core.py]) *)

Inductive Intent : Type :=
| GET_WALLET_INFO
| LIST_TOKENS
| GET_OVERVIEW
| GET_PRICE
| GET_NEWS.

Definition intent_str (i : Intent) : string :=
  match i with
  | GET_WALLET_INFO => "GET_WALLET_INFO"
  | LIST_TOKENS => "LIST_TOKENS"
  | GET_OVERVIEW => "GET_OVERVIEW"
  | GET_PRICE => "GET_PRICE"
  | GET_NEWS => "GET_NEWS"
  end.

(** One entry of [FULL_TOKEN_LIST_DETAILED]. *)
Record token_info : Type := mk_token_info {
  tok_id : string;
  tok_name : string;
  tok_symbol : string
}.

(** The dict returned by [parse_natural_language_query]. *)
Record parsed_query : Type := mk_parsed {
  intent : Intent;
  token_id : option string
}.

(** The keyword test that picks the intent (lines 213-217). *)
Definition keyword_intent (text_lower : string) : Intent :=
  if PyStr.contains "price" text_lower
     || PyStr.contains "how much" text_lower
     || PyStr.contains "cost" text_lower
  then GET_PRICE
  else if PyStr.contains "news" text_lower
          || PyStr.contains "headlines" text_lower
          || PyStr.contains "latest" text_lower
  then GET_NEWS
  else GET_OVERVIEW.

(** The body of the loop over the token index (lines 221-228): does this
    entry match the lowered text? *)
Definition token_matches (text_lower : string) (t : token_info) : bool :=
  (text_lower =? tok_id t) || (text_lower =? tok_name t)
  || (text_lower =? tok_symbol t)
  || PyStr.contains (" " ++ tok_name t ++ " ") (" " ++ text_lower ++ " ")
  || PyStr.contains (" " ++ tok_symbol t ++ " ") (" " ++ text_lower ++ " ")
  || PyStr.contains (" " ++ tok_id t ++ " ") (" " ++ text_lower ++ " ").

(** The loop with its [break]: the id of the first matching entry. *)
Fixpoint find_token (text_lower : string) (index : list token_info)
  : option string :=
  match index with
  | [] => None
  | t :: rest =>
      if token_matches text_lower t then Some (tok_id t)
      else find_token text_lower rest
  end.

Definition parse_natural_language_query
  (index : list token_info) (text : string) : parsed_query :=
  let text_lower := PyStr.strip (PyStr.lower text) in
  match PyStr.wallet_search text_lower with
  | Some address => mk_parsed GET_WALLET_INFO (Some address)
  | None =>
      if PyStr.contains "list" text_lower
         || (PyStr.contains "show" text_lower
             && PyStr.contains "token" text_lower)
      then mk_parsed LIST_TOKENS None
      else mk_parsed (keyword_intent text_lower) (find_token text_lower index)
  end.

(** The fallback index installed by [load_full_token_list] (lines 315-319). *)
Definition fallback_token_list : list token_info :=
  [ mk_token_info "bitcoin" "bitcoin" "btc";
    mk_token_info "ethereum" "ethereum" "eth";
    mk_token_info "pi-network" "pi network" "pi" ].

(** ** Events ([main.py]) *)

(** The event names of the producer; [event_name_str] is the string the
    source passes to [format_event]. *)
Inductive event_name : Type :=
| INTENT_RECOGNIZED
| STATUS_UPDATE
| WALLET_INFO_RESULT
| TOKEN_LIST_RESULT
| ERROR
| PRICE_RESULT
| NEWS_RESULT
| DONE.

Definition event_name_str (n : event_name) : string :=
  match n with
  | INTENT_RECOGNIZED => "intent_recognized"
  | STATUS_UPDATE => "status_update"
  | WALLET_INFO_RESULT => "wallet_info_result"
  | TOKEN_LIST_RESULT => "token_list_result"
  | ERROR => "error"
  | PRICE_RESULT => "price_result"
  | NEWS_RESULT => "news_result"
  | DONE => "done"
  end.

Definition event_name_eqb (a b : event_name) : bool :=
  match a, b with
  | INTENT_RECOGNIZED, INTENT_RECOGNIZED
  | STATUS_UPDATE, STATUS_UPDATE
  | WALLET_INFO_RESULT, WALLET_INFO_RESULT
  | TOKEN_LIST_RESULT, TOKEN_LIST_RESULT
  | ERROR, ERROR
  | PRICE_RESULT, PRICE_RESULT
  | NEWS_RESULT, NEWS_RESULT
  | DONE, DONE => true
  | _, _ => false
  end.

(** The two arguments of one [format_event] call. *)
Record event : Type := mk_event {
  ev_name : event_name;
  ev_data : json
}.

(** ** The world outside the process *)

(** A row of [price_history] ([creates_tables.py]): [price] is NOT NULL,
    [market_cap] and [volume_24h] are nullable. *)
Record price_row : Type := mk_price_row {
  pr_token_id : string;
  pr_price : Z;
  pr_market_cap : option Z;
  pr_volume_24h : option Z;
  pr_fetched_at : Z
}.

(** A row of [news_cache]: [articles] holds the stored JSON document. *)
Record news_row : Type := mk_news_row {
  nr_query : string;
  nr_articles : json;
  nr_fetched_at : Z
}.

(** Calls that leave the process, in the order they are made. *)
Inductive call : Type :=
| call_get_db_connection
| call_get_token_price_from_api (token_id : string)
| call_get_news (query : string)
| call_get_wallet_info (address : string)
| call_get_token_list.

Record State : Type := mk_state {
  price_history : list price_row;
  news_cache : list news_row;
  calls : list call
}.

(** The outcome of [requests.get(url)] followed by [raise_for_status()] and
    [.json()]: a [RequestException] or a body of the endpoint's schema. *)
Inductive http (A : Type) : Type :=
| RequestException (e : string)
| Response (body : A).
Arguments RequestException {A} e.
Arguments Response {A} body.

(** [/simple/price]: the object stored under one token id. *)
Record quote : Type := mk_quote {
  usd : option Z;
  usd_market_cap : option Z;
  usd_24h_vol : option Z
}.

(** [/v2/everything]: one element of ['articles']. *)
Record article : Type := mk_article {
  title : option string;
  url : option string
}.

(** [/coins/markets]: one element of the list. *)
Record market : Type := mk_market {
  m_id : string;
  m_name : string;
  m_symbol : string
}.

(** Etherscan [action=balance]. *)
Record balance_reply : Type := mk_balance_reply {
  bal_status : string;
  bal_message : option string;
  bal_result : Z
}.

(** Etherscan [action=txlist] and [action=tokentx]: the ['timeStamp'] of
    each transaction of ['result']. *)
Record tx_reply : Type := mk_tx_reply {
  tx_status : string;
  tx_result : option (list Z)
}.

Inductive db_op : Type := Connect | Select | Insert | Commit.

Record Env : Type := mk_env {
  (** the clock, read by [datetime.now] and by the column default [NOW()] *)
  now : Z;
  FULL_TOKEN_LIST_DETAILED : list token_info;
  getenv : string -> option string;
  (** the message of the [psycopg2] error an operation raises, if any *)
  db_fault : db_op -> option string;
  simple_price : string -> http (list (string * quote));
  everything : string -> http (option (list article));
  markets : http (list market);
  account_balance : string -> http balance_reply;
  account_txlist : string -> http tx_reply;
  account_tokentx : string -> http tx_reply;
  (** [f"{wei / 10**18:.4f} ETH"] *)
  format_eth : Z -> string;
  (** [datetime.utcfromtimestamp(t).strftime('%Y-%m-%d')] *)
  format_date : Z -> string
}.

(** ** Computations: state, exceptions and yielded events *)

Inductive exn : Type :=
| TypeError (msg : string)
| AttributeError (msg : string)
| DatabaseError (msg : string).

(** [str(e)] *)
Definition exn_str (x : exn) : string :=
  match x with TypeError m | AttributeError m | DatabaseError m => m end.

(** A computation yields events, then returns or raises, and leaves a
    state. *)
Definition M (A : Type) : Type := State -> list event * (exn + A) * State.

Definition ret {A} (a : A) : M A := fun s => ([], inr a, s).

Definition raise {A} (x : exn) : M A := fun s => ([], inl x, s).

Definition bind {A B} (m : M A) (k : A -> M B) : M B :=
  fun s =>
    match m s with
    | (out, inl x, s') => (out, inl x, s')
    | (out, inr a, s') =>
        match k a s' with
        | (out', r, s'') => ((out ++ out')%list, r, s'')
        end
    end.

(** [try: body  except Exception as e: handler(e)] *)
Definition try_except {A} (body : M A) (handler : exn -> M A) : M A :=
  fun s =>
    match body s with
    | (out, inl x, s') =>
        match handler x s' with
        | (out', r, s'') => ((out ++ out')%list, r, s'')
        end
    | r => r
    end.

Definition yield (n : event_name) (d : json) : M unit :=
  fun s => ([mk_event n d], inr tt, s).

Definition log_call (c : call) : M unit :=
  fun s => ([], inr tt,
            mk_state (price_history s) (news_cache s) (calls s ++ [c])%list).

Definition get_state : M State := fun s => ([], inr s, s).

Declare Scope py_scope.
Delimit Scope py_scope with py.
Notation "x <- m ;; k" := (bind m (fun x => k))
  (at level 61, m at next level, right associativity) : py_scope.
Notation "m ;; k" := (bind m (fun _ => k))
  (at level 61, right associativity) : py_scope.
Local Open Scope py_scope.

Definition events_of {A} (r : list event * (exn + A) * State) : list event :=
  fst (fst r).
Definition outcome_of {A} (r : list event * (exn + A) * State) : exn + A :=
  snd (fst r).
Definition state_of {A} (r : list event * (exn + A) * State) : State :=
  snd r.

(** ** The database as the accessors use it *)

(** [timedelta(minutes=n)] in microseconds. *)
Definition minutes (n : Z) : Z := n * 60 * 1000000.

Section Select.
Context {R : Type} (key : R -> string) (fetched_at : R -> Z).

(** [WHERE key = k AND fetched_at >= since] *)
Definition qualifies (k : string) (since : Z) (r : R) : bool :=
  (key r =? k) && (since <=? fetched_at r)%Z.

Definition newer (best : option R) (r : R) : option R :=
  match best with
  | None => Some r
  | Some b => if (fetched_at b <? fetched_at r)%Z then Some r else Some b
  end.

(** [ORDER BY fetched_at DESC LIMIT 1]; among rows of equal [fetched_at]
    the earliest inserted is taken. *)
Definition latest (rows : list R) : option R := fold_left newer rows None.

(** [cur.execute("SELECT ... WHERE key = %s AND fetched_at >= %s ORDER BY
    fetched_at DESC LIMIT 1", (k, since))] then [cur.fetchone()]. *)
Definition select_latest (rows : list R) (k : string) (since : Z)
  : option R :=
  latest (filter (qualifies k since) rows).

End Select.

(** An open connection remembers the tables as they were when its
    transaction began, which is what [rollback] returns to. *)
Record connection : Type := mk_conn {
  begin_price : list price_row;
  begin_news : list news_row
}.

Definition get_db_connection (e : Env) : M (option connection) :=
  log_call call_get_db_connection ;;
  match db_fault e Connect with
  | Some _ => ret None
  | None => s <- get_state ;; ret (Some (mk_conn (price_history s) (news_cache s)))
  end.

Definition db_check (e : Env) (op : db_op) : M unit :=
  match db_fault e op with
  | Some msg => raise (DatabaseError msg)
  | None => ret tt
  end.

Definition rollback (conn : connection) : M unit :=
  fun s => ([], inr tt, mk_state (begin_price conn) (begin_news conn) (calls s)).

Definition commit (e : Env) : M unit := db_check e Commit.

Definition select_price (e : Env) (token_id : string) (since : Z)
  : M (option price_row) :=
  db_check e Select ;;
  s <- get_state ;;
  ret (select_latest pr_token_id pr_fetched_at (price_history s) token_id since).

Definition select_news (e : Env) (query : string) (since : Z)
  : M (option news_row) :=
  db_check e Select ;;
  s <- get_state ;;
  ret (select_latest nr_query nr_fetched_at (news_cache s) query since).

(** [INSERT INTO price_history (token_id, price, market_cap, volume_24h)]:
    [fetched_at] takes its default [NOW()]; a NULL price violates the
    column constraint.  The numbers are kept as given: that a column
    refuses a number beyond its precision is not modelled here (see
    [fits_numeric]). *)
Definition insert_price (e : Env) (token_id : string)
  (price market_cap volume_24h : option Z) : M unit :=
  db_check e Insert ;;
  match price with
  | None =>
      raise (DatabaseError
               "null value in column price violates not-null constraint")
  | Some p =>
      fun s => ([], inr tt,
                mk_state
                  (price_history s
                   ++ [mk_price_row token_id p market_cap volume_24h (now e)])%list
                  (news_cache s) (calls s))
  end.

(** [INSERT INTO news_cache (query, articles)].  The document is kept as
    given: the JSONB column keeps its content, and may return the keys of
    an object in another order (see [same_value]). *)
Definition insert_news (e : Env) (query : string) (articles : json) : M unit :=
  db_check e Insert ;;
  fun s => ([], inr tt,
            mk_state (price_history s)
              (news_cache s ++ [mk_news_row query articles (now e)])%list
              (calls s)).

(** [float(x)] on a column value. *)
Definition py_float (x : option Z) : M Z :=
  match x with
  | Some n => ret n
  | None =>
      raise (TypeError
               "float() argument must be a string or a real number, not 'NoneType'")
  end.

(** ** The fetchers ([agent_core.py]) *)

Fixpoint lookup {A} (k : string) (l : list (string * A)) : option A :=
  match l with
  | [] => None
  | (k', v) :: r => if k' =? k then Some v else lookup k r
  end.

Definition get_token_price_from_api (e : Env) (token_id : string) : M json :=
  log_call (call_get_token_price_from_api token_id) ;;
  match simple_price e token_id with
  | RequestException x => ret (PyDict.error_dict ("API request failed: " ++ x))
  | Response data =>
      match lookup token_id data with
      | None =>
          ret (PyDict.error_dict
                 ("Could not find price data for '" ++ token_id ++ "'."))
      | Some price_data =>
          ret (JObj [("price", PyDict.of_opt_num (usd price_data));
                     ("market_cap", PyDict.of_opt_num (usd_market_cap price_data));
                     ("volume_24h", PyDict.of_opt_num (usd_24h_vol price_data))])
      end
  end.

Definition env_key (e : Env) (name : string) : option string :=
  match getenv e name with
  | Some k => if PyStr.truthy k then Some k else None
  | None => None
  end.

Definition article_dict (a : article) : json :=
  JObj [("title", PyDict.of_opt_str (title a));
        ("url", PyDict.of_opt_str (url a))].

Definition get_news (e : Env) (query : string) : M json :=
  log_call (call_get_news query) ;;
  match env_key e "NEWS_API_KEY" with
  | None =>
      ret (PyDict.error_dict
             "NewsAPI key not found. Please set NEWS_API_KEY in your .env file.")
  | Some _ =>
      match everything e query with
      | RequestException x => ret (PyDict.error_dict ("API request failed:" ++ x))
      | Response data =>
          let articles :=
            map article_dict (match data with Some l => l | None => [] end) in
          ret (JObj [("articles", JArr articles)])
      end
  end.

Definition token_entry (t : market) : json :=
  JObj [("id", JStr (m_id t));
        ("text", JStr (m_name t ++ " (" ++ PyStr.upper (m_symbol t) ++ ")"))].

Definition get_token_list (e : Env) : M json :=
  log_call call_get_token_list ;;
  match markets e with
  | RequestException _ =>
      ret (JArr [JObj [("id", JStr ""); ("text", JStr "Error fetching tokens")]])
  | Response l => ret (JArr (map token_entry l))
  end.

Definition tx_list (r : tx_reply) : list Z :=
  if tx_status r =? "1"
  then match tx_result r with Some l => l | None => [] end
  else [].

Definition get_wallet_info (e : Env) (address : string) : M json :=
  log_call (call_get_wallet_info address) ;;
  match env_key e "ETHERSCAN_API_KEY" with
  | None => ret (PyDict.error_dict "Etherscan API key not found.")
  | Some _ =>
      match account_balance e address with
      | RequestException x => ret (PyDict.error_dict ("API request failed: " ++ x))
      | Response balance_data =>
          if negb (bal_status balance_data =? "1")
          then ret (PyDict.error_dict
                      (match bal_message balance_data with
                       | Some m => m
                       | None => "Failed to fetch balance"
                       end))
          else
            match account_txlist e address with
            | RequestException x =>
                ret (PyDict.error_dict ("API request failed: " ++ x))
            | Response normal_tx_data =>
                let normal_tx_list := tx_list normal_tx_data in
                match account_tokentx e address with
                | RequestException x =>
                    ret (PyDict.error_dict ("API request failed: " ++ x))
                | Response token_tx_data =>
                    let token_tx_count := length (tx_list token_tx_data) in
                    let first_tx_date :=
                      match normal_tx_list with
                      | t :: _ => format_date e t
                      | [] => "N/A"
                      end in
                    let last_tx_date :=
                      match List.rev normal_tx_list with
                      | t :: _ => format_date e t
                      | [] => "N/A"
                      end in
                    ret (JObj
                      [("address", JStr address);
                       ("etherscan_url",
                        JStr ("https://etherscan.io/address/" ++ address));
                       ("eth_balance",
                        JStr (format_eth e (bal_result balance_data)));
                       ("normal_transaction_count",
                        JNum (Z.of_nat (length normal_tx_list)));
                       ("token_transaction_count",
                        JNum (Z.of_nat token_tx_count));
                       ("first_transaction", JStr first_tx_date);
                       ("last_transaction", JStr last_tx_date)])
                end
            end
      end
  end.

(** ** The cache-aside accessors ([agent_core.py]) *)

(** The cache check of [get_smart_token_price] (lines 47-52): the cut-off
    five minutes before now, the query, [fetchone]. *)
Definition cached_price (e : Env) (token_id : string) : M (option price_row) :=
  let five_minutes_ago := (now e - minutes 5)%Z in
  select_price e token_id five_minutes_ago.

(** The cache check of [get_smart_news] (lines 117-120). *)
Definition cached_news (e : Env) (query : string) : M (option news_row) :=
  let sixty_minutes_ago := (now e - minutes 60)%Z in
  select_news e query sixty_minutes_ago.

(** The [try] block of [get_smart_token_price]. *)
Definition get_smart_token_price_try (e : Env) (token_id : string) : M json :=
  cached_result <- cached_price e token_id ;;
  match cached_result with
  | Some row =>
      p <- py_float (Some (pr_price row)) ;;
      m <- py_float (pr_market_cap row) ;;
      v <- py_float (pr_volume_24h row) ;;
      ret (JObj [("price", JNum p);
                 ("market_cap", JNum m);
                 ("volume_24h", JNum v)])
  | None =>
      api_data <- get_token_price_from_api e token_id ;;
      if PyDict.has_key "error" api_data then ret api_data
      else
        insert_price e token_id
          (PyDict.to_opt_num (PyDict.get "price" api_data))
          (PyDict.to_opt_num (PyDict.get "market_cap" api_data))
          (PyDict.to_opt_num (PyDict.get "volume_24h" api_data)) ;;
        commit e ;;
        ret api_data
  end.

Definition get_smart_token_price (e : Env) (token_id : string) : M json :=
  conn <- get_db_connection e ;;
  match conn with
  | None => ret (PyDict.error_dict "Database connection failed.")
  | Some conn =>
      try_except
        (get_smart_token_price_try e token_id)
        (fun _ =>
           rollback conn ;;
           ret (PyDict.error_dict "An internal database error occurred."))
  end.

(** The [try] block of [get_smart_news]. *)
Definition get_smart_news_try (e : Env) (query : string) : M json :=
  cached_result <- cached_news e query ;;
  match cached_result with
  | Some row => ret (JObj [("articles", nr_articles row)])
  | None =>
      api_data <- get_news e query ;;
      if PyDict.has_key "error" api_data then ret api_data
      else
        insert_news e query (PyDict.get "articles" api_data) ;;
        commit e ;;
        ret api_data
  end.

Definition get_smart_news (e : Env) (query : string) : M json :=
  conn <- get_db_connection e ;;
  match conn with
  | None => ret (PyDict.error_dict "Database connection failed.")
  | Some conn =>
      try_except
        (get_smart_news_try e query)
        (fun x =>
           rollback conn ;;
           ret (PyDict.error_dict
                  ("An internal database error occurred: " ++ exn_str x)))
  end.

(** ** The event producer ([main.py]) *)

Definition in_intents (i : Intent) (l : list Intent) : bool :=
  existsb (fun j => intent_str i =? intent_str j) l.

(** Python truthiness of the [token] variable. *)
Definition token_truthy (token : option string) : bool :=
  match token with
  | Some t => PyStr.truthy t
  | None => false
  end.

(** The yields of [stream_agent_response], each as the pair handed to
    [format_event]; the sleeps between them are not modelled. *)
Definition stream_agent_response_events (e : Env) (question : string) : M unit :=
  let parsed_query :=
    parse_natural_language_query (FULL_TOKEN_LIST_DETAILED e) question in
  let intent := intent parsed_query in
  let token := token_id parsed_query in
  yield INTENT_RECOGNIZED
    (JObj [("intent", JStr (intent_str intent));
           ("token", PyDict.of_opt_str token)]) ;;
  if intent_str intent =? "GET_WALLET_INFO" then
    match token with
    | None => raise (TypeError "'NoneType' object is not subscriptable")
    | Some address =>
        yield STATUS_UPDATE
          (JStr ("Fetching info for wallet " ++ PyStr.take 6 address
                 ++ "..." ++ PyStr.take_last 4 address)) ;;
        wallet_data <- get_wallet_info e address ;;
        yield WALLET_INFO_RESULT wallet_data ;;
        yield DONE (JStr "Stream finished.")
    end
  else if intent_str intent =? "LIST_TOKENS" then
    yield STATUS_UPDATE (JStr "Fetching full token list...") ;;
    token_list <- get_token_list e ;;
    yield TOKEN_LIST_RESULT (JObj [("tokens", token_list)]) ;;
    yield DONE (JStr "Stream finished.")
  else if negb (token_truthy token) then
    yield ERROR
      (JObj [("message",
              JStr "Sorry, I couldn't identify a cryptocurrency in your question.")]) ;;
    yield DONE (JStr "Stream finished.")
  else
    let token := match token with Some t => t | None => "" end in
    (if in_intents intent [GET_PRICE; GET_OVERVIEW] then
       yield STATUS_UPDATE (JStr ("Fetching price for " ++ token ++ "...")) ;;
       price_data <- get_smart_token_price e token ;;
       if PyDict.has_key "error" price_data then yield ERROR price_data
       else yield PRICE_RESULT price_data
     else ret tt) ;;
    (if in_intents intent [GET_NEWS; GET_OVERVIEW] then
       yield STATUS_UPDATE (JStr ("Fetching news for " ++ token ++ "...")) ;;
       news_data <- get_smart_news e token ;;
       if PyDict.has_key "error" news_data then yield ERROR news_data
       else yield NEWS_RESULT news_data
     else ret tt) ;;
    yield DONE (JStr "Stream finished.").

(** ** Vocabulary of the results, and sample worlds *)

Definition empty_state : State := mk_state [] [] [].

Definition no_fault : db_op -> option string := fun _ => None.

(** A world for examples: the fallback token index, both API keys set, a
    healthy database, a price endpoint that knows bitcoin, and the other
    endpoints unreachable. *)
Definition demo_env (t : Z) : Env :=
  mk_env t fallback_token_list
    (fun _ => Some "key")
    no_fault
    (fun id => Response [("bitcoin", mk_quote (Some 650000000000000%Z) (Some 1%Z) (Some 2%Z))])
    (fun _ => RequestException "down")
    (RequestException "down")
    (fun _ => RequestException "down")
    (fun _ => RequestException "down")
    (fun _ => RequestException "down")
    (fun _ => "0.0000 ETH")
    (fun _ => "1970-01-01").

(** [m] yields nothing and returns normally from every state. *)
Definition returns {A} (m : M A) : Prop :=
  forall s, exists a s', m s = ([], inr a, s').

Definition intent_event (i : Intent) (token : option string) : event :=
  mk_event INTENT_RECOGNIZED
    (JObj [("intent", JStr (intent_str i)); ("token", PyDict.of_opt_str token)]).

Definition done_event : event := mk_event DONE (JStr "Stream finished.").

Definition no_subject_event : event :=
  mk_event ERROR
    (JObj [("message",
            JStr "Sorry, I couldn't identify a cryptocurrency in your question.")]).

(** The event a price sub-step ends with, given what the accessor returned. *)
Definition price_event (price_data : json) : event :=
  if PyDict.has_key "error" price_data then mk_event ERROR price_data
  else mk_event PRICE_RESULT price_data.

Definition news_event (news_data : json) : event :=
  if PyDict.has_key "error" news_data then mk_event ERROR news_data
  else mk_event NEWS_RESULT news_data.

Definition wallet_status_event (address : string) : event :=
  mk_event STATUS_UPDATE
    (JStr ("Fetching info for wallet " ++ PyStr.take 6 address
           ++ "..." ++ PyStr.take_last 4 address)).

Definition parse_of (e : Env) (question : string) : parsed_query :=
  parse_natural_language_query (FULL_TOKEN_LIST_DETAILED e) question.

(** The runs of the producer, as a relation between the question, the state
    before, the events yielded and the state after. *)
Inductive run (e : Env) (q : string) (s : State) : list event -> State -> Prop :=
| run_wallet a w s' :
    parse_of e q = mk_parsed GET_WALLET_INFO (Some a) ->
    get_wallet_info e a s = ([], inr w, s') ->
    run e q s
      [intent_event GET_WALLET_INFO (Some a); wallet_status_event a;
       mk_event WALLET_INFO_RESULT w; done_event] s'
| run_list l s' :
    parse_of e q = mk_parsed LIST_TOKENS None ->
    get_token_list e s = ([], inr l, s') ->
    run e q s
      [intent_event LIST_TOKENS None;
       mk_event STATUS_UPDATE (JStr "Fetching full token list...");
       mk_event TOKEN_LIST_RESULT (JObj [("tokens", l)]); done_event] s'
| run_no_subject i t :
    parse_of e q = mk_parsed i t ->
    i = GET_PRICE \/ i = GET_NEWS \/ i = GET_OVERVIEW ->
    token_truthy t = false ->
    run e q s [intent_event i t; no_subject_event; done_event] s
| run_price t p s' :
    parse_of e q = mk_parsed GET_PRICE (Some t) ->
    PyStr.truthy t = true ->
    get_smart_token_price e t s = ([], inr p, s') ->
    run e q s
      [intent_event GET_PRICE (Some t);
       mk_event STATUS_UPDATE (JStr ("Fetching price for " ++ t ++ "..."));
       price_event p; done_event] s'
| run_news t n s' :
    parse_of e q = mk_parsed GET_NEWS (Some t) ->
    PyStr.truthy t = true ->
    get_smart_news e t s = ([], inr n, s') ->
    run e q s
      [intent_event GET_NEWS (Some t);
       mk_event STATUS_UPDATE (JStr ("Fetching news for " ++ t ++ "..."));
       news_event n; done_event] s'
| run_overview t p s1 n s2 :
    parse_of e q = mk_parsed GET_OVERVIEW (Some t) ->
    PyStr.truthy t = true ->
    get_smart_token_price e t s = ([], inr p, s1) ->
    get_smart_news e t s1 = ([], inr n, s2) ->
    run e q s
      [intent_event GET_OVERVIEW (Some t);
       mk_event STATUS_UPDATE (JStr ("Fetching price for " ++ t ++ "..."));
       price_event p;
       mk_event STATUS_UPDATE (JStr ("Fetching news for " ++ t ++ "..."));
       news_event n; done_event] s2.

Definition count_name (n : event_name) (evs : list event) : nat :=
  length (filter (fun ev => event_name_eqb (ev_name ev) n) evs).

Definition first_name (evs : list event) : option event_name :=
  option_map ev_name (hd_error evs).

Definition last_name (evs : list event) : option event_name :=
  option_map ev_name (hd_error (rev evs)).

(** The freshness test in the words of the contract: the age of the entry
    does not exceed the window. *)
Definition within_window (window now fetched_at : Z) : Prop :=
  (now - fetched_at <= window)%Z.

(** What a lookup owes its caller: a hit exactly when some entry of the key
    is within the window, and then the most recent such entry. *)
Definition lookup_law {R : Type} (key : R -> string) (fetched_at : R -> Z)
  (rows : list R) (k : string) (now window : Z) (hit : option R) : Prop :=
  (hit <> None
   <-> exists r, In r rows /\ key r = k
                 /\ within_window window now (fetched_at r))
  /\ (forall r, hit = Some r ->
        In r rows /\ key r = k /\ within_window window now (fetched_at r)
        /\ forall r', In r' rows -> key r' = k ->
                      within_window window now (fetched_at r') ->
                      (fetched_at r' <= fetched_at r)%Z).

(** A state with a stale and a fresh bitcoin price and one news row, seen
    ten minutes after the first price was stored. *)
Definition sample_state : State :=
  mk_state
    [ mk_price_row "bitcoin" 640000000000000%Z (Some 1%Z) (Some 2%Z) 0%Z;
      mk_price_row "bitcoin" 650000000000000%Z (Some 1%Z) (Some 2%Z) (minutes 8) ]
    [ mk_news_row "bitcoin" (JArr []) 0%Z ]
    [].

(** A world without API keys in the process environment. *)
Definition keyless_env (t : Z) : Env :=
  mk_env t fallback_token_list
    (fun _ => None)
    no_fault
    (fun _ => Response [])
    (fun _ => Response None)
    (Response [])
    (fun _ => RequestException "unused")
    (fun _ => RequestException "unused")
    (fun _ => RequestException "unused")
    (fun _ => "0.0000 ETH")
    (fun _ => "1970-01-01").

Definition wallet_question : string :=
  "0x00000000219ab540356cbb839cbe05303d7705fa".

(** A world in which the database refuses connections. *)
Definition db_down_env (t : Z) : Env :=
  mk_env t fallback_token_list
    (fun _ => Some "key")
    (fun op => match op with Connect => Some "connection refused" | _ => None end)
    (fun _ => Response [])
    (fun _ => Response None)
    (Response [])
    (fun _ => RequestException "unused")
    (fun _ => RequestException "unused")
    (fun _ => RequestException "unused")
    (fun _ => "0.0000 ETH")
    (fun _ => "1970-01-01").

(** The intents that need a subject. *)
Definition requires_subject (i : Intent) : bool :=
  in_intents i [GET_PRICE; GET_NEWS; GET_OVERVIEW].

(** ** The chat side ([telegram_bot.py]): context rewrite *)

(** The memory fields of a session dict, with the three ids sent to the
    agent. *)
Record Session : Type := mk_session {
  processor_id : string;
  activity_id : string;
  request_id : string;
  last_token : option string;
  last_intent : option string;
  history : list string
}.

(** [_new_session()], given the three fresh ULIDs. *)
Definition _new_session (id1 id2 id3 : string) : Session :=
  mk_session id1 id2 id3 None None [].

Definition TRIGGER_WORDS : list string :=
  ["price"; "news"; "overview"; "now"; "price now"; "news now";
   "check price"; "check news"].

Definition mem (x : string) (l : list string) : bool :=
  existsb (String.eqb x) l.

Definition build_contextual_prompt (raw : string) (session : Session) : string :=
  let msg := PyStr.strip raw in
  match last_token session with
  | Some token =>
      if PyStr.truthy token then
        let lower := PyStr.lower msg in
        if mem lower TRIGGER_WORDS then token ++ " " ++ msg
        else if mem lower ["price"; "news"; "overview"; "now"]
             then token ++ " " ++ msg
             else msg
      else msg
  | None => msg
  end.

(** The memory update of [handle_message] on an [intent_recognized] event
    (lines 261-267). *)
Definition remember (data : json) (session : Session) : Session :=
  let intent := PyDict.get "intent" data in
  let token := PyDict.get "token" data in
  let session1 :=
    match intent with
    | JStr i =>
        if PyStr.truthy i
        then mk_session (processor_id session) (activity_id session)
               (request_id session) (last_token session) (Some i)
               (history session)
        else session
    | _ => session
    end in
  match token with
  | JStr t =>
      if PyStr.truthy t
      then mk_session (processor_id session1) (activity_id session1)
             (request_id session1) (Some t) (last_intent session1)
             (history session1)
      else session1
  | _ => session1
  end.

(** ** The chat side ([telegram_bot.py]): token-list pagination *)

Module Paging.

(** [l[i:j]] for any integers [i] and [j], negative ones counting from the
    end. *)
Definition clamp (len k : Z) : Z :=
  if (k <? 0)%Z then Z.max 0 (len + k) else Z.min k len.

Definition py_slice {A} (l : list A) (i j : Z) : list A :=
  let len := Z.of_nat (length l) in
  let i' := clamp len i in
  let j' := clamp len j in
  firstn (Z.to_nat (j' - i')) (skipn (Z.to_nat i') l).

(** [data.split('_')[-1]] *)
Fixpoint last_part (acc s : string) : string :=
  match s with
  | EmptyString => acc
  | String c r =>
      if Ascii.eqb c "_" then last_part EmptyString r
      else last_part (acc ++ String c EmptyString) r
  end.

Definition digit_of (c : ascii) : option Z :=
  let n := nat_of_ascii c in
  if ((48 <=? n) && (n <=? 57))%nat then Some (Z.of_nat (n - 48)) else None.

Fixpoint digits (acc : Z) (s : string) : option Z :=
  match s with
  | EmptyString => Some acc
  | String c r =>
      match digit_of c with
      | Some d => digits (10 * acc + d) r
      | None => None
      end
  end.

(** [int(s)] on a decimal literal with an optional sign and surrounding
    white space; [None] stands for [ValueError]. *)
Definition py_int (s : string) : option Z :=
  match PyStr.strip s with
  | EmptyString => None
  | String "-" (String c r) => option_map Z.opp (digits 0 (String c r))
  | String "+" (String c r) => digits 0 (String c r)
  | t => digits 0 t
  end.

Definition digit_char (d : Z) : ascii := ascii_of_nat (48 + Z.to_nat d).

Fixpoint nat_str (fuel : nat) (n : Z) (acc : string) : string :=
  match fuel with
  | O => acc
  | S fuel' =>
      let acc' := String (digit_char (n mod 10)) acc in
      if (n <? 10)%Z then acc' else nat_str fuel' (n / 10) acc'
  end.

(** [str(n)] for an [int]. *)
Definition py_str_int (n : Z) : string :=
  if (n <? 0)%Z
  then "-" ++ nat_str (S (Z.to_nat (- n))) (- n) ""
  else nat_str (S (Z.to_nat n)) n "".

(** What one rendering shows: the slice of the token list and the callback
    data of the "Show More" button, if the keyboard has one. *)
Record page : Type := mk_page {
  tokens_to_show : list json;
  keyboard : option string
}.

(** The [token_list_result] branch of [handle_message] (lines 293-309). *)
Definition token_list_page (tokens : list json) : page :=
  mk_page (py_slice tokens 0 20)
    (if (20 <? Z.of_nat (length tokens))%Z then Some "more_tokens_20" else None).

Inductive callback_result : Type :=
| InvalidButtonData
| ListExpired
| Edited (p : page).

(** [button_callback], given the callback data of the pressed button and
    [context.bot_data.get('full_token_list', [])]. *)
Definition button_callback (data : string) (full_token_list : list json)
  : callback_result :=
  let next_start_index_str := last_part "" data in
  match py_int next_start_index_str with
  | None => InvalidButtonData
  | Some next_start_index =>
      match full_token_list with
      | [] => ListExpired
      | _ =>
          let end_index := (next_start_index + 20)%Z in
          Edited
            (mk_page (py_slice full_token_list next_start_index end_index)
               (if (end_index <? Z.of_nat (length full_token_list))%Z
                then Some ("more_tokens_" ++ py_str_int end_index)
                else None))
      end
  end.

End Paging.

Import Paging.

Definition forty_five_tokens : list json :=
  map (fun n => JObj [("id", JStr "t"); ("text", JNum (Z.of_nat n))]) (seq 0 45).

(** The state once [get_db_connection] has been called. *)
Definition connected (s : State) : State :=
  mk_state (price_history s) (news_cache s)
    (calls s ++ [call_get_db_connection])%list.

(** A price endpoint that knows bitcoin's price and volume but has no market
    capitalisation for it. *)
Definition no_market_cap_env (t : Z) : Env :=
  mk_env t fallback_token_list
    (fun _ => Some "key")
    no_fault
    (fun _ => Response [("bitcoin", mk_quote (Some 650000000000000%Z) None (Some 2%Z))])
    (fun _ => RequestException "down")
    (RequestException "down")
    (fun _ => RequestException "down")
    (fun _ => RequestException "down")
    (fun _ => RequestException "down")
    (fun _ => "0.0000 ETH")
    (fun _ => "1970-01-01").

(** The state a first price query leaves in that world: one row, with NULL
    in [market_cap]. *)
Definition null_cap_state : State :=
  mk_state
    [mk_price_row "bitcoin" 650000000000000%Z None (Some 2%Z) 0%Z]
    []
    [call_get_db_connection; call_get_token_price_from_api "bitcoin"].

(** ** The JSON codec *)

Definition newline : string := String "010" EmptyString.

(** Python truthiness of a payload value. *)
Definition py_truthy (v : json) : bool :=
  match v with
  | JNull => false
  | JBool b => b
  | JNum n => negb (n =? 0)%Z
  | JStr s => PyStr.truthy s
  | JArr l => match l with [] => false | _ => true end
  | JObj l => match l with [] => false | _ => true end
  end.

(** The part of Python's [json] module and of [str] that the pipeline relies
    on: [loads] reads back what [dumps] wrote, also when a newline follows,
    and a string formats as itself.  [loads] answers [None] where
    [json.loads] raises [JSONDecodeError]. *)
Class JsonCodec : Type := {
  dumps : json -> string;
  loads : string -> option json;
  py_str : json -> string;
  loads_dumps_line : forall v, loads (dumps v ++ newline) = Some v;
  py_str_str : forall s, py_str (JStr s) = s
}.

(** *** A reference codec

A printer with the separators of [json.dumps] and a parser for what it
prints.  Of the characters of a string, the quote, the backslash and the
five control characters with a short escape are escaped; the others are
written as they are. *)

Module RefJson.
Import Decimal.

(** *** Strings *)

(** The letter that follows the backslash in the escape of [c], if [c] is
    written as an escape. *)
Definition escape_letter (c : ascii) : option ascii :=
  if Ascii.eqb c "034" then Some "034"%char
  else if Ascii.eqb c "\" then Some "\"%char
  else if Ascii.eqb c "010" then Some "n"%char
  else if Ascii.eqb c "013" then Some "r"%char
  else if Ascii.eqb c "009" then Some "t"%char
  else if Ascii.eqb c "008" then Some "b"%char
  else if Ascii.eqb c "012" then Some "f"%char
  else None.

(** The character an escape letter stands for. *)
Definition unescape (e : ascii) : option ascii :=
  if Ascii.eqb e "034" then Some "034"%char
  else if Ascii.eqb e "\" then Some "\"%char
  else if Ascii.eqb e "/" then Some "/"%char
  else if Ascii.eqb e "n" then Some "010"%char
  else if Ascii.eqb e "r" then Some "013"%char
  else if Ascii.eqb e "t" then Some "009"%char
  else if Ascii.eqb e "b" then Some "008"%char
  else if Ascii.eqb e "f" then Some "012"%char
  else None.

(** One character of a string literal, written in front of [rest]. *)
Definition print_char (c : ascii) (rest : string) : string :=
  match escape_letter c with
  | Some e => String "\" (String e rest)
  | None => String c rest
  end.

Fixpoint print_chars (s : string) (rest : string) : string :=
  match s with
  | EmptyString => rest
  | String c r => print_char c (print_chars r rest)
  end.

Definition print_string (s : string) (rest : string) : string :=
  String "034" (print_chars s (String "034" rest)).

(** The characters of a string literal up to its closing quote. *)
Fixpoint parse_chars (s : string) : option (string * string) :=
  match s with
  | EmptyString => None
  | String c r =>
      if Ascii.eqb c "034" then Some (EmptyString, r)
      else if Ascii.eqb c "\" then
        match r with
        | String e r1 =>
            match unescape e, parse_chars r1 with
            | Some ch, Some (t, r3) => Some (String ch t, r3)
            | _, _ => None
            end
        | EmptyString => None
        end
      else
        match parse_chars r with
        | Some (t, r3) => Some (String c t, r3)
        | None => None
        end
  end.

(** *** Numbers *)

Fixpoint print_uint (d : uint) (rest : string) : string :=
  match d with
  | Nil => rest
  | D0 d => String "0" (print_uint d rest)
  | D1 d => String "1" (print_uint d rest)
  | D2 d => String "2" (print_uint d rest)
  | D3 d => String "3" (print_uint d rest)
  | D4 d => String "4" (print_uint d rest)
  | D5 d => String "5" (print_uint d rest)
  | D6 d => String "6" (print_uint d rest)
  | D7 d => String "7" (print_uint d rest)
  | D8 d => String "8" (print_uint d rest)
  | D9 d => String "9" (print_uint d rest)
  end.

Definition print_int (z : Z) (rest : string) : string :=
  match Z.to_int z with
  | Pos d => print_uint d rest
  | Neg d => String "-" (print_uint d rest)
  end.

Definition digit (c : ascii) : option (uint -> uint) :=
  if Ascii.eqb c "0" then Some D0
  else if Ascii.eqb c "1" then Some D1
  else if Ascii.eqb c "2" then Some D2
  else if Ascii.eqb c "3" then Some D3
  else if Ascii.eqb c "4" then Some D4
  else if Ascii.eqb c "5" then Some D5
  else if Ascii.eqb c "6" then Some D6
  else if Ascii.eqb c "7" then Some D7
  else if Ascii.eqb c "8" then Some D8
  else if Ascii.eqb c "9" then Some D9
  else None.

(** The longest run of digits at the head of [s]. *)
Fixpoint parse_uint (s : string) : uint * string :=
  match s with
  | EmptyString => (Nil, s)
  | String c r =>
      match digit c with
      | Some k => let (d, r') := parse_uint r in (k d, r')
      | None => (Nil, s)
      end
  end.

(** [s] does not go on with a digit. *)
Definition ends_number (s : string) : Prop :=
  match s with
  | EmptyString => True
  | String c _ => digit c = None
  end.

(** *** Values *)

Section Tails.
Context (print : json -> string -> string).

(** What follows the first element of a list: the other elements, each
    after a comma and a space, and the closing bracket. *)
Fixpoint print_elems (xs : list json) (rest : string) : string :=
  match xs with
  | [] => String "]" rest
  | y :: ys => String "," (String " " (print y (print_elems ys rest)))
  end.

Definition print_member (kv : string * json) (rest : string) : string :=
  print_string (fst kv) (String ":" (String " " (print (snd kv) rest))).

Fixpoint print_members (kvs : list (string * json)) (rest : string) : string :=
  match kvs with
  | [] => String "}" rest
  | kv :: kvs' => String "," (String " " (print_member kv (print_members kvs' rest)))
  end.

End Tails.

(** [print v rest] is the text of [v] followed by [rest]. *)
Fixpoint print (v : json) (rest : string) {struct v} : string :=
  match v with
  | JNull => "null" ++ rest
  | JBool true => "true" ++ rest
  | JBool false => "false" ++ rest
  | JNum z => print_int z rest
  | JStr s => print_string s rest
  | JArr [] => String "[" (String "]" rest)
  | JArr (x :: xs) =>
      String "["
        (print x
           ((fix elems (xs : list json) : string :=
               match xs with
               | [] => String "]" rest
               | y :: ys => String "," (String " " (print y (elems ys)))
               end) xs))
  | JObj [] => String "{" (String "}" rest)
  | JObj ((k, x) :: kvs) =>
      String "{"
        (print_string k (String ":" (String " "
           (print x
              ((fix members (kvs : list (string * json)) : string :=
                  match kvs with
                  | [] => String "}" rest
                  | (k', y) :: kvs' =>
                      String "," (String " "
                        (print_string k' (String ":" (String " "
                           (print y (members kvs'))))))
                  end) kvs)))))
  end.

Definition head_is (c : ascii) (s : string) : bool :=
  match s with
  | String c' _ => Ascii.eqb c' c
  | EmptyString => false
  end.

Definition tail (s : string) : string :=
  match s with
  | String _ r => r
  | EmptyString => EmptyString
  end.

(** [s] without the prefix [p], when it has it. *)
Fixpoint expect (p s : string) : option string :=
  match p with
  | EmptyString => Some s
  | String c p' =>
      match s with
      | String c' s' => if Ascii.eqb c' c then expect p' s' else None
      | EmptyString => None
      end
  end.

Definition parse_member (parse : string -> option (json * string)) (s : string)
  : option ((string * json) * string) :=
  if head_is "034" s then
    match parse_chars (tail s) with
    | Some (k, r) =>
        match expect ": " r with
        | Some r1 =>
            match parse r1 with
            | Some (x, r2) => Some ((k, x), r2)
            | None => None
            end
        | None => None
        end
    | None => None
    end
  else None.

Definition parse_number (neg : bool) (s : string) : option (json * string) :=
  match parse_uint s with
  | (Nil, _) => None
  | (d, r) => Some (JNum (Z.of_int (if neg then Neg d else Pos d)), r)
  end.

Definition parse_literal (word : string) (v : json) (s : string)
  : option (json * string) :=
  match expect word s with
  | Some r => Some (v, r)
  | None => None
  end.

(** A value at the head of [s], and what follows it.  [fuel] bounds the
    number of characters that may be looked at. *)
Fixpoint parse (fuel : nat) (s : string) {struct fuel} : option (json * string) :=
  match fuel with
  | O => None
  | S fuel' =>
      if head_is "n" s then parse_literal "null" JNull s
      else if head_is "t" s then parse_literal "true" (JBool true) s
      else if head_is "f" s then parse_literal "false" (JBool false) s
      else if head_is "034" s then
        match parse_chars (tail s) with
        | Some (t, r) => Some (JStr t, r)
        | None => None
        end
      else if head_is "-" s then parse_number true (tail s)
      else if head_is "[" s then
        if head_is "]" (tail s) then Some (JArr [], tail (tail s))
        else
          match parse fuel' (tail s) with
          | Some (x, r) =>
              match parse_elems fuel' r with
              | Some (xs, r') => Some (JArr (x :: xs), r')
              | None => None
              end
          | None => None
          end
      else if head_is "{" s then
        if head_is "}" (tail s) then Some (JObj [], tail (tail s))
        else
          match parse_member (parse fuel') (tail s) with
          | Some (kv, r) =>
              match parse_members fuel' r with
              | Some (kvs, r') => Some (JObj (kv :: kvs), r')
              | None => None
              end
          | None => None
          end
      else parse_number false s
  end

with parse_elems (fuel : nat) (s : string) {struct fuel}
  : option (list json * string) :=
  match fuel with
  | O => None
  | S fuel' =>
      if head_is "]" s then Some ([], tail s)
      else
        match expect ", " s with
        | Some r =>
            match parse fuel' r with
            | Some (y, r') =>
                match parse_elems fuel' r' with
                | Some (ys, r'') => Some (y :: ys, r'')
                | None => None
                end
            | None => None
            end
        | None => None
        end
  end

with parse_members (fuel : nat) (s : string) {struct fuel}
  : option (list (string * json) * string) :=
  match fuel with
  | O => None
  | S fuel' =>
      if head_is "}" s then Some ([], tail s)
      else
        match expect ", " s with
        | Some r =>
            match parse_member (parse fuel') r with
            | Some (kv, r') =>
                match parse_members fuel' r' with
                | Some (kvs, r'') => Some (kv :: kvs, r'')
                | None => None
                end
            | None => None
            end
        | None => None
        end
  end.

Fixpoint all_space (s : string) : bool :=
  match s with
  | EmptyString => true
  | String c r => PyStr.is_space c && all_space r
  end.

Definition dumps (v : json) : string := print v "".

Definition loads (s : string) : option json :=
  match parse (String.length s) s with
  | Some (v, r) => if all_space r then Some v else None
  | None => None
  end.


(** [str(x)]; a list or a dict is rendered as [dumps] does. *)
Definition py_str (v : json) : string :=
  match v with
  | JNull => "None"
  | JBool true => "True"
  | JBool false => "False"
  | JNum z => print_int z EmptyString
  | JStr s => s
  | _ => dumps v
  end.

End RefJson.

(** ** The wire formats ([main.py], [sentient_adapter.py]) *)

Section Wire.
Context {codec : JsonCodec}.

(** [format_event] of [stream_agent_response]: one NDJSON line. *)
Definition format_event (event_name : string) (data : json) : string :=
  dumps (JObj [("event", JStr event_name); ("data", data)]) ++ newline.

Definition event_line (ev : event) : string :=
  format_event (event_name_str (ev_name ev)) (ev_data ev).

(** [stream_agent_response]: the lines it yields, how it ends, and the state
    it leaves. *)
Definition stream_agent_response (e : Env) (question : string)
  : State -> list string * (exn + unit) * State :=
  fun s =>
    let r := stream_agent_response_events e question s in
    (map event_line (events_of r), outcome_of r, state_of r).

(** [isinstance(data, (dict, list, str, int, float, bool))] *)
Definition is_primitive (data : json) : bool :=
  match data with
  | JNull => false
  | _ => true
  end.

Definition is_none (data : json) : bool :=
  match data with
  | JNull => true
  | _ => false
  end.

(** The two chunks the adapter yields for one event. *)
Definition sse_frame (event data : json) : list string :=
  [ "event: " ++ py_str event ++ newline;
    "data: " ++ dumps data ++ newline ++ newline ].

(** The body of the loop of [_sse_adapter] for one line. *)
Definition sse_line (line : string) : exn + list string :=
  if negb (PyStr.truthy line) then inr []
  else
    match loads line with
    | None =>
        inr (sse_frame (JStr "LOG") (JObj [("message", JStr (PyStr.strip line))]))
    | Some payload =>
        match payload with
        | JObj _ =>
            let event :=
              let ev := PyDict.get "event" payload in
              if py_truthy ev then ev else JStr "message" in
            let data := PyDict.get "data" payload in
            let data :=
              if negb (is_primitive data) && negb (is_none data)
              then JStr (py_str data) else data in
            inr (sse_frame event data)
        | _ => inl (AttributeError (PyDict.no_attribute_get payload))
        end
    end.

(** The loop: the chunks yielded, and the exception that ended it, if
    any. *)
Fixpoint sse_loop (lines : list string) : list string * option exn :=
  match lines with
  | [] => ([], None)
  | line :: rest =>
      match sse_line line with
      | inl x => ([], Some x)
      | inr chunks =>
          let (out, failed) := sse_loop rest in
          ((chunks ++ out)%list, failed)
      end
  end.

(** The sentinel yielded after the loop. *)
Definition sentinel : string :=
  "event: done" ++ newline ++ "data: {}" ++ newline ++ newline.

(** The chunks of the [except] branch. *)
Definition error_frame (x : exn) : list string :=
  [ "event: error" ++ newline;
    "data: " ++ dumps (JObj [("message", JStr (exn_str x))])
    ++ newline ++ newline ].

(** [_sse_adapter]: the chunks it yields for a prompt. *)
Definition _sse_adapter (e : Env) (prompt : string) (s : State) : list string :=
  let r := stream_agent_response e prompt s in
  let (out, failed) := sse_loop (fst (fst r)) in
  match failed, snd (fst r) with
  | Some x, _ => (out ++ error_frame x)%list
  | None, inl x => (out ++ error_frame x)%list
  | None, inr _ => (out ++ [sentinel])%list
  end.

(** The frame of one event of the producer: its name and its payload as
    they are. *)
Definition event_frame (ev : event) : list string :=
  [ "event: " ++ event_name_str (ev_name ev) ++ newline;
    "data: " ++ dumps (ev_data ev) ++ newline ++ newline ].

End Wire.

(** ** Vocabulary of the further results *)

(** The calls a computation added to the log of [s], given the log after. *)
Definition added_calls (s : State) (after : list call) (added : list call) : Prop :=
  after = (calls s ++ added)%list.

(** A healthy database: no operation raises. *)
Definition db_healthy (e : Env) : Prop := forall op, db_fault e op = None.

(** A world whose database accepts reads and refuses to commit. *)
Definition commit_fails_env (t : Z) : Env :=
  mk_env t fallback_token_list
    (fun _ => Some "key")
    (fun op => match op with Commit => Some "could not commit" | _ => None end)
    (fun _ => Response [("bitcoin", mk_quote (Some 650000000000000%Z) (Some 1%Z) (Some 2%Z))])
    (fun _ => Response (Some [mk_article (Some "Bitcoin rallies") (Some "https://example.org/a")]))
    (RequestException "down")
    (fun _ => RequestException "down")
    (fun _ => RequestException "down")
    (fun _ => RequestException "down")
    (fun _ => "0.0000 ETH")
    (fun _ => "1970-01-01").

(** A healthy world whose price endpoint has no ['usd'] for bitcoin and whose
    news endpoint has one article. *)
Definition no_usd_env (t : Z) : Env :=
  mk_env t fallback_token_list
    (fun _ => Some "key")
    no_fault
    (fun _ => Response [("bitcoin", mk_quote None (Some 1%Z) (Some 2%Z))])
    (fun _ => Response (Some [mk_article (Some "Bitcoin rallies") (Some "https://example.org/a")]))
    (Response [mk_market "bitcoin" "Bitcoin" "btc"; mk_market "pi-network" "Pi Network" "pi"])
    (fun _ => RequestException "down")
    (fun _ => RequestException "down")
    (fun _ => RequestException "down")
    (fun _ => "0.0000 ETH")
    (fun _ => "1970-01-01").

(** A healthy world whose token index holds a token with the symbol
    "now", for which the price endpoint has a quote. *)
Definition now_token_env (t : Z) : Env :=
  mk_env t [mk_token_info "now-token" "now token" "now"]
    (fun _ => Some "key")
    no_fault
    (fun _ => Response [("now-token", mk_quote (Some 10000000000%Z) (Some 1%Z) (Some 2%Z))])
    (fun _ => RequestException "down")
    (RequestException "down")
    (fun _ => RequestException "down")
    (fun _ => RequestException "down")
    (fun _ => RequestException "down")
    (fun _ => "0.0000 ETH")
    (fun _ => "1970-01-01").

(** ** The other keyword parser ([agent_core.py]) *)

(** Every character of [s] is white space. *)
Fixpoint blank (s : string) : bool :=
  match s with
  | EmptyString => true
  | String c r => PyStr.is_space c && blank r
  end.

Fixpoint all_chars (p : ascii -> bool) (s : string) : bool :=
  match s with
  | EmptyString => true
  | String c r => p c && all_chars p r
  end.

(** Every character of [s] is in the ASCII range, where the case maps and
    the white space of [PyStr] are those of Python's [str]. *)
Definition ascii_only (s : string) : bool :=
  all_chars (fun c => (nat_of_ascii c <? 128)%nat) s.


Section Members.
Context (same : json -> json -> bool).

Fixpoint same_items (xs ys : list json) : bool :=
  match xs, ys with
  | [], [] => true
  | x :: xs', y :: ys' => same x y && same_items xs' ys'
  | _, _ => false
  end.

(** Every member of [fs] is in [gs] under its key. *)
Fixpoint members_in (fs gs : list (string * json)) : bool :=
  match fs with
  | [] => true
  | kv :: fs' =>
      match PyDict.assoc (fst kv) gs with
      | Some w => same (snd kv) w
      | None => false
      end && members_in fs' gs
  end.

End Members.

(** [a == b] on values whose dicts have distinct keys: the members of a
    dict count in any order. *)
Fixpoint same_value (a b : json) {struct a} : bool :=
  match a, b with
  | JNull, JNull => true
  | JBool x, JBool y => Bool.eqb x y
  | JNum x, JNum y => (x =? y)%Z
  | JStr x, JStr y => (x =? y)%string
  | JArr xs, JArr ys => same_items same_value xs ys
  | JObj fs, JObj gs =>
      (length fs =? length gs)%nat && members_in same_value fs gs
  | _, _ => false
  end.

(** A text that the pattern [0x[a-f0-9]{40}] matches as a whole. *)
Definition is_address (a : string) : Prop :=
  exists h,
    a = "0x" ++ h /\ String.length h = 40
    /\ all_chars PyStr.is_hex_lower h = true.

(** [a] stands in [t] right after [pre]. *)
Definition occurs_after (pre a t : string) : Prop :=
  exists post, t = pre ++ a ++ post.

(** [a] is the match of the pattern in [t] that starts first. *)
Definition leftmost_match (a t : string) : Prop :=
  exists pre,
    is_address a /\ occurs_after pre a t
    /\ forall pre' a',
         is_address a' -> occurs_after pre' a' t ->
         String.length pre <= String.length pre'.

(** [parse_intent] (lines 160-170); no caller in [src/] uses it. *)
Definition parse_intent (question : string) : Intent :=
  let question := PyStr.lower question in
  if PyStr.contains "price" question
     || PyStr.contains "how much" question
     || PyStr.contains "cost" question
  then GET_PRICE
  else if PyStr.contains "news" question
          || PyStr.contains "headlines" question
          || PyStr.contains "latest" question
          || PyStr.contains "what's new" question
  then GET_NEWS
  else GET_OVERVIEW.

(** The steps a [status_update] announces. *)
Inductive step : Type :=
| WalletStep
| ListStep
| PriceStep
| NewsStep.

(** The step that the text of a [status_update] announces (lines 46, 53, 65
    and 72 of [main.py]). *)
Definition announced (data : json) : option step :=
  match data with
  | JStr text =>
      if String.prefix "Fetching info for wallet " text then Some WalletStep
      else if text =? "Fetching full token list..." then Some ListStep
      else if String.prefix "Fetching price for " text then Some PriceStep
      else if String.prefix "Fetching news for " text then Some NewsStep
      else None
  | _ => None
  end.

(** The event that answers a step: the result of that step, or, for a price
    or a news step, the [error] event that carries an error dict. *)
Definition answers (st : step) (next : event) : bool :=
  match st, ev_name next with
  | WalletStep, WALLET_INFO_RESULT => true
  | ListStep, TOKEN_LIST_RESULT => true
  | PriceStep, PRICE_RESULT => true
  | NewsStep, NEWS_RESULT => true
  | PriceStep, ERROR => PyDict.has_key "error" (ev_data next)
  | NewsStep, ERROR => PyDict.has_key "error" (ev_data next)
  | _, _ => false
  end.

(** Every [status_update] of the sequence announces a step and is directly
    followed by the event that answers that step. *)
Fixpoint statuses_answered (evs : list event) : bool :=
  match evs with
  | [] => true
  | ev :: rest =>
      match ev_name ev with
      | STATUS_UPDATE =>
          match announced (ev_data ev), rest with
          | Some st, next :: _ => answers st next && statuses_answered rest
          | _, _ => false
          end
      | _ => statuses_answered rest
      end
  end.

(** The placeholder list of [get_token_list] when the request fails. *)
Definition token_list_placeholder : json :=
  JArr [JObj [("id", JStr ""); ("text", JStr "Error fetching tokens")]].

(** A healthy world with keys, a price and a news endpoint, a markets
    endpoint and an Etherscan account with two transactions. *)
Definition full_env (t : Z) : Env :=
  mk_env t fallback_token_list
    (fun _ => Some "key")
    no_fault
    (fun _ => Response [("bitcoin", mk_quote (Some 650000000000000%Z) (Some 1%Z) (Some 2%Z))])
    (fun _ => Response (Some [mk_article (Some "Bitcoin rallies") (Some "https://example.org/a")]))
    (Response [mk_market "bitcoin" "Bitcoin" "btc"; mk_market "pi-network" "Pi Network" "pi"])
    (fun _ => Response (mk_balance_reply "1" (Some "OK") 1000000000000000000%Z))
    (fun _ => Response (mk_tx_reply "1" (Some [1600000000%Z; 1700000000%Z])))
    (fun _ => Response (mk_tx_reply "0" None))
    (fun _ => "1.0000 ETH")
    (fun t => if (t =? 1600000000)%Z then "2020-09-13" else "2023-11-14").

(** ** The token index ([agent_core.py]) *)

(** [s.split(sep)[0]]: the text before the first [sep]. *)
Fixpoint before_first (sep s : string) : string :=
  match s with
  | EmptyString => EmptyString
  | String c r =>
      if String.prefix sep s then EmptyString
      else String c (before_first sep r)
  end.

(** [s.split(c)[-1]] for a separator of one character: the text after the
    last [c]; [acc] holds the characters read since the last separator. *)
Fixpoint after_last (c : ascii) (acc s : string) : string :=
  match s with
  | EmptyString => acc
  | String d r =>
      if Ascii.eqb d c then after_last c EmptyString r
      else after_last c (acc ++ String d EmptyString) r
  end.

(** [s[:-1]] *)
Definition drop_last (s : string) : string :=
  String.substring 0 (String.length s - 1) s.

(** The dict appended for one element of [get_token_list()]; [None] when a
    key is missing or a value is no string, where the source raises. *)
Definition detailed_entry (token : json) : option token_info :=
  match token with
  | JObj fields =>
      match PyDict.assoc "id" fields, PyDict.assoc "text" fields with
      | Some (JStr id), Some (JStr text) =>
          let name_part := before_first " (" text in
          Some (mk_token_info (PyStr.lower id) (PyStr.lower name_part)
                  (PyStr.lower (drop_last (after_last "(" EmptyString text))))
      | _, _ => None
      end
  | _ => None
  end.

Fixpoint detailed_entries (tokens : list json) : option (list token_info) :=
  match tokens with
  | [] => Some []
  | t :: rest =>
      match detailed_entry t, detailed_entries rest with
      | Some x, Some xs => Some (x :: xs)
      | _, _ => None
      end
  end.

(** [load_full_token_list], given the value of [FULL_TOKEN_LIST_DETAILED]
    before the call, returns its value after: the entries are appended to
    the list; on an exception the list is replaced by the fallback. *)
Definition load_full_token_list (e : Env) (current : list token_info)
  : M (list token_info) :=
  token_data <- get_token_list e ;;
  match token_data with
  | JArr tokens =>
      match detailed_entries tokens with
      | Some entries => ret (current ++ entries)%list
      | None => ret fallback_token_list
      end
  | _ => ret fallback_token_list
  end.

(** The index entry a market token is meant to give. *)
Definition index_entry (t : market) : token_info :=
  mk_token_info (PyStr.lower (m_id t)) (PyStr.lower (m_name t))
    (PyStr.lower (m_symbol t)).

Definition not_paren (c : ascii) : bool := negb (Ascii.eqb c "(").

(** ** More of the wire ([sentient_adapter.py]) *)

Definition not_newline (c : ascii) : bool := negb (Ascii.eqb c "010").

(** The text of [s] is one line. *)
Definition one_line (s : string) : bool := all_chars not_newline s.

(** What the text side of Python's [json.dumps] gives beyond [JsonCodec]:
    the text reads back also without a newline after it, has no white space
    around it, is not empty and holds no raw newline. *)
Record compact (codec : JsonCodec) : Prop := mk_compact {
  loads_dumps : forall v, loads (dumps v) = Some v;
  dumps_stripped : forall v, PyStr.strip (dumps v) = dumps v;
  dumps_nonempty : forall v, dumps v <> EmptyString;
  dumps_one_line : forall v, one_line (dumps v) = true
}.

Section Wire2.
Context {codec : JsonCodec}.

(** The body of [_sse_adapter] on the lines of any upstream generator that
    ends with [outcome]. *)
Definition sse_adapt (lines : list string) (outcome : exn + unit) : list string :=
  let (out, failed) := sse_loop lines in
  match failed, outcome with
  | Some x, _ => (out ++ error_frame x)%list
  | None, inl x => (out ++ error_frame x)%list
  | None, inr _ => (out ++ [sentinel])%list
  end.

End Wire2.

(** ** The request side of the shim ([sentient_adapter.py]) *)

(** [QueryModel]: [prompt] is required. *)
Record QueryModel : Type := mk_query {
  q_id : option string;
  q_prompt : string
}.

Record SessionModel : Type := mk_session_model {
  sm_processor_id : option string;
  sm_activity_id : option string;
  sm_request_id : option string;
  sm_metadata : option json
}.

(** [AssistBody] without [files] and [images], which nothing reads. *)
Record AssistBody : Type := mk_body {
  body_prompt : option string;
  body_query : option QueryModel;
  body_session : option SessionModel
}.

Definition opt_truthy (o : option string) : bool :=
  match o with
  | Some s => PyStr.truthy s
  | None => false
  end.

(** [x] if it is truthy, else the [n]-th fresh ULID; with the number of the
    next fresh ULID. *)
Definition or_fresh (fresh : nat -> string) (x : option string) (n : nat)
  : option string * nat :=
  if opt_truthy x then (x, n) else (Some (fresh n), S n).

(** The prompt the first [if] chain selects, if any. *)
Definition select_prompt (body : AssistBody) : option string :=
  match body_query body with
  | Some q =>
      if PyStr.truthy (q_prompt q) then Some (q_prompt q)
      else if opt_truthy (body_prompt body) then body_prompt body else None
  | None => if opt_truthy (body_prompt body) then body_prompt body else None
  end.

(** [_extract_prompt_and_session]: the [ValueError] message, or the prompt,
    the query as mutated, the session, and the number of the next fresh
    ULID.  [fresh] enumerates the values of [str(ULID())]. *)
Definition _extract_prompt_and_session
  (fresh : nat -> string) (n : nat) (body : AssistBody)
  : string + (string * option QueryModel * SessionModel * nat) :=
  match select_prompt body with
  | None => inl "Missing prompt (use 'prompt' or 'query.prompt')."
  | Some prompt =>
      let (query, n1) :=
        match body_query body with
        | Some q =>
            if negb (opt_truthy (q_id q))
            then (Some (mk_query (Some (fresh n)) (q_prompt q)), S n)
            else (Some q, n)
        | None => (None, n)
        end in
      let session :=
        match body_session body with
        | Some x => x
        | None => mk_session_model None None None None
        end in
      let (processor_id, n2) := or_fresh fresh (sm_processor_id session) n1 in
      let (activity_id, n3) := or_fresh fresh (sm_activity_id session) n2 in
      let (request_id, n4) := or_fresh fresh (sm_request_id session) n3 in
      let metadata :=
        match sm_metadata session with
        | Some m => Some m
        | None => Some (JObj [])
        end in
      inr (prompt, query,
           mk_session_model processor_id activity_id request_id metadata, n4)
  end.

(** What [request.json()] and the construction of [AssistBody] make of the
    request body. *)
Inductive request_body : Type :=
| NotJson
| Rejected (detail : string)
| Accepted (body : AssistBody).

Inductive http_response : Type :=
| Unprocessable (content : string)
| EventStream (chunks : list string).

Section Shim.
Context {codec : JsonCodec}.

(** The handler of [POST /assist]. *)
Definition assist (e : Env) (fresh : nat -> string) (n : nat)
  (request : request_body) (s : State) : http_response :=
  match request with
  | NotJson =>
      Unprocessable
        ("{" ++ String "034" "detail" ++ String "034" ":"
         ++ String "034" "invalid JSON body" ++ String "034" "}")
  | Rejected detail => Unprocessable (dumps (JObj [("detail", JStr detail)]))
  | Accepted body =>
      match _extract_prompt_and_session fresh n body with
      | inl msg => Unprocessable (dumps (JObj [("detail", JStr msg)]))
      | inr (prompt, _, _, _) => EventStream (_sse_adapter e prompt s)
      end
  end.

End Shim.

(** ** The framework bridge ([sentient_default_server.py]) *)

(** The calls made on the response handler. *)
Inductive emission : Type :=
| emit_json (event_name : json) (data : json)
| emit_text_block (event_name : json) (content : string)
| complete.

Section Bridge.
Context {codec : JsonCodec}.

(** The body of the loop of [CryptoSentientAgent.assist] for one line. *)
Definition bridge_line (line : string) : exn + list emission :=
  if negb (PyStr.truthy line) then inr []
  else
    match loads (PyStr.strip line) with
    | None => inr [emit_text_block (JStr "LOG") (PyStr.strip line)]
    | Some payload =>
        match payload with
        | JObj _ =>
            let event :=
              let ev := PyDict.get "event" payload in
              if py_truthy ev then ev else JStr "message" in
            let data := PyDict.get "data" payload in
            match data with
            | JObj _ | JArr _ => inr [emit_json event data]
            | _ => inr [emit_text_block event (py_str data)]
            end
        | _ => inl (AttributeError (PyDict.no_attribute_get payload))
        end
    end.

(** The loop; no exception is caught here. *)
Fixpoint bridge_loop (lines : list string) : list emission * option exn :=
  match lines with
  | [] => ([], None)
  | line :: rest =>
      match bridge_line line with
      | inl x => ([], Some x)
      | inr out =>
          let (more, failed) := bridge_loop rest in
          ((out ++ more)%list, failed)
      end
  end.

(** [CryptoSentientAgent.assist]: the calls on the response handler, and the
    exception that ends the method, if any. *)
Definition agent_assist (e : Env) (prompt : string) (s : State)
  : list emission * option exn :=
  let r := stream_agent_response e prompt s in
  let (out, failed) := bridge_loop (fst (fst r)) in
  match failed, snd (fst r) with
  | Some x, _ => (out, Some x)
  | None, inl x => (out, Some x)
  | None, inr _ => ((out ++ [complete])%list, None)
  end.

(** What the bridge makes of one event of the producer. *)
Definition bridge_event (ev : event) : emission :=
  match ev_data ev with
  | JObj _ | JArr _ => emit_json (JStr (event_name_str (ev_name ev))) (ev_data ev)
  | d => emit_text_block (JStr (event_name_str (ev_name ev))) (py_str d)
  end.

End Bridge.

(** ** The SSE client of the bot ([telegram_bot.py]) *)

Record SSEEvent : Type := mk_sse {
  sse_event : string;
  sse_data : string
}.

(** [SSEEvent(event, data)]: an empty event name becomes "message". *)
Definition new_sse_event (event data : string) : SSEEvent :=
  mk_sse (if PyStr.truthy event then event else "message") data.

(** [s.rstrip("\n")] *)
Fixpoint rstrip_newline (s : string) : string :=
  match s with
  | EmptyString => EmptyString
  | String c r =>
      match rstrip_newline r with
      | EmptyString =>
          if Ascii.eqb c "010" then EmptyString else String c EmptyString
      | r' => String c r'
      end
  end.

(** [s[n:]] *)
Fixpoint drop (n : nat) (s : string) : string :=
  match n, s with
  | O, _ => s
  | S n', String _ r => drop n' r
  | S _, EmptyString => EmptyString
  end.

(** The two variables of the reading loop of [sse_events]. *)
Record reader : Type := mk_reader {
  rd_event_name : option string;
  rd_data_lines : list string
}.

(** One turn of the loop of [sse_events]: the variables after it, and the
    event it yields, if any. *)
Definition sse_read (st : reader) (raw_line : string) : reader * list SSEEvent :=
  let line := rstrip_newline raw_line in
  if negb (PyStr.truthy line) then
    (mk_reader None [],
     match rd_data_lines st with
     | [] => []
     | lines =>
         [new_sse_event
            (match rd_event_name st with
             | Some n => if PyStr.truthy n then n else "message"
             | None => "message"
             end)
            (PyStr.join newline lines)]
     end)
  else if String.prefix ":" line then (st, [])
  else if String.prefix "event:" line then
    (mk_reader (Some (PyStr.strip (drop 6 line))) (rd_data_lines st), [])
  else if String.prefix "data:" line then
    (mk_reader (rd_event_name st)
       (rd_data_lines st ++ [PyStr.strip (drop 5 line)])%list, [])
  else (mk_reader (rd_event_name st) (rd_data_lines st ++ [line])%list, []).

Fixpoint sse_read_all (st : reader) (lines : list string) : list SSEEvent :=
  match lines with
  | [] => []
  | l :: rest =>
      let (st', out) := sse_read st l in
      (out ++ sse_read_all st' rest)%list
  end.

(** [sse_events] on the lines of a response with status 200. *)
Definition sse_events (lines : list string) : list SSEEvent :=
  sse_read_all (mk_reader None []) lines.

(** The line boundaries of [str.splitlines] among the characters below
    256: line feed, carriage return, vertical tab, form feed, the file,
    group and record separators, and next line. *)
Definition line_break (c : ascii) : bool :=
  Ascii.eqb c "010" || Ascii.eqb c "013" || Ascii.eqb c "011"
  || Ascii.eqb c "012" || Ascii.eqb c "028" || Ascii.eqb c "029"
  || Ascii.eqb c "030" || Ascii.eqb c "133".

Definition unbroken (s : string) : bool :=
  all_chars (fun c => negb (line_break c)) s.

(** The lines of a text, cut at its line boundaries, a carriage return
    with the line feed after it being one boundary; what follows the last
    boundary is a line if it is not empty. *)
Fixpoint split_lines (after_cr : bool) (acc s : string) : list string :=
  match s with
  | EmptyString => if PyStr.truthy acc then [acc] else []
  | String c r =>
      if Ascii.eqb c "010" && after_cr then split_lines false acc r
      else if line_break c then
        acc :: split_lines (Ascii.eqb c "013") EmptyString r
      else split_lines false (acc ++ String c EmptyString) r
  end.

Fixpoint concat_chunks (chunks : list string) : string :=
  match chunks with
  | [] => EmptyString
  | c :: r => c ++ concat_chunks r
  end.

(** [resp.aiter_lines()] on a body sent in [chunks]: the lines of the
    whole text, without their terminators. *)
Definition aiter_lines (chunks : list string) : list string :=
  split_lines false EmptyString (concat_chunks chunks).

Section Client.
Context {codec : JsonCodec}.

(** [json.loads(sse.data) if sse.data else {}], with the fallback of the
    [except] branch. *)
Definition decode_data (data : string) : json :=
  if PyStr.truthy data then
    match loads data with
    | Some v => v
    | None => JObj [("message", JStr data)]
    end
  else JObj [].

(** What the client reads for one event of the producer. *)
Definition client_event (ev : event) : SSEEvent :=
  mk_sse (event_name_str (ev_name ev)) (dumps (ev_data ev)).

(** The payload of [ev] is written without a line boundary. *)
Definition sent_unbroken (ev : event) : Prop :=
  unbroken (dumps (ev_data ev)) = true.

(** The text of the two chunks of one event. *)
Definition frame_text (ev : event) (rest : string) : string :=
  ("event: " ++ event_name_str (ev_name ev)) ++ newline
  ++ ("data: " ++ dumps (ev_data ev)) ++ newline
  ++ EmptyString ++ newline ++ rest.

End Client.

(** ** The chat side: a user who pages through the whole list *)

(** The pages seen by a user who asks for the token list and presses
    "Show More" as long as the message has the button; [presses] bounds the
    number of presses.  [bot_data] keeps the list of the first rendering, so
    every press reads the same [tokens]. *)
Fixpoint show_more (presses : nat) (tokens : list json) (p : page)
  : option (list (list json)) :=
  match keyboard p with
  | None => Some [tokens_to_show p]
  | Some data =>
      match presses with
      | O => None
      | S presses' =>
          match button_callback data tokens with
          | Edited p' =>
              option_map (cons (tokens_to_show p)) (show_more presses' tokens p')
          | _ => None
          end
      end
  end.

Definition browse (tokens : list json) : option (list (list json)) :=
  show_more (length tokens) tokens (token_list_page tokens).

(** A decimal digit. *)
Definition is_digit (c : ascii) : bool :=
  match digit_of c with Some _ => true | None => false end.

Definition unspaced (s : string) : bool :=
  all_chars (fun c => negb (PyStr.is_space c)) s.

Definition no_underscore (s : string) : bool :=
  all_chars (fun c => negb (Ascii.eqb c "_")) s.

(** The rendering that starts at index [i] of the list. *)
Definition page_at (tokens : list json) (i : nat) : page :=
  mk_page (py_slice tokens (Z.of_nat i) (Z.of_nat i + 20))
    (if (Z.of_nat i + 20 <? Z.of_nat (length tokens))%Z
     then Some ("more_tokens_" ++ py_str_int (Z.of_nat i + 20))
     else None).

(** ** The chat side: what a message does to the session *)

(** Lines 213-214: the message joins the history, which keeps its last 20
    entries.  An entry is held by its [content]. *)
Definition push_history (raw : string) (session : Session) : Session :=
  let appended := (history session ++ [raw])%list in
  mk_session (processor_id session) (activity_id session)
    (request_id session) (last_token session) (last_intent session)
    (py_slice appended (-20) (Z.of_nat (length appended))).

Section Turn.
Context {codec : JsonCodec}.

(** Lines 251-268: the memory update on one event read from the stream;
    [None] when [data.get] raises because the data is not an object. *)
Definition observe (session : Session) (sse : SSEEvent) : option Session :=
  if (sse_event sse =? "intent_recognized")%string then
    match decode_data (sse_data sse) with
    | JObj fields => Some (remember (JObj fields) session)
    | _ => None
    end
  else Some session.

(** The loop of lines 249-353 as far as the session goes.  [renders sse]
    tells whether the rendering of [sse], which follows its memory update,
    completes; an exception in either ends the loop. *)
Fixpoint consume (renders : SSEEvent -> bool) (events : list SSEEvent)
  (session : Session) : Session :=
  match events with
  | [] => session
  | sse :: rest =>
      match observe session sse with
      | None => session
      | Some session' =>
          if renders sse then consume renders rest session' else session'
      end
  end.

(** The payload of lines 224-242 as [AssistBody]; [ulid] enumerates the
    values of [str(ULID())] on the bot's side. *)
Definition turn_payload (ulid : nat -> string) (n : nat)
  (user_message : string) (session : Session) : AssistBody :=
  mk_body None
    (Some (mk_query (Some (ulid n)) user_message))
    (Some (mk_session_model (Some (processor_id session))
             (Some (activity_id session)) (Some (ulid (S n)))
             (Some (JObj [])))).

(** The session of the chat after [handle_message] on a message with the
    text [raw], the agent behind [AGENT_API_URL] being the handler of
    [/assist] and answering, and the "Processing" message having been sent;
    [session] is the session of the chat before, a new one if there was
    none.  The replies to the chat are not modelled. *)
Definition handle_message (e : Env) (ulid : nat -> string) (n : nat)
  (server_ulid : nat -> string) (m : nat) (renders : SSEEvent -> bool)
  (raw : string) (session : Session) (s : State) : Session :=
  if negb (PyStr.truthy raw) then session
  else
    let user_message := build_contextual_prompt raw session in
    let session1 := push_history raw session in
    match assist e server_ulid m
            (Accepted (turn_payload ulid n user_message session1)) s with
    | EventStream chunks =>
        consume renders (sse_events (aiter_lines chunks)) session1
    | Unprocessable _ => session1
    end.

End Turn.

(** ** The chat side: escaping *)

Module Html.

(** [s.replace(c, by)] for a [c] of one character. *)
Fixpoint replace_char (c : ascii) (by_ : string) (s : string) : string :=
  match s with
  | EmptyString => EmptyString
  | String d r =>
      if Ascii.eqb d c then by_ ++ replace_char c by_ r
      else String d (replace_char c by_ r)
  end.

(** [html.escape(s, quote=True)]: five replacements, the ampersand first. *)
Definition escape (s : string) : string :=
  let s := replace_char "&" "&amp;" s in
  let s := replace_char "<" "&lt;" s in
  let s := replace_char ">" "&gt;" s in
  let s := replace_char "034" "&quot;" s in
  replace_char "'" "&#x27;" s.

(** [h(x)]: [None] and the empty text give the empty text. *)
Definition h (x : option string) : string :=
  escape (match x with Some s => if PyStr.truthy s then s else "" | None => "" end).

(** Not one of the characters [<], [>], the double and the single quote. *)
Definition no_markup (c : ascii) : bool :=
  negb (Ascii.eqb c "<" || Ascii.eqb c ">" || Ascii.eqb c "034"
        || Ascii.eqb c "'").

(** Not one of the five characters that [html.escape] replaces. *)
Definition plain (c : ascii) : bool := no_markup c && negb (Ascii.eqb c "&").

End Html.

(** * Results *)

(** ** Results: sample runs of the resolver and the producer *)

Example parse_bitcoin_price :
  parse_natural_language_query fallback_token_list "Bitcoin price"
  = mk_parsed GET_PRICE (Some "bitcoin").
Proof. reflexivity. Qed.

Example parse_price_now :
  parse_natural_language_query fallback_token_list "price now"
  = mk_parsed GET_PRICE None.
Proof. reflexivity. Qed.

Example parse_wallet :
  parse_natural_language_query fallback_token_list
    "check 0x00000000219AB540356cbb839cbe05303d7705fa please"
  = mk_parsed GET_WALLET_INFO
      (Some "0x00000000219ab540356cbb839cbe05303d7705fa").
Proof. reflexivity. Qed.

Example bitcoin_price_run :
  events_of (stream_agent_response_events (demo_env 0%Z) "bitcoin price" empty_state)
  = [ mk_event INTENT_RECOGNIZED
        (JObj [("intent", JStr "GET_PRICE"); ("token", JStr "bitcoin")]);
      mk_event STATUS_UPDATE (JStr "Fetching price for bitcoin...");
      mk_event PRICE_RESULT
        (JObj [("price", JNum 650000000000000%Z);
               ("market_cap", JNum 1%Z); ("volume_24h", JNum 2%Z)]);
      mk_event DONE (JStr "Stream finished.") ].
Proof. reflexivity. Qed.

(** ** Results: the fetchers and accessors always return *)

Lemma bind_returns {A B} (m : M A) (k : A -> M B) s a s' :
  m s = ([], inr a, s') -> bind m k s = k a s'.
Proof.
  intros H. unfold bind. rewrite H. destruct (k a s') as [[out r] s'']. reflexivity.
Qed.

Ltac case_scrutinee :=
  match goal with
  | |- context [match ?x with _ => _ end] =>
      lazymatch x with
      | context [match _ with _ => _ end] => fail
      | _ => destruct x eqn:?
      end
  end.

Ltac crush_returns :=
  intros; cbv [bind ret raise try_except yield log_call get_state db_check
               rollback commit];
  repeat (cbn [fst snd app]; case_scrutinee); cbn; eauto.

Lemma get_wallet_info_returns e a : returns (get_wallet_info e a).
Proof. unfold returns, get_wallet_info. crush_returns. Qed.

Lemma get_token_list_returns e : returns (get_token_list e).
Proof. unfold returns, get_token_list. crush_returns. Qed.

Lemma get_token_price_from_api_returns e t : returns (get_token_price_from_api e t).
Proof. unfold returns, get_token_price_from_api. crush_returns. Qed.

Lemma get_news_returns e q : returns (get_news e q).
Proof. unfold returns, get_news. crush_returns. Qed.

Lemma get_smart_token_price_returns e t : returns (get_smart_token_price e t).
Proof.
  unfold returns, get_smart_token_price, get_smart_token_price_try,
    get_db_connection, cached_price, select_price,
    py_float, insert_price, get_token_price_from_api.
  crush_returns.
Qed.

Lemma get_smart_news_returns e q : returns (get_smart_news e q).
Proof.
  unfold returns, get_smart_news, get_smart_news_try, get_db_connection,
    cached_news, select_news,
    insert_news, get_news.
  crush_returns.
Qed.

(** ** Results: the shape of the produced sequence, intent by intent *)

(** The resolver answers with a wallet address, with a listing request, or
    with one of the three subject intents. *)
Lemma parse_cases index text :
  (exists a, parse_natural_language_query index text
             = mk_parsed GET_WALLET_INFO (Some a))
  \/ parse_natural_language_query index text = mk_parsed LIST_TOKENS None
  \/ (exists i t, parse_natural_language_query index text = mk_parsed i t
                  /\ (i = GET_PRICE \/ i = GET_NEWS \/ i = GET_OVERVIEW)).
Proof.
  unfold parse_natural_language_query, keyword_intent.
  destruct (PyStr.wallet_search _); [left; eauto|].
  destruct (_ || _ && _); [right; left; reflexivity|].
  right; right.
  repeat case_scrutinee; eauto 6.
Qed.

Arguments get_wallet_info : simpl never.
Arguments get_token_list : simpl never.
Arguments get_smart_token_price : simpl never.
Arguments get_smart_news : simpl never.
Arguments parse_natural_language_query : simpl never.

Ltac step_stream :=
  unfold stream_agent_response_events, parse_of in *;
  cbv [bind ret raise yield]; cbn.

Lemma stream_wallet e q s a w s' :
  parse_of e q = mk_parsed GET_WALLET_INFO (Some a) ->
  get_wallet_info e a s = ([], inr w, s') ->
  stream_agent_response_events e q s
  = ([intent_event GET_WALLET_INFO (Some a); wallet_status_event a;
      mk_event WALLET_INFO_RESULT w; done_event], inr tt, s').
Proof.
  intros Hp Hw. step_stream. rewrite Hp. cbn. rewrite Hw. reflexivity.
Qed.

Lemma stream_list e q s l s' :
  parse_of e q = mk_parsed LIST_TOKENS None ->
  get_token_list e s = ([], inr l, s') ->
  stream_agent_response_events e q s
  = ([intent_event LIST_TOKENS None;
      mk_event STATUS_UPDATE (JStr "Fetching full token list...");
      mk_event TOKEN_LIST_RESULT (JObj [("tokens", l)]); done_event],
     inr tt, s').
Proof.
  intros Hp Hl. step_stream. rewrite Hp. cbn. rewrite Hl. reflexivity.
Qed.

Lemma stream_no_subject e q s i t :
  parse_of e q = mk_parsed i t ->
  i = GET_PRICE \/ i = GET_NEWS \/ i = GET_OVERVIEW ->
  token_truthy t = false ->
  stream_agent_response_events e q s
  = ([intent_event i t; no_subject_event; done_event], inr tt, s).
Proof.
  intros Hp Hi Ht. step_stream. rewrite Hp. cbn. rewrite Ht.
  destruct Hi as [-> | [-> | ->]]; reflexivity.
Qed.

Lemma stream_price e q s t p s' :
  parse_of e q = mk_parsed GET_PRICE (Some t) ->
  PyStr.truthy t = true ->
  get_smart_token_price e t s = ([], inr p, s') ->
  stream_agent_response_events e q s
  = ([intent_event GET_PRICE (Some t);
      mk_event STATUS_UPDATE (JStr ("Fetching price for " ++ t ++ "..."));
      price_event p; done_event], inr tt, s').
Proof.
  intros Hp Ht Hq. step_stream. rewrite Hp. cbn. rewrite Ht. cbn. rewrite Hq.
  unfold price_event. destruct (PyDict.has_key "error" p); reflexivity.
Qed.

Lemma stream_news e q s t n s' :
  parse_of e q = mk_parsed GET_NEWS (Some t) ->
  PyStr.truthy t = true ->
  get_smart_news e t s = ([], inr n, s') ->
  stream_agent_response_events e q s
  = ([intent_event GET_NEWS (Some t);
      mk_event STATUS_UPDATE (JStr ("Fetching news for " ++ t ++ "..."));
      news_event n; done_event], inr tt, s').
Proof.
  intros Hp Ht Hq. step_stream. rewrite Hp. cbn. rewrite Ht. cbn. rewrite Hq.
  unfold news_event. destruct (PyDict.has_key "error" n); reflexivity.
Qed.

Lemma stream_overview e q s t p s1 n s2 :
  parse_of e q = mk_parsed GET_OVERVIEW (Some t) ->
  PyStr.truthy t = true ->
  get_smart_token_price e t s = ([], inr p, s1) ->
  get_smart_news e t s1 = ([], inr n, s2) ->
  stream_agent_response_events e q s
  = ([intent_event GET_OVERVIEW (Some t);
      mk_event STATUS_UPDATE (JStr ("Fetching price for " ++ t ++ "..."));
      price_event p;
      mk_event STATUS_UPDATE (JStr ("Fetching news for " ++ t ++ "..."));
      news_event n; done_event], inr tt, s2).
Proof.
  intros Hp Ht Hq Hn. step_stream. rewrite Hp. cbn. rewrite Ht. cbn. rewrite Hq.
  unfold price_event, news_event.
  destruct (PyDict.has_key "error" p); cbn; rewrite Hn;
    destruct (PyDict.has_key "error" n); reflexivity.
Qed.

(** Every call of the producer is one of these runs and ends without an
    exception. *)
Lemma stream_run e q s :
  exists evs s',
    stream_agent_response_events e q s = (evs, inr tt, s') /\ run e q s evs s'.
Proof.
  destruct (parse_cases (FULL_TOKEN_LIST_DETAILED e) q)
    as [[a Hp] | [Hp | (i & t & Hp & Hi)]]; fold (parse_of e q) in Hp.
  - destruct (get_wallet_info_returns e a s) as (w & s' & Hw).
    eexists _, _; split; [eapply stream_wallet | eapply run_wallet]; eassumption.
  - destruct (get_token_list_returns e s) as (l & s' & Hl).
    eexists _, _; split; [eapply stream_list | eapply run_list]; eassumption.
  - destruct (token_truthy t) eqn:Ht.
    + destruct t as [t|]; [cbn in Ht | discriminate].
      destruct (get_smart_token_price_returns e t s) as (p & s1 & Hq).
      destruct Hi as [-> | [-> | ->]].
      * eexists _, _; split; [eapply stream_price | eapply run_price]; eassumption.
      * destruct (get_smart_news_returns e t s) as (n & s2 & Hn).
        eexists _, _; split; [eapply stream_news | eapply run_news]; eassumption.
      * destruct (get_smart_news_returns e t s1) as (n & s2 & Hn).
        eexists _, _; split; [eapply stream_overview | eapply run_overview];
          eassumption.
    + eexists _, _; split;
        [eapply stream_no_subject | eapply run_no_subject]; eassumption.
Qed.

Lemma price_event_not_done p : ev_name (price_event p) <> DONE.
Proof. unfold price_event. destruct (PyDict.has_key _ _); discriminate. Qed.

Lemma news_event_not_done n : ev_name (news_event n) <> DONE.
Proof. unfold news_event. destruct (PyDict.has_key _ _); discriminate. Qed.

(** C1. For every question, in every world and from every state, the call of
    [stream_agent_response] ends without an exception, and the sequence it
    yields begins with [intent_recognized], ends with [done], and holds
    exactly one [done]. *)
Theorem stream_begins_with_intent_ends_with_single_done
  (e : Env) (question : string) (s : State) :
  let r := stream_agent_response_events e question s in
  outcome_of r = inr tt
  /\ first_name (events_of r) = Some INTENT_RECOGNIZED
  /\ last_name (events_of r) = Some DONE
  /\ count_name DONE (events_of r) = 1.
Proof.
  destruct (stream_run e question s) as (evs & s' & Heq & Hrun).
  cbv zeta. rewrite Heq. unfold outcome_of, events_of. cbn [fst snd].
  split; [reflexivity|].
  destruct Hrun; repeat split; try reflexivity; unfold count_name; cbn;
    repeat match goal with
      | |- context [event_name_eqb (ev_name (price_event ?p)) DONE] =>
          let H := fresh in
          pose proof (price_event_not_done p) as H;
          destruct (ev_name (price_event p)); try congruence; clear H
      | |- context [event_name_eqb (ev_name (news_event ?p)) DONE] =>
          let H := fresh in
          pose proof (news_event_not_done p) as H;
          destruct (ev_name (news_event p)); try congruence; clear H
      end; cbn; reflexivity.
Qed.

(** ** Results: the cache lookup *)

Section SelectFacts.
Context {R : Type} (key : R -> string) (fetched_at : R -> Z).

Lemma fold_newer_spec (rows : list R) (acc : option R) :
  match fold_left (newer fetched_at) rows acc with
  | None => acc = None /\ rows = []
  | Some r =>
      (acc = Some r \/ In r rows)
      /\ (forall b, acc = Some b -> (fetched_at b <= fetched_at r)%Z)
      /\ (forall r', In r' rows -> (fetched_at r' <= fetched_at r)%Z)
  end.
Proof.
  revert acc. induction rows as [|x rows IH]; intros acc; cbn.
  - destruct acc; [|tauto]. repeat split; auto; [|tauto].
    intros b [= <-]. lia.
  - specialize (IH (newer fetched_at acc x)).
    destruct (fold_left _ rows _) as [r|].
    + destruct IH as (Hin & Hacc & Hrows).
      unfold newer in Hin, Hacc.
      destruct acc as [b|].
      * destruct (Z.ltb_spec (fetched_at b) (fetched_at x)).
        -- specialize (Hacc _ eq_refl). repeat split.
           ++ destruct Hin as [[= <-] | Hin]; auto.
           ++ intros b' [= <-]. lia.
           ++ intros r' [<- | Hr']; auto.
        -- specialize (Hacc _ eq_refl). repeat split.
           ++ destruct Hin as [Hin | Hin]; auto.
           ++ intros b' [= <-]. lia.
           ++ intros r' [<- | Hr']; auto. lia.
      * specialize (Hacc _ eq_refl). repeat split.
        -- destruct Hin as [[= <-] | Hin]; auto.
        -- discriminate.
        -- intros r' [<- | Hr']; auto.
    + destruct IH as [Hacc _]. unfold newer in Hacc.
      destruct acc as [b|]; [destruct (_ <? _)%Z|]; discriminate.
Qed.

Lemma qualifies_iff k since r :
  qualifies key fetched_at k since r = true
  <-> key r = k /\ (since <= fetched_at r)%Z.
Proof.
  unfold qualifies. rewrite andb_true_iff, String.eqb_eq, Z.leb_le. tauto.
Qed.

(** A miss means that no row qualifies. *)
Lemma select_latest_none rows k since :
  select_latest key fetched_at rows k since = None
  <-> (forall r, In r rows -> ~ (key r = k /\ (since <= fetched_at r)%Z)).
Proof.
  unfold select_latest, latest.
  pose proof (fold_newer_spec (filter (qualifies key fetched_at k since) rows) None) as H.
  destruct (fold_left _ _ _) as [r|].
  - destruct H as ([H | H] & _); [discriminate|].
    apply filter_In in H. destruct H as [Hin Hq]. apply qualifies_iff in Hq.
    split; [discriminate|]. intros Hno. destruct (Hno r Hin Hq).
  - destruct H as [_ H]. split; [|reflexivity].
    intros _ r Hin Hq. apply qualifies_iff in Hq.
    assert (Hf : In r (filter (qualifies key fetched_at k since) rows))
      by (apply filter_In; auto).
    rewrite H in Hf. destruct Hf.
Qed.

(** A hit is a qualifying row, and no qualifying row is more recent. *)
Lemma select_latest_some rows k since r :
  select_latest key fetched_at rows k since = Some r ->
  In r rows /\ key r = k /\ (since <= fetched_at r)%Z
  /\ (forall r', In r' rows -> key r' = k -> (since <= fetched_at r')%Z ->
                 (fetched_at r' <= fetched_at r)%Z).
Proof.
  unfold select_latest, latest. intros Hsel.
  pose proof (fold_newer_spec (filter (qualifies key fetched_at k since) rows) None) as H.
  rewrite Hsel in H. destruct H as ([H | H] & _ & Hmax); [discriminate|].
  apply filter_In in H. destruct H as [Hin Hq]. apply qualifies_iff in Hq.
  destruct Hq as [Hk Hs]. repeat split; auto.
  intros r' Hin' Hk' Hs'. apply Hmax. apply filter_In. split; auto.
  apply qualifies_iff. auto.
Qed.

End SelectFacts.

Lemma select_latest_law {R : Type} (key : R -> string) (fetched_at : R -> Z)
  (rows : list R) (k : string) (now window : Z) :
  lookup_law key fetched_at rows k now window
    (select_latest key fetched_at rows k (now - window)).
Proof.
  unfold lookup_law, within_window. split.
  - destruct (select_latest _ _ _ _ _) as [r|] eqn:Hsel.
    + apply select_latest_some in Hsel. destruct Hsel as (Hin & Hk & Hs & _).
      split; [|discriminate]. intros _. exists r. repeat split; auto. lia.
    + split; [congruence|]. intros (r & Hin & Hk & Hw).
      exfalso. eapply (proj1 (select_latest_none _ _ _ _ _) Hsel r Hin).
      split; auto. lia.
  - intros r Hsel. apply select_latest_some in Hsel.
    destruct Hsel as (Hin & Hk & Hs & Hmax). repeat split; auto; [lia|].
    intros r' Hin' Hk' Hw'. apply Hmax; auto. lia.
Qed.

(** C2. With the database answering, the price lookup (window of five
    minutes) and the news lookup (window of sixty minutes) each return a row
    if and only if some stored row of the key was fetched within the window
    of now, and the row returned is then the most recent such row; with only
    stale rows or none the lookup returns nothing.  The lookup changes no
    state and yields no event. *)
Theorem cache_lookup_hit_iff_fresh_entry (e : Env) (s : State) (k : string) :
  db_fault e Select = None ->
  (exists hit,
      cached_price e k s = ([], inr hit, s)
      /\ lookup_law pr_token_id pr_fetched_at (price_history s) k
           (now e) (minutes 5) hit)
  /\ (exists hit,
         cached_news e k s = ([], inr hit, s)
         /\ lookup_law nr_query nr_fetched_at (news_cache s) k
              (now e) (minutes 60) hit).
Proof.
  intros Hdb. split.
  - eexists. split; [|apply select_latest_law].
    unfold cached_price, select_price, db_check. rewrite Hdb. reflexivity.
  - eexists. split; [|apply select_latest_law].
    unfold cached_news, select_news, db_check. rewrite Hdb. reflexivity.
Qed.

Lemma cache_lookup_hit_iff_fresh_entry_witness :
  db_fault (demo_env (minutes 10)) Select = None
  /\ ((exists hit,
         cached_price (demo_env (minutes 10)) "bitcoin" sample_state
         = ([], inr hit, sample_state)
         /\ lookup_law pr_token_id pr_fetched_at (price_history sample_state)
              "bitcoin" (now (demo_env (minutes 10))) (minutes 5) hit)
      /\ (exists hit,
            cached_news (demo_env (minutes 10)) "bitcoin" sample_state
            = ([], inr hit, sample_state)
            /\ lookup_law nr_query nr_fetched_at (news_cache sample_state)
                 "bitcoin" (now (demo_env (minutes 10))) (minutes 60) hit)).
Proof.
  split; [reflexivity|].
  apply (cache_lookup_hit_iff_fresh_entry (demo_env (minutes 10)) sample_state
           "bitcoin").
  reflexivity.
Defined.

Example sample_price_lookup :
  outcome_of (cached_price (demo_env (minutes 10)) "bitcoin" sample_state)
  = inr (Some (mk_price_row "bitcoin" 650000000000000%Z (Some 1%Z) (Some 2%Z)
                 (minutes 8))).
Proof. reflexivity. Qed.

Example sample_price_lookup_stale :
  outcome_of (cached_price (demo_env (minutes 14)) "bitcoin" sample_state)
  = inr None.
Proof. reflexivity. Qed.

(** ** Results: the wallet branch *)

(** C3, at a failing fetch.  The question is a wallet address and
    [ETHERSCAN_API_KEY] is not set, so [get_wallet_info] returns its error
    dict.  The producer yields that dict under [wallet_info_result]; no
    [error] event is yielded.  The fetcher was called once, and nothing
    touched prices or news. *)
Theorem wallet_fetch_failure_is_sent_as_wallet_info_result :
  stream_agent_response_events (keyless_env 0%Z) wallet_question empty_state
  = ([ intent_event GET_WALLET_INFO (Some wallet_question);
       mk_event STATUS_UPDATE (JStr "Fetching info for wallet 0x0000...05fa");
       mk_event WALLET_INFO_RESULT
         (PyDict.error_dict "Etherscan API key not found.");
       done_event ],
     inr tt,
     mk_state [] [] [call_get_wallet_info wallet_question])
  /\ count_name ERROR
       (events_of (stream_agent_response_events (keyless_env 0%Z)
                     wallet_question empty_state)) = 0.
Proof. split; reflexivity. Qed.

(** On every wallet query the sequence is [intent_recognized],
    [status_update], [wallet_info_result], [done], whatever the fetcher
    returned. *)
Lemma wallet_run_shape e q s a :
  parse_of e q = mk_parsed GET_WALLET_INFO (Some a) ->
  exists w s',
    get_wallet_info e a s = ([], inr w, s')
    /\ stream_agent_response_events e q s
       = ([intent_event GET_WALLET_INFO (Some a); wallet_status_event a;
           mk_event WALLET_INFO_RESULT w; done_event], inr tt, s').
Proof.
  intros Hp. destruct (get_wallet_info_returns e a s) as (w & s' & Hw).
  exists w, s'. split; [assumption|]. eapply stream_wallet; eassumption.
Qed.

(** ** Results: the overview branch *)

Lemma get_smart_news_connects e q s :
  exists more,
    calls (state_of (get_smart_news e q s))
    = (calls s ++ call_get_db_connection :: more)%list.
Proof.
  unfold get_smart_news, get_smart_news_try, get_db_connection, cached_news,
    select_news, insert_news, get_news, state_of.
  cbv [bind ret raise try_except yield log_call get_state db_check rollback commit].
  repeat (cbn [fst snd app calls]; case_scrutinee); cbn [fst snd app calls];
    rewrite <- ?app_assoc; cbn [app]; eauto.
Qed.

Lemma price_event_error p :
  ev_name (price_event p) = ERROR <-> PyDict.has_key "error" p = true.
Proof.
  unfold price_event. destruct (PyDict.has_key "error" p); cbn; split;
    congruence.
Qed.

Lemma price_event_result p :
  ev_name (price_event p) = PRICE_RESULT <-> PyDict.has_key "error" p = false.
Proof.
  unfold price_event. destruct (PyDict.has_key "error" p); cbn; split;
    congruence.
Qed.

Lemma news_event_error n :
  ev_name (news_event n) = ERROR <-> PyDict.has_key "error" n = true.
Proof.
  unfold news_event. destruct (PyDict.has_key "error" n); cbn; split;
    congruence.
Qed.

Lemma news_event_result n :
  ev_name (news_event n) = NEWS_RESULT <-> PyDict.has_key "error" n = false.
Proof.
  unfold news_event. destruct (PyDict.has_key "error" n); cbn; split;
    congruence.
Qed.

(** C4. On a query resolved to the overview intent with a subject, the
    sequence is: [intent_recognized]; [status_update]; one event for the
    price step, [price_result] or, when the accessor returned an error dict,
    [error]; [status_update]; one event for the news step, [news_result] or
    [error]; [done].  The news accessor runs from the state the price step
    left, whatever the price step returned: it opens its own database
    connection.  No exception escapes. *)
Theorem overview_price_then_news_despite_failure
  (e : Env) (q : string) (s : State) (t : string) :
  parse_of e q = mk_parsed GET_OVERVIEW (Some t) ->
  PyStr.truthy t = true ->
  exists p s1 n s2,
    get_smart_token_price e t s = ([], inr p, s1)
    /\ get_smart_news e t s1 = ([], inr n, s2)
    /\ stream_agent_response_events e q s
       = ([intent_event GET_OVERVIEW (Some t);
           mk_event STATUS_UPDATE (JStr ("Fetching price for " ++ t ++ "..."));
           price_event p;
           mk_event STATUS_UPDATE (JStr ("Fetching news for " ++ t ++ "..."));
           news_event n;
           done_event], inr tt, s2)
    /\ (ev_name (price_event p) = ERROR <-> PyDict.has_key "error" p = true)
    /\ (ev_name (price_event p) = PRICE_RESULT <-> PyDict.has_key "error" p = false)
    /\ (ev_name (news_event n) = ERROR <-> PyDict.has_key "error" n = true)
    /\ (ev_name (news_event n) = NEWS_RESULT <-> PyDict.has_key "error" n = false)
    /\ (exists more, calls s2 = (calls s1 ++ call_get_db_connection :: more)%list).
Proof.
  intros Hp Ht.
  destruct (get_smart_token_price_returns e t s) as (p & s1 & Hq).
  destruct (get_smart_news_returns e t s1) as (n & s2 & Hn).
  exists p, s1, n, s2.
  split; [assumption|]. split; [assumption|].
  split; [eapply stream_overview; eassumption|].
  split; [apply price_event_error|]. split; [apply price_event_result|].
  split; [apply news_event_error|]. split; [apply news_event_result|].
  destruct (get_smart_news_connects e t s1) as [more Hc].
  rewrite Hn in Hc. exists more. exact Hc.
Qed.

Example overview_with_database_down :
  events_of (stream_agent_response_events (db_down_env 0%Z) "bitcoin" empty_state)
  = [ intent_event GET_OVERVIEW (Some "bitcoin");
      mk_event STATUS_UPDATE (JStr "Fetching price for bitcoin...");
      mk_event ERROR (PyDict.error_dict "Database connection failed.");
      mk_event STATUS_UPDATE (JStr "Fetching news for bitcoin...");
      mk_event ERROR (PyDict.error_dict "Database connection failed.");
      done_event ].
Proof. reflexivity. Qed.

Lemma overview_price_then_news_despite_failure_witness :
  parse_of (db_down_env 0%Z) "bitcoin" = mk_parsed GET_OVERVIEW (Some "bitcoin")
  /\ PyStr.truthy "bitcoin" = true
  /\ exists p s1 n s2,
    get_smart_token_price (db_down_env 0%Z) "bitcoin" empty_state = ([], inr p, s1)
    /\ get_smart_news (db_down_env 0%Z) "bitcoin" s1 = ([], inr n, s2)
    /\ stream_agent_response_events (db_down_env 0%Z) "bitcoin" empty_state
       = ([intent_event GET_OVERVIEW (Some "bitcoin");
           mk_event STATUS_UPDATE (JStr ("Fetching price for " ++ "bitcoin" ++ "..."));
           price_event p;
           mk_event STATUS_UPDATE (JStr ("Fetching news for " ++ "bitcoin" ++ "..."));
           news_event n;
           done_event], inr tt, s2)
    /\ (ev_name (price_event p) = ERROR <-> PyDict.has_key "error" p = true)
    /\ (ev_name (price_event p) = PRICE_RESULT <-> PyDict.has_key "error" p = false)
    /\ (ev_name (news_event n) = ERROR <-> PyDict.has_key "error" n = true)
    /\ (ev_name (news_event n) = NEWS_RESULT <-> PyDict.has_key "error" n = false)
    /\ (exists more, calls s2 = (calls s1 ++ call_get_db_connection :: more)%list).
Proof.
  split; [reflexivity|]. split; [reflexivity|].
  apply (overview_price_then_news_despite_failure (db_down_env 0%Z) "bitcoin"
           empty_state "bitcoin"); reflexivity.
Defined.

(** ** Results: the unresolved subject *)

(** C6 as stated fails on the message: with the fallback index the question
    "price now" resolves to a price intent without a subject, and no event of
    the sequence is an [error] carrying the message "no subject
    identified". *)
Lemma no_subject_message_counterexample :
  ~ (forall (e : Env) (q : string) (s : State),
        requires_subject (intent (parse_of e q)) = true ->
        token_id (parse_of e q) = None ->
        In (mk_event ERROR (JObj [("message", JStr "no subject identified")]))
           (events_of (stream_agent_response_events e q s))).
Proof.
  intros H.
  specialize (H (demo_env 0%Z) "price now" empty_state eq_refl eq_refl).
  vm_compute in H. repeat (destruct H as [H | H]; [discriminate|]). exact H.
Qed.

(** C6, amended.  On a query resolved to a price, news or overview intent
    without a subject, the producer yields [intent_recognized], then [error]
    with the message "Sorry, I couldn't identify a cryptocurrency in your
    question.", then [done], and stops; the state is left as it was: no row
    is read or written and no fetcher or database call is made. *)
Theorem no_subject_yields_error_then_done
  (e : Env) (q : string) (s : State) :
  requires_subject (intent (parse_of e q)) = true ->
  token_id (parse_of e q) = None ->
  stream_agent_response_events e q s
  = ([ intent_event (intent (parse_of e q)) None;
       mk_event ERROR
         (JObj [("message",
                 JStr "Sorry, I couldn't identify a cryptocurrency in your question.")]);
       done_event ],
     inr tt, s).
Proof.
  intros Hi Ht.
  destruct (parse_of e q) as [i t] eqn:Hp. cbn in Hi, Ht. subst t.
  eapply stream_no_subject; [eassumption | | reflexivity].
  destruct i; cbn in Hi; try discriminate; auto.
Qed.

Lemma no_subject_yields_error_then_done_witness :
  requires_subject (intent (parse_of (demo_env 0%Z) "price now")) = true
  /\ token_id (parse_of (demo_env 0%Z) "price now") = None
  /\ stream_agent_response_events (demo_env 0%Z) "price now" sample_state
     = ([ intent_event (intent (parse_of (demo_env 0%Z) "price now")) None;
          mk_event ERROR
            (JObj [("message",
                    JStr "Sorry, I couldn't identify a cryptocurrency in your question.")]);
          done_event ],
        inr tt, sample_state).
Proof.
  split; [reflexivity|]. split; [reflexivity|].
  apply (no_subject_yields_error_then_done (demo_env 0%Z) "price now"
           sample_state); reflexivity.
Defined.

(** ** Results: the context rewrite *)

Example remember_bitcoin :
  last_token
    (remember (ev_data (intent_event GET_PRICE (Some "bitcoin")))
       (_new_session "a" "b" "c"))
  = Some "bitcoin".
Proof. reflexivity. Qed.

(** C7 as stated fails on its last part when an entry of the token index
    matches the text "price now".  In a world whose index holds a token with
    the symbol "now", a session without a remembered token sends the message
    unchanged, the resolver takes that token as the subject (lines 224-228 of
    [agent_core.py]), and the sequence holds a [price_result] and no [error]
    event of the unresolved subject. *)
Lemma price_now_matches_a_token_counterexample :
  ~ (forall (e : Env) (s : State) (id1 id2 id3 : string)
            (intent : option string) (hist : list string),
        In no_subject_event
          (events_of
             (stream_agent_response_events e
                (build_contextual_prompt "price now"
                   (mk_session id1 id2 id3 None intent hist)) s))).
Proof.
  intros H.
  specialize (H (now_token_env 0%Z) empty_state "a" "b" "c" None []).
  vm_compute in H. repeat (destruct H as [H | H]; [discriminate|]). exact H.
Qed.

Example price_now_with_a_token_named_now :
  events_of (stream_agent_response_events (now_token_env 0%Z)
               (build_contextual_prompt "price now" (_new_session "a" "b" "c"))
               empty_state)
  = [ intent_event GET_PRICE (Some "now-token");
      mk_event STATUS_UPDATE (JStr "Fetching price for now-token...");
      mk_event PRICE_RESULT
        (JObj [("price", JNum 10000000000%Z);
               ("market_cap", JNum 1%Z); ("volume_24h", JNum 2%Z)]);
      done_event ].
Proof. reflexivity. Qed.

(** C7, amended.  Whatever the other fields of the session: with "bitcoin"
    as the remembered token, the message "price now" is sent to the agent as
    "bitcoin price now"; with no remembered token it is sent unchanged, and
    then, in every world whose token index has no entry matching the text
    "price now", the sequence the producer yields for it contains the [error]
    event of the unresolved subject. *)
Theorem price_now_is_rewritten_with_remembered_token
  (id1 id2 id3 : string) (intent : option string) (hist : list string)
  (e : Env) (s : State) :
  find_token "price now" (FULL_TOKEN_LIST_DETAILED e) = None ->
  build_contextual_prompt "price now"
    (mk_session id1 id2 id3 (Some "bitcoin") intent hist)
  = "bitcoin price now"
  /\ build_contextual_prompt "price now"
       (mk_session id1 id2 id3 None intent hist)
     = "price now"
  /\ In no_subject_event
       (events_of
          (stream_agent_response_events e
             (build_contextual_prompt "price now"
                (mk_session id1 id2 id3 None intent hist)) s)).
Proof.
  intros Hf. split; [reflexivity|]. split; [reflexivity|].
  change (build_contextual_prompt "price now"
            (mk_session id1 id2 id3 None intent hist)) with "price now".
  assert (Hp : parse_of e "price now" = mk_parsed GET_PRICE None).
  { unfold parse_of, parse_natural_language_query.
    change (PyStr.strip (PyStr.lower "price now")) with "price now".
    change (PyStr.wallet_search "price now") with (@None string).
    cbv iota. rewrite Hf. reflexivity. }
  rewrite (stream_no_subject e "price now" s GET_PRICE None Hp);
    [cbn; auto | auto | reflexivity].
Qed.

Lemma price_now_is_rewritten_with_remembered_token_witness :
  find_token "price now" (FULL_TOKEN_LIST_DETAILED (demo_env 0%Z)) = None
  /\ build_contextual_prompt "price now"
       (mk_session "a" "b" "c" (Some "bitcoin") (Some "GET_PRICE") ["bitcoin price"])
     = "bitcoin price now"
  /\ build_contextual_prompt "price now"
       (mk_session "a" "b" "c" None (Some "GET_PRICE") ["bitcoin price"])
     = "price now"
  /\ In no_subject_event
       (events_of
          (stream_agent_response_events (demo_env 0%Z)
             (build_contextual_prompt "price now"
                (mk_session "a" "b" "c" None (Some "GET_PRICE") ["bitcoin price"]))
             empty_state)).
Proof.
  split; [reflexivity|].
  exact (price_now_is_rewritten_with_remembered_token "a" "b" "c"
           (Some "GET_PRICE") ["bitcoin price"] (demo_env 0%Z) empty_state
           eq_refl).
Defined.

Example price_now_without_memory :
  find_token "price now" (FULL_TOKEN_LIST_DETAILED (demo_env 0%Z)) = None
  /\ events_of (stream_agent_response_events (demo_env 0%Z)
                  (build_contextual_prompt "price now" (_new_session "a" "b" "c"))
                  empty_state)
     = [intent_event GET_PRICE None; no_subject_event; done_event].
Proof. split; reflexivity. Qed.

Example price_now_with_memory :
  events_of (stream_agent_response_events (demo_env 0%Z)
               (build_contextual_prompt "price now"
                  (mk_session "a" "b" "c" (Some "bitcoin") (Some "GET_PRICE") []))
               empty_state)
  = [ intent_event GET_PRICE (Some "bitcoin");
      mk_event STATUS_UPDATE (JStr "Fetching price for bitcoin...");
      mk_event PRICE_RESULT
        (JObj [("price", JNum 650000000000000%Z);
               ("market_cap", JNum 1%Z); ("volume_24h", JNum 2%Z)]);
      done_event ].
Proof. reflexivity. Qed.

(** ** Results: the pages of the token list *)

Lemma py_slice_within {A} (l : list A) (i j : nat) :
  (i <= j)%nat -> (i <= length l)%nat ->
  py_slice l (Z.of_nat i) (Z.of_nat j)
  = firstn (j - i) (skipn i l).
Proof.
  intros Hij Hi. unfold py_slice, clamp.
  destruct (Z.ltb_spec (Z.of_nat i) 0); [lia|].
  destruct (Z.ltb_spec (Z.of_nat j) 0); [lia|].
  rewrite (Z.min_l (Z.of_nat i)) by lia. rewrite Nat2Z.id.
  destruct (Nat.le_gt_cases j (length l)).
  - rewrite Z.min_l by lia. f_equal. lia.
  - rewrite Z.min_r by lia.
    replace (Z.to_nat (Z.of_nat (length l) - Z.of_nat i)) with (length l - i)%nat by lia.
    rewrite !firstn_all2; auto; rewrite length_skipn; lia.
Qed.

(** C8. For a cached token list of 45 entries: the [token_list_result]
    rendering shows the slice [0:20] with a "Show More" button whose data is
    "more_tokens_20"; pressing it shows [20:40] with a button whose data is
    "more_tokens_40"; pressing that shows [40:45] with no button.  Each press
    starts where the previous page ended and ends 20 further; the three
    slices have 20, 20 and 5 entries and together are the list. *)
Theorem forty_five_tokens_in_three_pages (tokens : list json) :
  length tokens = 45%nat ->
  token_list_page tokens
  = mk_page (py_slice tokens 0 20) (Some "more_tokens_20")
  /\ button_callback "more_tokens_20" tokens
     = Edited (mk_page (py_slice tokens 20 (20 + 20)) (Some "more_tokens_40"))
  /\ button_callback "more_tokens_40" tokens
     = Edited (mk_page (py_slice tokens 40 (40 + 20)) None)
  /\ py_slice tokens 0 20 = firstn 20 tokens
  /\ py_slice tokens 20 (20 + 20) = firstn 20 (skipn 20 tokens)
  /\ py_slice tokens 40 (40 + 20) = py_slice tokens 40 45
  /\ py_slice tokens 40 45 = skipn 40 tokens
  /\ length (py_slice tokens 0 20) = 20%nat
  /\ length (py_slice tokens 20 (20 + 20)) = 20%nat
  /\ length (py_slice tokens 40 (40 + 20)) = 5%nat
  /\ (py_slice tokens 0 20 ++ py_slice tokens 20 (20 + 20)
      ++ py_slice tokens 40 (40 + 20))%list = tokens.
Proof.
  intros Hlen.
  assert (H1 : py_slice tokens 0 20 = firstn 20 tokens)
    by exact (py_slice_within tokens 0 20 ltac:(lia) ltac:(lia)).
  assert (H2 : py_slice tokens 20 (20 + 20) = firstn 20 (skipn 20 tokens))
    by exact (py_slice_within tokens 20 40 ltac:(lia) ltac:(lia)).
  assert (H3 : py_slice tokens 40 (40 + 20) = skipn 40 tokens).
  { transitivity (firstn 20 (skipn 40 tokens));
      [exact (py_slice_within tokens 40 60 ltac:(lia) ltac:(lia))|].
    apply firstn_all2. rewrite length_skipn. lia. }
  assert (H4 : py_slice tokens 40 45 = skipn 40 tokens).
  { transitivity (firstn 5 (skipn 40 tokens));
      [exact (py_slice_within tokens 40 45 ltac:(lia) ltac:(lia))|].
    apply firstn_all2. rewrite length_skipn. lia. }
  split; [unfold token_list_page; rewrite Hlen; reflexivity|].
  split.
  { unfold button_callback.
    change (py_int (last_part "" "more_tokens_20")) with (Some 20%Z).
    destruct tokens as [|t0 tokens']; [discriminate|].
    cbv zeta. rewrite Hlen. reflexivity. }
  split.
  { unfold button_callback.
    change (py_int (last_part "" "more_tokens_40")) with (Some 40%Z).
    destruct tokens as [|t0 tokens']; [discriminate|].
    cbv zeta. rewrite Hlen. reflexivity. }
  split; [exact H1|]. split; [exact H2|].
  split; [rewrite H3, H4; reflexivity|]. split; [exact H4|].
  split; [rewrite H1, length_firstn; lia|].
  split; [rewrite H2, length_firstn, length_skipn; lia|].
  split; [rewrite H3, length_skipn; lia|].
  rewrite H1, H2, H3.
  rewrite <- (firstn_skipn 20 tokens) at 4.
  f_equal.
  rewrite <- (firstn_skipn 20 (skipn 20 tokens)) at 2.
  f_equal. rewrite skipn_skipn. reflexivity.
Qed.

Lemma forty_five_tokens_in_three_pages_witness :
  length forty_five_tokens = 45%nat
  /\ button_callback "more_tokens_40" forty_five_tokens
     = Edited (mk_page (py_slice forty_five_tokens 40 (40 + 20)) None).
Proof.
  split; [reflexivity|].
  exact (proj1 (proj2 (proj2
           (forty_five_tokens_in_three_pages forty_five_tokens eq_refl)))).
Defined.

Example third_page_of_forty_five :
  button_callback "more_tokens_40" forty_five_tokens
  = Edited (mk_page (skipn 40 forty_five_tokens) None).
Proof. reflexivity. Qed.

Example stale_button :
  button_callback "more_tokens_40" [] = ListExpired
  /\ button_callback "more_tokens_x" forty_five_tokens = InvalidButtonData.
Proof. split; reflexivity. Qed.

(** ** Results: the cache-hit path of the price accessor *)

(** C10. The database accepts the connection and answers the SELECT, and the
    row it returns for the key has NULL in [market_cap] or in [volume_24h].
    Then the [try] block of [get_smart_token_price] raises the [TypeError]
    of the float conversion, and the call returns
    [{"error": "An internal database error occurred."}]; the upstream
    fetcher is not called and the tables are as before. *)
Theorem null_column_on_cache_hit_returns_database_error
  (e : Env) (s : State) (k : string) (row : price_row) :
  db_fault e Connect = None ->
  db_fault e Select = None ->
  select_latest pr_token_id pr_fetched_at (price_history s) k
    (now e - minutes 5) = Some row ->
  pr_market_cap row = None \/ pr_volume_24h row = None ->
  get_smart_token_price_try e k (connected s)
  = ([], inl (TypeError
                "float() argument must be a string or a real number, not 'NoneType'"),
     connected s)
  /\ get_smart_token_price e k s
     = ([], inr (PyDict.error_dict "An internal database error occurred."),
        connected s).
Proof.
  intros Hc Hs Hsel Hnull.
  assert (Htry : get_smart_token_price_try e k (connected s)
                 = ([], inl (TypeError
                      "float() argument must be a string or a real number, not 'NoneType'"),
                    connected s)).
  { unfold get_smart_token_price_try, cached_price, select_price, db_check.
    rewrite Hs. cbv [bind ret get_state]. cbn [price_history connected].
    rewrite Hsel. unfold py_float. cbv [bind ret raise].
    destruct Hnull as [H | H]; rewrite H; [reflexivity|].
    destruct (pr_market_cap row); reflexivity. }
  split; [exact Htry|].
  unfold get_smart_token_price, get_db_connection. rewrite Hc.
  cbv [bind ret log_call get_state try_except]. cbn [app].
  fold (connected s). rewrite Htry. reflexivity.
Qed.

Example first_query_stores_null_market_cap :
  get_smart_token_price (no_market_cap_env 0%Z) "bitcoin" empty_state
  = ([], inr (JObj [("price", JNum 650000000000000%Z);
                    ("market_cap", JNull);
                    ("volume_24h", JNum 2%Z)]),
     null_cap_state).
Proof. reflexivity. Qed.

Lemma null_column_on_cache_hit_returns_database_error_witness :
  db_fault (no_market_cap_env (minutes 1)) Connect = None
  /\ db_fault (no_market_cap_env (minutes 1)) Select = None
  /\ select_latest pr_token_id pr_fetched_at (price_history null_cap_state)
       "bitcoin" (now (no_market_cap_env (minutes 1)) - minutes 5)
     = Some (mk_price_row "bitcoin" 650000000000000%Z None (Some 2%Z) 0%Z)
  /\ (pr_market_cap (mk_price_row "bitcoin" 650000000000000%Z None (Some 2%Z) 0%Z)
      = None
      \/ pr_volume_24h (mk_price_row "bitcoin" 650000000000000%Z None (Some 2%Z) 0%Z)
         = None)
  /\ get_smart_token_price (no_market_cap_env (minutes 1)) "bitcoin" null_cap_state
     = ([], inr (PyDict.error_dict "An internal database error occurred."),
        connected null_cap_state).
Proof.
  split; [reflexivity|]. split; [reflexivity|]. split; [reflexivity|].
  split; [left; reflexivity|].
  exact (proj2 (null_column_on_cache_hit_returns_database_error
                  (no_market_cap_env (minutes 1)) null_cap_state "bitcoin"
                  (mk_price_row "bitcoin" 650000000000000%Z None (Some 2%Z) 0%Z)
                  eq_refl eq_refl eq_refl (or_introl eq_refl))).
Defined.

(** ** Results: a second query within the window *)

(** C9, at a failing input.  The price endpoint has no market capitalisation
    for bitcoin.  The first query "bitcoin price", on an empty cache, calls
    the fetcher, stores the row and yields [price_result].  The same query a
    minute later finds the row and does not call the fetcher again, but it
    yields [error] with the database-error dict, not the [price_result] of
    the first query. *)
Theorem second_query_after_null_market_cap_yields_error :
  let first :=
    stream_agent_response_events (no_market_cap_env 0%Z) "bitcoin price"
      empty_state in
  let second :=
    stream_agent_response_events (no_market_cap_env (minutes 1)) "bitcoin price"
      (state_of first) in
  events_of first
  = [ intent_event GET_PRICE (Some "bitcoin");
      mk_event STATUS_UPDATE (JStr "Fetching price for bitcoin...");
      mk_event PRICE_RESULT
        (JObj [("price", JNum 650000000000000%Z);
               ("market_cap", JNull);
               ("volume_24h", JNum 2%Z)]);
      done_event ]
  /\ events_of second
     = [ intent_event GET_PRICE (Some "bitcoin");
         mk_event STATUS_UPDATE (JStr "Fetching price for bitcoin...");
         mk_event ERROR
           (PyDict.error_dict "An internal database error occurred.");
         done_event ]
  /\ calls (state_of second)
     = [ call_get_db_connection; call_get_token_price_from_api "bitcoin";
         call_get_db_connection ]
  /\ price_history (state_of second)
     = [mk_price_row "bitcoin" 650000000000000%Z None (Some 2%Z) 0%Z].
Proof. repeat split; reflexivity. Qed.

(** ** Results: the reference codec reads back what it writes *)

Module RefJsonFacts.
Import Decimal RefJson.

Lemma parse_print_char c t :
  parse_chars (print_char c t)
  = match parse_chars t with
    | Some (u, r) => Some (String c u, r)
    | None => None
    end.
Proof.
  unfold print_char, escape_letter.
  repeat match goal with
         | |- context [Ascii.eqb c ?k] =>
             destruct (Ascii.eqb_spec c k) as [-> | ?]; [reflexivity|]
         end.
  cbn [parse_chars].
  repeat match goal with
         | H : c <> ?k |- context [Ascii.eqb c ?k] =>
             rewrite (proj2 (Ascii.eqb_neq c k) H)
         end.
  reflexivity.
Qed.

Lemma parse_print_chars s rest :
  parse_chars (print_chars s (String "034" rest)) = Some (s, rest).
Proof.
  induction s as [|c s IH]; cbn [print_chars].
  - reflexivity.
  - rewrite parse_print_char, IH. reflexivity.
Qed.

Lemma print_char_app c a b : print_char c (a ++ b) = print_char c a ++ b.
Proof. unfold print_char. destruct (escape_letter c); reflexivity. Qed.

Lemma print_chars_app s a b : print_chars s (a ++ b) = print_chars s a ++ b.
Proof.
  induction s as [|c s IH]; cbn [print_chars]; [reflexivity|].
  rewrite IH, print_char_app. reflexivity.
Qed.

Lemma parse_print_uint d rest :
  ends_number rest -> parse_uint (print_uint d rest) = (d, rest).
Proof.
  intros Hrest. induction d; cbn [print_uint parse_uint];
    try (cbn [digit Ascii.eqb Bool.eqb]; rewrite IHd; reflexivity).
  destruct rest as [|c r]; [reflexivity|]. cbn in Hrest. cbn [parse_uint].
  rewrite Hrest. reflexivity.
Qed.

Lemma print_uint_app d a b : print_uint d (a ++ b) = print_uint d a ++ b.
Proof. induction d; cbn [print_uint]; rewrite ?IHd; reflexivity. Qed.


Lemma print_arr x xs rest :
  print (JArr (x :: xs)) rest = String "[" (print x (print_elems print xs rest)).
Proof.
  cbn [print]. do 2 f_equal.
  induction xs as [|y ys IH]; cbn [print_elems]; [reflexivity|].
  rewrite IH. reflexivity.
Qed.

Lemma print_obj kv kvs rest :
  print (JObj (kv :: kvs)) rest
  = String "{" (print_member print kv (print_members print kvs rest)).
Proof.
  destruct kv as [k x]. cbn [print]. unfold print_member, print_string.
  cbn [fst snd]. do 7 f_equal.
  induction kvs as [|[k' y] kvs' IH]; cbn [print_members]; [reflexivity|].
  unfold print_member, print_string. cbn [fst snd]. rewrite IH. reflexivity.
Qed.

Example dumps_array :
  dumps (JArr [JNum 65000; JNum (-2); JNull; JBool true; JArr []; JObj []])
  = "[65000, -2, null, true, [], {}]".
Proof. reflexivity. Qed.

Example dumps_string :
  dumps (JStr "a\b") = String "034" ("a\\b" ++ String "034" EmptyString).
Proof. reflexivity. Qed.

Example loads_event :
  loads (dumps (JObj [("event", JStr "price_result");
                      ("data", JObj [("price", JNum 65000);
                                     ("market_cap", JNull);
                                     ("tags", JArr [JNum 1; JStr newline])])])
         ++ newline)
  = Some (JObj [("event", JStr "price_result");
                ("data", JObj [("price", JNum 65000);
                               ("market_cap", JNull);
                               ("tags", JArr [JNum 1; JStr newline])])]).
Proof. reflexivity. Qed.

Example loads_garbage : loads "Traceback (most recent call last):" = None.
Proof. reflexivity. Qed.


(** *** The round trip *)

Section JsonInduction.
Variable P : json -> Prop.
Hypothesis HNull : P JNull.
Hypothesis HBool : forall b, P (JBool b).
Hypothesis HNum : forall n, P (JNum n).
Hypothesis HStr : forall s, P (JStr s).
Hypothesis HArr : forall items, Forall P items -> P (JArr items).
Hypothesis HObj :
  forall fields, Forall (fun kv => P (snd kv)) fields -> P (JObj fields).

Fixpoint json_nested_ind (v : json) : P v :=
  match v with
  | JNull => HNull
  | JBool b => HBool b
  | JNum n => HNum n
  | JStr s => HStr s
  | JArr items =>
      HArr items
        ((fix go (l : list json) : Forall P l :=
            match l with
            | [] => Forall_nil P
            | x :: r => Forall_cons x (json_nested_ind x) (go r)
            end) items)
  | JObj fields =>
      HObj fields
        ((fix go (l : list (string * json)) : Forall (fun kv => P (snd kv)) l :=
            match l with
            | [] => Forall_nil _
            | kv :: r =>
                Forall_cons (P := fun kv => P (snd kv)) kv
                  (json_nested_ind (snd kv)) (go r)
            end) fields)
  end.

End JsonInduction.

Lemma length_app (a b : string) :
  String.length (a ++ b) = (String.length a + String.length b)%nat.
Proof. induction a as [|c a IH]; cbn; [reflexivity | rewrite IH; reflexivity]. Qed.

Lemma print_int_app z a b : print_int z (a ++ b) = print_int z a ++ b.
Proof.
  unfold print_int. destruct (Z.to_int z); cbn; rewrite print_uint_app; reflexivity.
Qed.

Lemma print_string_app s a b : print_string s (a ++ b) = print_string s a ++ b.
Proof.
  unfold print_string. cbn. f_equal.
  change (String "034" (a ++ b)) with (String "034" a ++ b).
  apply print_chars_app.
Qed.

(** The text of a value does not depend on what is written after it. *)
Lemma print_app v : forall a b, print v (a ++ b) = print v a ++ b.
Proof.
  induction v as [| [] | z | s | items IH | fields IH] using json_nested_ind;
    intros a b; try reflexivity.
  - apply print_int_app.
  - apply print_string_app.
  - destruct items as [|x xs]; [reflexivity|].
    rewrite !print_arr. inversion IH as [|? ? Hx Hxs]; subst.
    cbn. f_equal. rewrite <- Hx. f_equal.
    clear Hx IH. induction Hxs as [|y ys Hy _ IHys]; cbn [print_elems].
    + reflexivity.
    + cbn. do 2 f_equal. rewrite <- Hy. f_equal. exact IHys.
  - destruct fields as [|kv kvs]; [reflexivity|].
    rewrite !print_obj. inversion IH as [|? ? Hx Hxs]; subst.
    assert (Htail : print_members print kvs (a ++ b)
                    = print_members print kvs a ++ b).
    { clear Hx IH. induction Hxs as [|y ys Hy _ IHys]; cbn [print_members].
      - reflexivity.
      - unfold print_member. rewrite IHys, Hy.
        change (String ":" (String " " (print (snd y) (print_members print ys a) ++ b)))
          with (String ":" (String " " (print (snd y) (print_members print ys a))) ++ b).
        rewrite print_string_app. reflexivity. }
    rewrite Htail. unfold print_member. rewrite Hx.
    change (String ":" (String " " (print (snd kv) (print_members print kvs a) ++ b)))
      with (String ":" (String " " (print (snd kv) (print_members print kvs a))) ++ b).
    rewrite print_string_app. reflexivity.
Qed.


Lemma print_grows v rest : (String.length rest <= String.length (print v rest))%nat.
Proof.
  change rest with (EmptyString ++ rest) at 2.
  rewrite print_app, length_app. lia.
Qed.

Lemma to_int_digits z :
  match Z.to_int z with Pos d | Neg d => d <> Nil end.
Proof.
  destruct z; cbn; try apply DecimalPos.Unsigned.to_uint_nonnil. discriminate.
Qed.

Lemma print_uint_head d rest c :
  d <> Nil -> digit c = None -> head_is c (print_uint d rest) = false.
Proof.
  intros Hd Hc. unfold digit in Hc.
  repeat match type of Hc with
         | context [Ascii.eqb c ?k] =>
             destruct (Ascii.eqb_spec c k); [discriminate|]
         end.
  destruct d; [congruence| ..]; cbn [print_uint head_is];
    apply Ascii.eqb_neq; congruence.
Qed.

(** A value begins with none of the characters that close a list or a
    dict. *)
Lemma print_head v rest :
  head_is "]" (print v rest) = false /\ head_is "}" (print v rest) = false.
Proof.
  destruct v as [| [] | z | s | [|x xs] | [|[k x] kvs]]; try (split; reflexivity).
  unfold print, print_int. pose proof (to_int_digits z) as Hd.
  destruct (Z.to_int z) as [d|d]; [|split; reflexivity].
  split; apply print_uint_head; auto.
Qed.

Lemma ends_number_elems xs rest : ends_number (print_elems print xs rest).
Proof. destruct xs; reflexivity. Qed.

Lemma ends_number_members kvs rest : ends_number (print_members print kvs rest).
Proof. destruct kvs; reflexivity. Qed.

Lemma parse_number_print_uint neg d rest :
  d <> Nil -> ends_number rest ->
  parse_number neg (print_uint d rest)
  = Some (JNum (Z.of_int (if neg then Neg d else Pos d)), rest).
Proof.
  intros Hd Hrest. unfold parse_number. rewrite parse_print_uint by assumption.
  destruct d; [congruence| ..]; reflexivity.
Qed.

Lemma parse_print_int fuel z rest :
  ends_number rest ->
  parse (S fuel) (print_int z rest) = Some (JNum z, rest).
Proof.
  intros Hrest. unfold print_int.
  pose proof (to_int_digits z) as Hd. pose proof (DecimalZ.of_to z) as Hz.
  destruct (Z.to_int z) as [d|d].
  - transitivity (parse_number false (print_uint d rest)).
    + destruct d; [congruence| ..]; reflexivity.
    + rewrite parse_number_print_uint by assumption. rewrite Hz. reflexivity.
  - cbn [parse head_is Ascii.eqb Bool.eqb tail].
    rewrite parse_number_print_uint by assumption. rewrite Hz. reflexivity.
Qed.

(** What the parser owes on the text of [v]. *)
Definition round_trips (v : json) : Prop :=
  forall fuel rest,
    (String.length (print v rest) <= fuel)%nat ->
    ends_number rest ->
    parse fuel (print v rest) = Some (v, rest).

Lemma parse_elems_print xs :
  Forall round_trips xs ->
  forall fuel rest,
    (String.length (print_elems print xs rest) <= fuel)%nat ->
    ends_number rest ->
    parse_elems fuel (print_elems print xs rest) = Some (xs, rest).
Proof.
  induction 1 as [|y ys Hy _ IH]; intros fuel rest Hfuel Hrest;
    cbn [print_elems] in *; (destruct fuel as [|fuel]; [cbn in Hfuel; lia|]).
  - reflexivity.
  - cbn [String.length] in Hfuel.
    pose proof (print_grows y (print_elems print ys rest)).
    cbn [parse_elems head_is Ascii.eqb Bool.eqb expect].
    rewrite Hy by (try apply ends_number_elems; lia).
    rewrite IH by (auto; lia). reflexivity.
Qed.

Lemma parse_member_print (x : json) k fuel rest :
  round_trips x ->
  (String.length (print x rest) <= fuel)%nat ->
  ends_number rest ->
  parse_member (parse fuel) (print_member print (k, x) rest) = Some ((k, x), rest).
Proof.
  intros Hx Hfuel Hrest. unfold parse_member, print_member, print_string.
  cbn [fst snd head_is tail Ascii.eqb Bool.eqb].
  rewrite parse_print_chars. cbn [expect Ascii.eqb Bool.eqb].
  rewrite Hx by assumption. reflexivity.
Qed.

Lemma print_chars_grows s rest :
  (String.length rest <= String.length (print_chars s rest))%nat.
Proof.
  change rest with (EmptyString ++ rest) at 2.
  rewrite print_chars_app, length_app. lia.
Qed.

Lemma print_member_grows kv rest :
  (String.length (print (snd kv) rest) + 4
   <= String.length (print_member print kv rest))%nat.
Proof.
  unfold print_member, print_string. cbn [String.length].
  change (String "034" (String ":" (String " " (print (snd kv) rest))))
    with ((String "034" (String ":" (String " " EmptyString)))
          ++ print (snd kv) rest).
  rewrite print_chars_app, length_app.
  pose proof (print_chars_grows (fst kv)
                (String "034" (String ":" (String " " EmptyString)))) as Hg.
  cbn [String.length] in Hg. lia.
Qed.

Lemma parse_members_print kvs :
  Forall (fun kv => round_trips (snd kv)) kvs ->
  forall fuel rest,
    (String.length (print_members print kvs rest) <= fuel)%nat ->
    ends_number rest ->
    parse_members fuel (print_members print kvs rest) = Some (kvs, rest).
Proof.
  induction 1 as [|[k y] kvs Hy _ IH]; intros fuel rest Hfuel Hrest;
    cbn [print_members] in *; (destruct fuel as [|fuel]; [cbn in Hfuel; lia|]).
  - reflexivity.
  - cbn [String.length] in Hfuel. cbn [snd] in Hy.
    pose proof (print_member_grows (k, y) (print_members print kvs rest)) as Hg.
    pose proof (print_grows y (print_members print kvs rest)).
    cbn [snd] in Hg.
    cbn [parse_members head_is Ascii.eqb Bool.eqb expect].
    rewrite parse_member_print by (try apply ends_number_members; auto; lia).
    rewrite IH by (auto; lia). reflexivity.
Qed.

Lemma print_length_pos v rest : (1 <= String.length (print v rest))%nat.
Proof.
  destruct v as [| [] | z | s | [|x xs] | [|[k x] kvs]];
    try (cbn [print print_string append String.length]; lia).
  unfold print, print_int. pose proof (to_int_digits z) as Hd.
  destruct (Z.to_int z) as [d|d]; [|cbn [String.length]; lia].
  destruct d; [congruence| ..]; cbn [print_uint String.length]; lia.
Qed.

Lemma parse_print v : round_trips v.
Proof.
  induction v as [| b | z | s | items IH | fields IH] using json_nested_ind;
    intros fuel rest Hfuel Hrest;
    (destruct fuel as [|fuel];
     [match type of Hfuel with
      | (String.length (print ?v ?r) <= _)%nat =>
          pose proof (print_length_pos v r); lia
      end|]).
  - reflexivity.
  - destruct b; reflexivity.
  - apply parse_print_int; assumption.
  - cbn [print print_string parse head_is Ascii.eqb Bool.eqb tail].
    rewrite parse_print_chars. reflexivity.
  - destruct items as [|x xs]; [reflexivity|].
    rewrite print_arr in *. inversion IH as [|? ? Hx Hxs]; subst.
    cbn [String.length] in Hfuel.
    pose proof (print_grows x (print_elems print xs rest)).
    cbn [parse head_is Ascii.eqb Bool.eqb tail].
    rewrite (proj1 (print_head x _)).
    rewrite Hx by (try apply ends_number_elems; lia).
    rewrite parse_elems_print by (auto; lia). reflexivity.
  - destruct fields as [|[k x] kvs]; [reflexivity|].
    rewrite print_obj in *. inversion IH as [|? ? Hx Hxs]; subst.
    cbn [String.length] in Hfuel. cbn [snd] in Hx.
    pose proof (print_member_grows (k, x) (print_members print kvs rest)) as Hg.
    pose proof (print_grows x (print_members print kvs rest)).
    cbn [snd] in Hg.
    cbn [parse head_is Ascii.eqb Bool.eqb tail].
    change (head_is "}" (print_member print (k, x) (print_members print kvs rest)))
      with false.
    rewrite parse_member_print by (try apply ends_number_members; auto; lia).
    rewrite parse_members_print by (auto; lia). reflexivity.
Qed.

(** Reading back a dumped value followed by a newline gives the value. *)
Lemma loads_dumps_line v : loads (dumps v ++ newline) = Some v.
Proof.
  unfold loads, dumps.
  change (print v EmptyString ++ newline) with (print v EmptyString ++ newline).
  rewrite <- (print_app v EmptyString newline). cbn [append].
  rewrite parse_print; [reflexivity | lia | reflexivity].
Qed.


End RefJsonFacts.

#[export] Instance reference_codec : JsonCodec := {|
  dumps := RefJson.dumps;
  loads := RefJson.loads;
  py_str := RefJson.py_str;
  loads_dumps_line := RefJsonFacts.loads_dumps_line;
  py_str_str := fun s => eq_refl
|}.

(** ** Results: the SSE adapter *)

Section WireFacts.
Context {codec : JsonCodec}.

Lemma line_truthy a : PyStr.truthy (a ++ newline) = true.
Proof. destruct a; reflexivity. Qed.

(** A line of the producer becomes the frame of its event. *)
Lemma sse_line_event_line ev : sse_line (event_line ev) = inr (event_frame ev).
Proof.
  unfold sse_line, event_line, format_event.
  rewrite line_truthy, loads_dumps_line. cbn [negb PyDict.get PyDict.assoc].
  change ("event" =? "event") with true. change ("data" =? "event") with false.
  change ("data" =? "data") with true. cbv iota.
  assert (Hn : py_truthy (JStr (event_name_str (ev_name ev))) = true)
    by (destruct (ev_name ev); reflexivity).
  rewrite Hn. unfold sse_frame, event_frame. rewrite py_str_str.
  destruct (ev_data ev); reflexivity.
Qed.

Lemma sse_loop_event_lines evs :
  sse_loop (map event_line evs) = (flat_map event_frame evs, None).
Proof.
  induction evs as [|ev evs IH]; [reflexivity|].
  cbn [map sse_loop flat_map]. rewrite sse_line_event_line, IH. reflexivity.
Qed.

End WireFacts.

(** C5 as stated fails: with the reference codec, on the question
    "price now" the producer yields three events and the adapter yields
    seven chunks, one more than the six of the three event frames. *)
Lemma sse_adapter_frame_per_event_counterexample :
  ~ (forall (codec : JsonCodec) (e : Env) (prompt : string) (s : State),
        _sse_adapter e prompt s
        = flat_map event_frame
            (events_of (stream_agent_response_events e prompt s))).
Proof.
  intros H.
  specialize (H reference_codec (demo_env 0%Z) "price now" empty_state).
  apply (f_equal (@length string)) in H. vm_compute in H. discriminate H.
Qed.

(** C5, amended.  For every lawful codec, prompt, world and state, the
    chunks of [_sse_adapter] are, for each event of the producer in order,
    the chunk [event: <name>] and the chunk [data: <dumps of the payload>],
    name and payload being those of the event, followed by one sentinel
    chunk [event: done / data: {}].  No event is dropped, none is recovered
    as [LOG], and the error branch is not taken. *)
Theorem sse_adapter_frames_then_sentinel
  (codec : JsonCodec) (e : Env) (prompt : string) (s : State) :
  _sse_adapter e prompt s
  = (flat_map event_frame (events_of (stream_agent_response_events e prompt s))
     ++ [sentinel])%list.
Proof.
  unfold _sse_adapter, stream_agent_response. cbn [fst snd].
  rewrite sse_loop_event_lines.
  destruct (stream_run e prompt s) as (evs & s' & Heq & _).
  rewrite Heq. reflexivity.
Qed.

Lemma sse_adapter_frames_then_sentinel_witness :
  _sse_adapter (demo_env 0%Z) "bitcoin price" empty_state
  = (flat_map event_frame
       (events_of (stream_agent_response_events (demo_env 0%Z) "bitcoin price"
                     empty_state))
     ++ [sentinel])%list.
Proof.
  exact (sse_adapter_frames_then_sentinel reference_codec (demo_env 0%Z)
           "bitcoin price" empty_state).
Defined.

Example sse_price_now :
  _sse_adapter (demo_env 0%Z) "price now" empty_state
  = [ "event: intent_recognized" ++ newline;
      "data: " ++ dumps (JObj [("intent", JStr "GET_PRICE"); ("token", JNull)])
      ++ newline ++ newline;
      "event: error" ++ newline;
      "data: "
      ++ dumps (JObj [("message",
                       JStr "Sorry, I couldn't identify a cryptocurrency in your question.")])
      ++ newline ++ newline;
      "event: done" ++ newline;
      "data: " ++ dumps (JStr "Stream finished.") ++ newline ++ newline;
      "event: done" ++ newline ++ "data: {}" ++ newline ++ newline ].
Proof. vm_compute. reflexivity. Qed.

Example sse_garbage_line :
  sse_line "Traceback (most recent call last):"
  = inr [ "event: LOG" ++ newline;
          "data: "
          ++ dumps (JObj [("message", JStr "Traceback (most recent call last):")])
          ++ newline ++ newline ].
Proof. vm_compute. reflexivity. Qed.

(** * Further results *)

(** ** Further results: the cache-aside accessors *)

Ltac unfold_price :=
  unfold get_smart_token_price, get_smart_token_price_try, get_db_connection,
    cached_price, select_price, py_float, insert_price,
    get_token_price_from_api, commit, db_check.

Ltac unfold_news :=
  unfold get_smart_news, get_smart_news_try, get_db_connection, cached_news,
    select_news, insert_news, get_news, commit, db_check.

Ltac run_monad :=
  cbv [bind ret raise try_except yield log_call get_state rollback
       state_of outcome_of events_of];
  cbn [fst snd app price_history news_cache calls begin_price begin_news].

(** X1. Whatever the database and the provider do, one call of
    [get_smart_token_price] leaves the news table as it was, and leaves the
    price table as it was or with one row appended, for the token asked and
    stamped with the time of the call; no row is changed or removed.  It
    opens one database connection and calls the price fetcher at most once,
    for the token asked. *)
Theorem price_accessor_only_appends (e : Env) (token_id : string) (s : State) :
  let s' := state_of (get_smart_token_price e token_id s) in
  news_cache s' = news_cache s
  /\ (price_history s' = price_history s
      \/ exists p m v,
           price_history s'
           = (price_history s ++ [mk_price_row token_id p m v (now e)])%list)
  /\ (calls s' = (calls s ++ [call_get_db_connection])%list
      \/ calls s'
         = (calls s ++ [call_get_db_connection;
                        call_get_token_price_from_api token_id])%list).
Proof.
  unfold_price. run_monad.
  repeat (case_scrutinee; run_monad);
    rewrite <- ?app_assoc; cbn [app]; repeat split; eauto.
Qed.

(** X2. One call of [get_smart_news] leaves the price table as it was, and
    leaves the news table as it was or with one row appended, for the query
    asked and stamped with the time of the call.  It opens one database
    connection and calls the news fetcher at most once. *)
Theorem news_accessor_only_appends (e : Env) (query : string) (s : State) :
  let s' := state_of (get_smart_news e query s) in
  price_history s' = price_history s
  /\ (news_cache s' = news_cache s
      \/ exists articles,
           news_cache s'
           = (news_cache s ++ [mk_news_row query articles (now e)])%list)
  /\ (calls s' = (calls s ++ [call_get_db_connection])%list
      \/ calls s' = (calls s ++ [call_get_db_connection; call_get_news query])%list).
Proof.
  unfold_news. run_monad.
  repeat (case_scrutinee; run_monad);
    rewrite <- ?app_assoc; cbn [app]; repeat split; eauto.
Qed.

(** X3. The database refuses the connection.  Then both accessors return
    [{"error": "Database connection failed."}] at once: no table is read or
    written and no fetcher is called. *)
Theorem connection_failure_is_reported_without_fetching
  (e : Env) (key : string) (s : State) (msg : string) :
  db_fault e Connect = Some msg ->
  get_smart_token_price e key s
  = ([], inr (PyDict.error_dict "Database connection failed."), connected s)
  /\ get_smart_news e key s
     = ([], inr (PyDict.error_dict "Database connection failed."), connected s).
Proof.
  intros H. unfold get_smart_token_price, get_smart_news, get_db_connection.
  rewrite H. split; reflexivity.
Qed.

Lemma connection_failure_is_reported_without_fetching_witness :
  db_fault (db_down_env 0%Z) Connect = Some "connection refused"
  /\ get_smart_token_price (db_down_env 0%Z) "bitcoin" sample_state
     = ([], inr (PyDict.error_dict "Database connection failed."),
        connected sample_state)
  /\ get_smart_news (db_down_env 0%Z) "bitcoin" sample_state
     = ([], inr (PyDict.error_dict "Database connection failed."),
        connected sample_state).
Proof.
  split; [reflexivity|].
  exact (connection_failure_is_reported_without_fetching (db_down_env 0%Z)
           "bitcoin" sample_state "connection refused" eq_refl).
Defined.

(** X4. On a cache miss, an error dict of the price fetcher is returned as it
    is and nothing is stored: the tables are as before, so the next call
    asks the provider again. *)
Theorem price_fetch_error_is_passed_through_uncached
  (e : Env) (token_id : string) (s s2 : State) (d : json) :
  db_fault e Connect = None ->
  db_fault e Select = None ->
  select_latest pr_token_id pr_fetched_at (price_history s) token_id
    (now e - minutes 5) = None ->
  get_token_price_from_api e token_id (connected s) = ([], inr d, s2) ->
  PyDict.has_key "error" d = true ->
  get_smart_token_price e token_id s = ([], inr d, s2)
  /\ price_history s2 = price_history s
  /\ news_cache s2 = news_cache s
  /\ calls s2
     = (calls s ++ [call_get_db_connection;
                    call_get_token_price_from_api token_id])%list.
Proof.
  intros Hc Hs Hmiss Hapi Herr.
  assert (Hs2 : s2 = mk_state (price_history s) (news_cache s)
                       (calls s ++ [call_get_db_connection;
                                    call_get_token_price_from_api token_id])%list).
  { revert Hapi. unfold get_token_price_from_api, connected. run_monad.
    rewrite <- app_assoc. cbn [app].
    repeat case_scrutinee; intros [= _ <-]; reflexivity. }
  split; [|subst s2; repeat split].
  unfold get_smart_token_price, get_smart_token_price_try, get_db_connection,
    cached_price, select_price, db_check.
  rewrite Hc, Hs. run_monad. rewrite Hmiss.
  fold (connected s). rewrite Hapi. run_monad. rewrite Herr. reflexivity.
Qed.

Lemma price_fetch_error_is_passed_through_uncached_witness :
  get_smart_token_price (demo_env 0%Z) "dogecoin" empty_state
  = ([], inr (PyDict.error_dict "Could not find price data for 'dogecoin'."),
     mk_state [] [] [call_get_db_connection;
                     call_get_token_price_from_api "dogecoin"]).
Proof.
  exact (proj1 (price_fetch_error_is_passed_through_uncached (demo_env 0%Z)
                  "dogecoin" empty_state _ _ eq_refl eq_refl eq_refl eq_refl
                  eq_refl)).
Defined.

(** X5. On a cache miss the provider answers with a quote for the token, but
    the row cannot be stored: the INSERT raises, the COMMIT raises, or the
    quote has no ['usd'] and the NOT NULL constraint of [price] rejects it.
    Then the call returns [{"error": "An internal database error
    occurred."}] instead of the quote, and the tables are as before. *)
Theorem price_that_cannot_be_stored_is_lost
  (e : Env) (token_id : string) (s : State)
  (data : list (string * quote)) (q : quote) :
  db_fault e Connect = None ->
  db_fault e Select = None ->
  select_latest pr_token_id pr_fetched_at (price_history s) token_id
    (now e - minutes 5) = None ->
  simple_price e token_id = Response data ->
  lookup token_id data = Some q ->
  db_fault e Insert <> None \/ db_fault e Commit <> None \/ usd q = None ->
  get_smart_token_price e token_id s
  = ([], inr (PyDict.error_dict "An internal database error occurred."),
     mk_state (price_history s) (news_cache s)
       (calls s ++ [call_get_db_connection;
                    call_get_token_price_from_api token_id])%list).
Proof.
  intros Hc Hs Hmiss Hapi Hq Hbad. unfold_price.
  rewrite Hc, Hs. run_monad. rewrite Hmiss. run_monad. rewrite Hapi, Hq.
  run_monad. rewrite <- app_assoc. cbn [app].
  destruct q as [[p|] m v]; cbn;
    destruct (db_fault e Insert) eqn:Hi; run_monad; try reflexivity;
    destruct (db_fault e Commit) eqn:Hm; run_monad; try reflexivity.
  exfalso. destruct Hbad as [H | [H | H]]; [congruence | congruence | discriminate].
Qed.

Lemma price_that_cannot_be_stored_is_lost_witness :
  get_smart_token_price (commit_fails_env 0%Z) "bitcoin" empty_state
  = ([], inr (PyDict.error_dict "An internal database error occurred."),
     mk_state [] [] [call_get_db_connection;
                     call_get_token_price_from_api "bitcoin"])
  /\ get_smart_token_price (no_usd_env 0%Z) "bitcoin" empty_state
     = ([], inr (PyDict.error_dict "An internal database error occurred."),
        mk_state [] [] [call_get_db_connection;
                        call_get_token_price_from_api "bitcoin"]).
Proof.
  split.
  - apply (price_that_cannot_be_stored_is_lost (commit_fails_env 0%Z) "bitcoin"
             empty_state
             [("bitcoin", mk_quote (Some 650000000000000%Z) (Some 1%Z) (Some 2%Z))]
             (mk_quote (Some 650000000000000%Z) (Some 1%Z) (Some 2%Z)));
      try reflexivity.
    right; left; discriminate.
  - apply (price_that_cannot_be_stored_is_lost (no_usd_env 0%Z) "bitcoin"
             empty_state
             [("bitcoin", mk_quote None (Some 1%Z) (Some 2%Z))]
             (mk_quote None (Some 1%Z) (Some 2%Z)));
      try reflexivity.
    right; right; reflexivity.
Defined.

(** X6. When the news row cannot be stored, [get_smart_news] reports the
    text of the database exception in its error dict, and the tables are as
    before. *)
Theorem news_that_cannot_be_stored_is_lost
  (e : Env) (query k : string) (s : State) (data : option (list article))
  (msg : string) :
  db_fault e Connect = None ->
  db_fault e Select = None ->
  select_latest nr_query nr_fetched_at (news_cache s) query
    (now e - minutes 60) = None ->
  env_key e "NEWS_API_KEY" = Some k ->
  everything e query = Response data ->
  (db_fault e Insert = Some msg
   \/ (db_fault e Insert = None /\ db_fault e Commit = Some msg)) ->
  get_smart_news e query s
  = ([], inr (PyDict.error_dict
                ("An internal database error occurred: " ++ msg)),
     mk_state (price_history s) (news_cache s)
       (calls s ++ [call_get_db_connection; call_get_news query])%list).
Proof.
  intros Hc Hs Hmiss Hk Hapi Hbad. unfold_news.
  rewrite Hc, Hs. run_monad. rewrite Hmiss. run_monad. rewrite Hk, Hapi.
  run_monad. rewrite <- app_assoc. cbn [app].
  destruct Hbad as [Hi | [Hi Hm]]; rewrite Hi; run_monad; [reflexivity|].
  rewrite Hm. reflexivity.
Qed.

Lemma news_that_cannot_be_stored_is_lost_witness :
  get_smart_news (commit_fails_env 0%Z) "bitcoin" empty_state
  = ([], inr (PyDict.error_dict
                "An internal database error occurred: could not commit"),
     mk_state [] [] [call_get_db_connection; call_get_news "bitcoin"]).
Proof.
  exact (news_that_cannot_be_stored_is_lost (commit_fails_env 0%Z) "bitcoin"
           "key" empty_state _ "could not commit" eq_refl eq_refl eq_refl
           eq_refl eq_refl (or_intror (conj eq_refl eq_refl))).
Defined.

Section AppendThenSelect.
Context {R : Type} (key : R -> string) (fetched_at : R -> Z).

(** A row appended after a miss is what the next lookup returns, as long as
    the second cut-off is not later than the row. *)
Lemma select_latest_after_append rows new k since1 since2 :
  select_latest key fetched_at rows k since1 = None ->
  key new = k ->
  (since1 <= fetched_at new)%Z ->
  (since2 <= fetched_at new)%Z ->
  select_latest key fetched_at (rows ++ [new])%list k since2 = Some new.
Proof.
  intros Hmiss Hk H1 H2.
  destruct (select_latest key fetched_at (rows ++ [new])%list k since2)
    as [r|] eqn:Hr.
  - apply select_latest_some in Hr. destruct Hr as (Hin & Hkr & Hs & Hmax).
    apply in_app_or in Hin. destruct Hin as [Hold | [<- | []]]; [|reflexivity].
    exfalso.
    apply (proj1 (select_latest_none _ _ _ _ _) Hmiss r Hold).
    split; [exact Hkr|].
    assert (fetched_at new <= fetched_at r)%Z; [|lia].
    apply Hmax; auto. apply in_or_app. right. left. reflexivity.
  - exfalso. apply (proj1 (select_latest_none _ _ _ _ _) Hr new).
    + apply in_or_app. right. left. reflexivity.
    + split; assumption.
Qed.
End AppendThenSelect.



Lemma same_value_article a : same_value (article_dict a) (article_dict a) = true.
Proof.
  destruct a as [[t|] [u|]]; cbn; rewrite ?String.eqb_refl; reflexivity.
Qed.

Lemma same_value_articles l :
  same_value (JArr (map article_dict l)) (JArr (map article_dict l)) = true.
Proof.
  cbn [same_value]. induction l as [|a l IH]; [reflexivity|].
  cbn [map same_items]. rewrite same_value_article. exact IH.
Qed.

(** X8. News that was fetched is served from the cache for sixty minutes.
    The first call misses, the fetcher answers, and the database raises
    nothing: the call returns the fetched dict, after one fetcher call, and
    stores one row for the query, stamped with the time of the call, whose
    document is equal to the fetched list of articles.  The column is JSONB,
    which keeps the content of a document and not the order of the keys of
    its objects: whatever document [stored] of that content the row holds, a
    second call whose clock is at most sixty minutes later and whose
    database answers returns [{"articles": stored}], calls no fetcher
    whatever the provider would answer then, and leaves the tables as they
    are.  So the second result is equal to the first as Python compares
    dicts, the keys of an article possibly in another order. *)
Theorem second_news_query_served_from_cache
  (e1 e2 : Env) (s : State) (query k : string) (data : option (list article))
  (stored : json) :
  db_fault e1 = no_fault ->
  select_latest nr_query nr_fetched_at (news_cache s) query
    (now e1 - minutes 60) = None ->
  env_key e1 "NEWS_API_KEY" = Some k ->
  everything e1 query = Response data ->
  same_value
    (JArr (map article_dict (match data with Some l => l | None => [] end)))
    stored = true ->
  db_fault e2 Connect = None ->
  db_fault e2 Select = None ->
  (now e2 - now e1 <= minutes 60)%Z ->
  let articles :=
    JArr (map article_dict (match data with Some l => l | None => [] end)) in
  let first := get_smart_news e1 query s in
  let s1 :=
    mk_state (price_history s)
      (news_cache s ++ [mk_news_row query stored (now e1)])%list
      (calls s ++ [call_get_db_connection; call_get_news query])%list in
  outcome_of first = inr (JObj [("articles", articles)])
  /\ calls (state_of first) = calls s1
  /\ price_history (state_of first) = price_history s
  /\ (exists doc,
        news_cache (state_of first)
        = (news_cache s ++ [mk_news_row query doc (now e1)])%list
        /\ same_value articles doc = true)
  /\ get_smart_news e2 query s1
     = ([], inr (JObj [("articles", stored)]), connected s1)
  /\ same_value (JObj [("articles", articles)]) (JObj [("articles", stored)])
     = true.
Proof.
  intros Hdb Hmiss Hk Hapi Hsame Hc2 Hs2 Hclock articles first s1.
  assert (Hfirst :
    first
    = ([], inr (JObj [("articles", articles)]),
       mk_state (price_history s)
         (news_cache s ++ [mk_news_row query articles (now e1)])%list
         (calls s ++ [call_get_db_connection; call_get_news query])%list)).
  { unfold first. unfold_news. rewrite Hdb. unfold no_fault. run_monad.
    rewrite Hmiss. run_monad. rewrite Hk, Hapi. run_monad.
    rewrite <- app_assoc. reflexivity. }
  rewrite Hfirst. unfold outcome_of, state_of.
  cbn [fst snd calls news_cache price_history s1].
  split; [reflexivity|]. split; [reflexivity|]. split; [reflexivity|].
  split; [exists articles; split; [reflexivity | apply same_value_articles]|].
  split.
  - assert (Hsel : select_latest nr_query nr_fetched_at (news_cache s1) query
                     (now e2 - minutes 60)
                   = Some (mk_news_row query stored (now e1))).
    { apply select_latest_after_append with (since1 := (now e1 - minutes 60)%Z);
        [assumption | reflexivity
        | cbn [nr_fetched_at]; unfold minutes; lia
        | cbn [nr_fetched_at]; lia]. }
    unfold get_smart_news, get_smart_news_try, get_db_connection, cached_news,
      select_news, db_check.
    rewrite Hc2, Hs2. run_monad.
    change (news_cache s ++ [mk_news_row query stored (now e1)])%list
      with (news_cache s1).
    rewrite Hsel. reflexivity.
  - change (same_value (JObj [("articles", articles)])
              (JObj [("articles", stored)]))
      with (same_value articles stored && true).
    fold articles in Hsame. rewrite Hsame. reflexivity.
Qed.

Lemma second_news_query_served_from_cache_witness :
  outcome_of (get_smart_news (no_usd_env 0%Z) "bitcoin" empty_state)
  = inr (JObj [("articles",
                JArr [JObj [("title", JStr "Bitcoin rallies");
                            ("url", JStr "https://example.org/a")]])])
  /\ outcome_of
       (get_smart_news (keyless_env (minutes 60)) "bitcoin"
          (mk_state []
             [mk_news_row "bitcoin"
                (JArr [JObj [("url", JStr "https://example.org/a");
                             ("title", JStr "Bitcoin rallies")]]) 0%Z]
             [call_get_db_connection; call_get_news "bitcoin"]))
     = inr (JObj [("articles",
                   JArr [JObj [("url", JStr "https://example.org/a");
                               ("title", JStr "Bitcoin rallies")]])]).
Proof.
  pose proof (second_news_query_served_from_cache (no_usd_env 0%Z)
                (keyless_env (minutes 60)) empty_state "bitcoin" "key"
                (Some [mk_article (Some "Bitcoin rallies")
                         (Some "https://example.org/a")])
                (JArr [JObj [("url", JStr "https://example.org/a");
                             ("title", JStr "Bitcoin rallies")]])
                eq_refl eq_refl eq_refl eq_refl eq_refl eq_refl eq_refl) as H.
  cbv zeta in H.
  assert (Hclock : (now (keyless_env (minutes 60)) - now (no_usd_env 0%Z)
                    <= minutes 60)%Z) by (vm_compute; discriminate).
  destruct (H Hclock) as (H1 & _ & _ & _ & H2 & _).
  split; [exact H1|]. exact (f_equal (@outcome_of json) H2).
Defined.

(** X9. With the database answering, the price fetcher is called exactly
    when the lookup misses: on a hit the call adds only the database
    connection to the log, on a miss the connection and one call of the
    fetcher. *)
Theorem price_fetcher_called_iff_cache_miss
  (e : Env) (token_id : string) (s : State) :
  db_fault e Connect = None ->
  db_fault e Select = None ->
  let hit :=
    select_latest pr_token_id pr_fetched_at (price_history s) token_id
      (now e - minutes 5) in
  let s' := state_of (get_smart_token_price e token_id s) in
  (hit <> None -> calls s' = (calls s ++ [call_get_db_connection])%list
                  /\ price_history s' = price_history s)
  /\ (hit = None ->
      calls s' = (calls s ++ [call_get_db_connection;
                              call_get_token_price_from_api token_id])%list).
Proof.
  intros Hc Hs hit s'. subst hit s'. unfold_price. rewrite Hc, Hs. run_monad.
  destruct (select_latest _ _ _ _ _) as [row|]; split; try congruence; intros _;
    run_monad; repeat (case_scrutinee; run_monad);
    rewrite <- ?app_assoc; cbn [app]; auto.
Qed.

Lemma price_fetcher_called_iff_cache_miss_witness :
  calls (state_of (get_smart_token_price (demo_env (minutes 10)) "bitcoin"
                     sample_state))
  = [call_get_db_connection]
  /\ calls (state_of (get_smart_token_price (demo_env (minutes 14)) "bitcoin"
                        sample_state))
     = [call_get_db_connection; call_get_token_price_from_api "bitcoin"].
Proof.
  split.
  - apply (proj1 (price_fetcher_called_iff_cache_miss (demo_env (minutes 10))
                    "bitcoin" sample_state eq_refl eq_refl)).
    vm_compute. discriminate.
  - apply (proj2 (price_fetcher_called_iff_cache_miss (demo_env (minutes 14))
                    "bitcoin" sample_state eq_refl eq_refl)).
    reflexivity.
Defined.

(** ** Further results: the intent resolver *)

Lemma lower_upper_char c :
  PyStr.lower_char (PyStr.upper_char c) = PyStr.lower_char c.
Proof. destruct c as [[] [] [] [] [] [] [] []]; vm_compute; reflexivity. Qed.

Lemma lower_upper s : PyStr.lower (PyStr.upper s) = PyStr.lower s.
Proof.
  induction s as [|c s IH]; [reflexivity|].
  cbn [PyStr.lower PyStr.upper PyStr.map_chars].
  rewrite lower_upper_char. f_equal. exact IH.
Qed.

Lemma lower_char_space c : PyStr.is_space (PyStr.lower_char c) = PyStr.is_space c.
Proof. destruct c as [[] [] [] [] [] [] [] []]; vm_compute; reflexivity. Qed.

Lemma lower_app a b : PyStr.lower (a ++ b) = PyStr.lower a ++ PyStr.lower b.
Proof.
  induction a as [|c a IH]; [reflexivity|].
  cbn [PyStr.lower PyStr.map_chars append]. f_equal. exact IH.
Qed.

Lemma blank_lower a : blank (PyStr.lower a) = blank a.
Proof.
  induction a as [|c a IH]; [reflexivity|].
  cbn [PyStr.lower PyStr.map_chars blank]. rewrite lower_char_space.
  f_equal. exact IH.
Qed.

Lemma lstrip_blank a : blank a = true -> PyStr.lstrip a = EmptyString.
Proof.
  induction a as [|c a IH]; [reflexivity|]. cbn [blank PyStr.lstrip].
  intros H. apply andb_true_iff in H. destruct H as [Hc Ha].
  rewrite Hc. auto.
Qed.

Lemma rstrip_blank a : blank a = true -> PyStr.rstrip a = EmptyString.
Proof.
  induction a as [|c a IH]; [reflexivity|]. cbn [blank PyStr.rstrip].
  intros H. apply andb_true_iff in H. destruct H as [Hc Ha].
  rewrite (IH Ha), Hc. reflexivity.
Qed.

Lemma rstrip_app_blank s b :
  blank b = true -> PyStr.rstrip (s ++ b) = PyStr.rstrip s.
Proof.
  intros Hb. induction s as [|c s IH]; cbn [append PyStr.rstrip].
  - apply rstrip_blank. exact Hb.
  - rewrite IH. reflexivity.
Qed.

Lemma strip_padded a s b :
  blank a = true -> blank b = true -> PyStr.strip (a ++ s ++ b) = PyStr.strip s.
Proof.
  intros Ha Hb. unfold PyStr.strip.
  induction a as [|c a IH].
  - cbn [append]. clear Ha.
    induction s as [|d s IHs]; cbn [append PyStr.lstrip].
    + rewrite (lstrip_blank b Hb). reflexivity.
    + destruct (PyStr.is_space d); [exact IHs|].
      change (String d (s ++ b)) with (String d s ++ b).
      apply rstrip_app_blank. exact Hb.
  - cbn [blank] in Ha. apply andb_true_iff in Ha. destruct Ha as [Hc Ha].
    cbn [append PyStr.lstrip]. rewrite Hc. auto.
Qed.

(** X10. On a question written in ASCII the resolver ignores letter case
    and surrounding white space: the question, the same question in
    capitals, and the same question between blanks get the same intent and
    the same subject.  (Outside ASCII [str.upper] and [str.lower] do not
    cancel, and the question in capitals can resolve differently.) *)
Theorem resolver_ignores_case_and_padding
  (index : list token_info) (text a b : string) :
  ascii_only text = true ->
  blank a = true ->
  blank b = true ->
  parse_natural_language_query index (PyStr.upper text)
  = parse_natural_language_query index text
  /\ parse_natural_language_query index (a ++ text ++ b)
     = parse_natural_language_query index text.
Proof.
  intros _ Ha Hb. unfold parse_natural_language_query. split.
  - rewrite lower_upper. reflexivity.
  - rewrite !lower_app, strip_padded by (rewrite blank_lower; assumption).
    reflexivity.
Qed.

Lemma resolver_ignores_case_and_padding_witness :
  parse_natural_language_query fallback_token_list (PyStr.upper "bitcoin price")
  = parse_natural_language_query fallback_token_list "bitcoin price"
  /\ parse_natural_language_query fallback_token_list
       ("  " ++ "bitcoin price" ++ " ")
     = parse_natural_language_query fallback_token_list "bitcoin price".
Proof.
  exact (resolver_ignores_case_and_padding fallback_token_list "bitcoin price"
           "  " " " eq_refl eq_refl eq_refl).
Defined.

Lemma prefix_cons c a b :
  String.prefix (String c a) (String c b) = String.prefix a b.
Proof.
  cbn [String.prefix]. destruct (ascii_dec c c); [reflexivity | congruence].
Qed.

Lemma prefix_empty s : String.prefix EmptyString s = true.
Proof. destruct s; reflexivity. Qed.

Lemma take_hex_spec n s h :
  PyStr.take_hex n s = Some h ->
  String.length h = n
  /\ all_chars PyStr.is_hex_lower h = true
  /\ String.prefix h s = true.
Proof.
  revert s h. induction n as [|n IH]; intros s h; cbn [PyStr.take_hex].
  - intros [= <-]. repeat split. destruct s; reflexivity.
  - destruct s as [|c r]; [discriminate|].
    destruct (PyStr.is_hex_lower c) eqn:Hc; [|discriminate].
    destruct (PyStr.take_hex n r) as [h'|] eqn:Hr; [|discriminate].
    intros [= <-]. destruct (IH _ _ Hr) as (Hl & Hh & Hp).
    rewrite prefix_cons. cbn [String.length all_chars]. rewrite Hc, Hh, Hl.
    repeat split. exact Hp.
Qed.

Lemma prefix_append h s :
  String.prefix h s = true -> exists post, s = h ++ post.
Proof.
  revert s. induction h as [|c h IH]; intros s H.
  - exists s. reflexivity.
  - destruct s as [|d s]; [discriminate|]. cbn [String.prefix] in H.
    destruct (ascii_dec c d) as [-> | _]; [|discriminate].
    destruct (IH _ H) as (post & ->). exists post. reflexivity.
Qed.

Lemma take_hex_complete n : forall h post,
  String.length h = n ->
  all_chars PyStr.is_hex_lower h = true ->
  PyStr.take_hex n (h ++ post) = Some h.
Proof.
  induction n as [|n IH]; intros [|c h] post Hl Hx; try discriminate;
    [reflexivity|].
  cbn [all_chars] in Hx. apply andb_true_iff in Hx. destruct Hx as [Hc Hx].
  cbn [append PyStr.take_hex]. rewrite Hc, IH; [reflexivity | | exact Hx].
  cbn in Hl. congruence.
Qed.

Lemma wallet_at_sound s a :
  PyStr.wallet_at s = Some a -> is_address a /\ occurs_after EmptyString a s.
Proof.
  unfold PyStr.wallet_at.
  destruct s as [|c0 [|c1 r]]; try discriminate;
    try (destruct c0 as [[] [] [] [] [] [] [] []]; discriminate).
  destruct (ascii_dec c0 "0") as [-> | Hn0];
    [|destruct c0 as [[] [] [] [] [] [] [] []]; try discriminate; congruence].
  destruct (ascii_dec c1 "x") as [-> | Hn1];
    [|destruct c1 as [[] [] [] [] [] [] [] []]; try discriminate; congruence].
  destruct (PyStr.take_hex 40 r) as [h|] eqn:Hh; [|discriminate].
  cbn [option_map]. intros [= <-].
  destruct (take_hex_spec _ _ _ Hh) as (Hl & Hx & Hp).
  destruct (prefix_append _ _ Hp) as (post & ->).
  split.
  - exists h. repeat split; assumption.
  - exists post. reflexivity.
Qed.

Lemma wallet_at_complete a post :
  is_address a -> PyStr.wallet_at (a ++ post) = Some a.
Proof.
  intros (h & -> & Hl & Hx). cbn [append]. unfold PyStr.wallet_at.
  rewrite (take_hex_complete 40 h post Hl Hx). reflexivity.
Qed.

Lemma wallet_search_unfold s :
  PyStr.wallet_search s
  = match PyStr.wallet_at s with
    | Some a => Some a
    | None =>
        match s with
        | String _ r => PyStr.wallet_search r
        | EmptyString => None
        end
    end.
Proof. destruct s; reflexivity. Qed.

(** A miss of the search means that no match stands anywhere in the text. *)
Lemma wallet_search_none s :
  PyStr.wallet_search s = None ->
  forall pre a, is_address a -> ~ occurs_after pre a s.
Proof.
  induction s as [|c r IH]; intros Hnone pre a Ha (post & Hs);
    rewrite wallet_search_unfold in Hnone.
  - destruct pre as [|d pre]; [|discriminate].
    cbn [append] in Hs. rewrite Hs, (wallet_at_complete a post Ha) in Hnone.
    discriminate.
  - destruct pre as [|d pre].
    + cbn [append] in Hs. rewrite Hs, (wallet_at_complete a post Ha) in Hnone.
      discriminate.
    + destruct (PyStr.wallet_at (String c r)); [discriminate|].
      cbn [append] in Hs. injection Hs as _ Hr.
      apply (IH Hnone pre a Ha). exists post. exact Hr.
Qed.

(** What the search returns is the match that starts first. *)
Lemma wallet_search_leftmost s : forall a,
  PyStr.wallet_search s = Some a -> leftmost_match a s.
Proof.
  induction s as [|c r IH]; intros a Hs; rewrite wallet_search_unfold in Hs.
  - destruct (PyStr.wallet_at EmptyString) as [b|] eqn:Hat; [|discriminate].
    injection Hs as ->. destruct (wallet_at_sound _ _ Hat) as [Ha Ho].
    exists EmptyString. repeat split; try assumption. intros; cbn; lia.
  - destruct (PyStr.wallet_at (String c r)) as [b|] eqn:Hat.
    + injection Hs as ->. destruct (wallet_at_sound _ _ Hat) as [Ha Ho].
      exists EmptyString. repeat split; try assumption. intros; cbn; lia.
    + destruct (IH a Hs) as (pre & Ha & (post & Hr) & Hmin).
      exists (String c pre). split; [exact Ha|]. split.
      * exists post. cbn [append]. rewrite <- Hr. reflexivity.
      * intros pre' a' Ha' (post' & Hs').
        destruct pre' as [|d pre'].
        -- cbn [append] in Hs'.
           rewrite Hs', (wallet_at_complete a' post' Ha') in Hat. discriminate.
        -- cbn [append] in Hs'. injection Hs' as _ Hr'.
           assert (String.length pre <= String.length pre')
             by (apply (Hmin pre' a' Ha'); exists post'; exact Hr').
           cbn [String.length]. lia.
Qed.

Lemma append_inv_length a : forall c b d,
  a ++ b = c ++ d -> String.length a = String.length c -> a = c /\ b = d.
Proof.
  induction a as [|x a IH]; intros [|y c] b d H Hl; try discriminate.
  - split; [reflexivity | exact H].
  - cbn [append] in H. injection H as -> H. cbn in Hl.
    destruct (IH c b d H ltac:(congruence)) as [-> ->]. split; reflexivity.
Qed.

Lemma is_address_length a : is_address a -> String.length a = 42.
Proof. intros (h & -> & Hl & _). cbn [append String.length]. rewrite Hl. reflexivity. Qed.

Lemma leftmost_match_unique a b t :
  leftmost_match a t -> leftmost_match b t -> a = b.
Proof.
  intros (pa & Ha & (qa & Hta) & Hmina) (pb & Hb & (qb & Htb) & Hminb).
  assert (Hlen : String.length pa = String.length pb).
  { apply Nat.le_antisymm.
    - apply (Hmina pb b Hb). exists qb. exact Htb.
    - apply (Hminb pa a Ha). exists qa. exact Hta. }
  rewrite Hta in Htb.
  destruct (append_inv_length _ _ _ _ Htb Hlen) as [_ Hrest].
  apply (append_inv_length _ _ _ _ Hrest).
  rewrite (is_address_length a Ha), (is_address_length b Hb). reflexivity.
Qed.

(** X11. A wallet address wins over every keyword.  The query is resolved
    as a wallet lookup exactly when the pattern [0x[a-f0-9]{40}] ("0x" and 40
    characters of [a-f0-9]) matches somewhere in the lowered, stripped text,
    whatever else the text says and whatever the token index holds; and the
    subject of the lookup is then the match that starts first in that
    text, and nothing else. *)
Theorem wallet_lookup_iff_address_in_text
  (index : list token_info) (text : string) :
  let t := PyStr.strip (PyStr.lower text) in
  let p := parse_natural_language_query index text in
  (intent p = GET_WALLET_INFO
   <-> exists pre a, is_address a /\ occurs_after pre a t)
  /\ (forall a, p = mk_parsed GET_WALLET_INFO (Some a) <-> leftmost_match a t).
Proof.
  cbv zeta. unfold parse_natural_language_query, keyword_intent.
  destruct (PyStr.wallet_search (PyStr.strip (PyStr.lower text))) as [b|] eqn:Hw.
  - pose proof (wallet_search_leftmost _ _ Hw) as Hb. split.
    + split; [|reflexivity]. intros _.
      destruct Hb as (pre & Ha & Ho & _). exists pre, b. split; assumption.
    + intros a. split.
      * intros [= <-]. exact Hb.
      * intros Ha. rewrite (leftmost_match_unique _ _ _ Ha Hb). reflexivity.
  - pose proof (wallet_search_none _ Hw) as Hno.
    assert (Hne : forall p : parsed_query,
               (p = mk_parsed LIST_TOKENS None
                \/ exists t, p = mk_parsed GET_PRICE t
                             \/ p = mk_parsed GET_NEWS t
                             \/ p = mk_parsed GET_OVERVIEW t) ->
               intent p <> GET_WALLET_INFO).
    { intros p [-> | [t [-> | [-> | ->]]]]; discriminate. }
    match goal with
    | |- context [intent ?p] =>
        assert (Hp : intent p <> GET_WALLET_INFO)
    end.
    { apply Hne. repeat case_scrutinee; eauto 6. }
    split.
    + split; [intros H; destruct (Hp H)|].
      intros (pre & a & Ha & Ho). destruct (Hno pre a Ha Ho).
    + intros a. split.
      * intros H. exfalso. apply Hp. rewrite H. reflexivity.
      * intros (pre & Ha & Ho & _). destruct (Hno pre a Ha Ho).
Qed.

Example wallet_address_after_a_keyword :
  parse_natural_language_query fallback_token_list
    "Bitcoin price of 0X00000000219AB540356CBB839CBE05303D7705FA please"
  = mk_parsed GET_WALLET_INFO (Some "0x00000000219ab540356cbb839cbe05303d7705fa").
Proof. reflexivity. Qed.

(** X12. The subject of a price, news or overview query is the id of the
    first entry of the token index that matches the lowered text: the index
    is [pre ++ entry :: post] with no match in [pre].  There is no subject
    exactly when no entry matches.  So with two tokens of the same symbol the
    earlier one is always chosen. *)
Theorem subject_is_first_matching_entry
  (index : list token_info) (text_lower : string) :
  (forall id, find_token text_lower index = Some id ->
     exists pre entry post,
       index = (pre ++ entry :: post)%list
       /\ tok_id entry = id
       /\ token_matches text_lower entry = true
       /\ forall t, In t pre -> token_matches text_lower t = false)
  /\ (find_token text_lower index = None
      <-> forall t, In t index -> token_matches text_lower t = false).
Proof.
  induction index as [|t index [IHsome IHnone]]; cbn [find_token].
  - split; [discriminate|]. split; [intros _ t []|reflexivity].
  - destruct (token_matches text_lower t) eqn:Ht.
    + split.
      * intros id [= <-]. exists [], t, index. repeat split; auto.
        intros x [].
      * split; [discriminate|]. intros H.
        rewrite (H t (or_introl eq_refl)) in Ht. discriminate.
    + split.
      * intros id Hid. destruct (IHsome id Hid) as (pre & entry & post & -> & Hi & Hm & Hpre).
        exists (t :: pre), entry, post. repeat split; auto.
        intros x [<- | Hx]; auto.
      * rewrite IHnone. split.
        -- intros H x [<- | Hx]; auto.
        -- intros H x Hx. apply H. right. exact Hx.
Qed.

Example same_symbol_first_wins :
  find_token "eth"
    [mk_token_info "ethereum" "ethereum" "eth";
     mk_token_info "ethereum-wormhole" "ethereum (wormhole)" "eth"]
  = Some "ethereum".
Proof. reflexivity. Qed.

(** X13. The two keyword classifiers of [agent_core.py] agree on every
    question that does not contain "what's new".  Where they differ,
    [parse_intent] answers [GET_NEWS] and the classifier used by
    [parse_natural_language_query] answers [GET_OVERVIEW]. *)
Theorem keyword_classifiers_agree_up_to_whats_new (question : string) :
  (PyStr.contains "what's new" (PyStr.lower question) = false ->
   parse_intent question = keyword_intent (PyStr.lower question))
  /\ (parse_intent question <> keyword_intent (PyStr.lower question) ->
      parse_intent question = GET_NEWS
      /\ keyword_intent (PyStr.lower question) = GET_OVERVIEW
      /\ PyStr.contains "what's new" (PyStr.lower question) = true).
Proof.
  unfold parse_intent, keyword_intent.
  destruct (PyStr.contains "price" _ || PyStr.contains "how much" _
            || PyStr.contains "cost" _).
  - split; [reflexivity | congruence].
  - destruct (PyStr.contains "news" _ || PyStr.contains "headlines" _
              || PyStr.contains "latest" _); cbn [orb].
    + split; [reflexivity | congruence].
    + destruct (PyStr.contains "what's new" _).
      * split; [discriminate | auto].
      * split; [reflexivity | congruence].
Qed.

Example whats_new_is_classified_differently :
  parse_intent "What's new with bitcoin?" = GET_NEWS
  /\ parse_natural_language_query fallback_token_list "What's new with bitcoin"
     = mk_parsed GET_OVERVIEW (Some "bitcoin").
Proof. split; reflexivity. Qed.

(** ** Further results: the event producer *)

Lemma price_accessor_keeps_news e t s :
  news_cache (state_of (get_smart_token_price e t s)) = news_cache s
  /\ forall q, In (call_get_news q) (calls (state_of (get_smart_token_price e t s)))
               -> In (call_get_news q) (calls s).
Proof.
  unfold_price. run_monad.
  repeat (case_scrutinee; run_monad); (split; [reflexivity|]);
    intros ? Hin; repeat (apply in_app_or in Hin; destruct Hin as [Hin | Hin]);
    auto; cbn in Hin; repeat (destruct Hin as [Hin | Hin]; try discriminate);
    try contradiction.
Qed.

Lemma news_accessor_keeps_prices e q s :
  price_history (state_of (get_smart_news e q s)) = price_history s
  /\ forall t, In (call_get_token_price_from_api t)
                  (calls (state_of (get_smart_news e q s)))
               -> In (call_get_token_price_from_api t) (calls s).
Proof.
  unfold_news. run_monad.
  repeat (case_scrutinee; run_monad); (split; [reflexivity|]);
    intros ? Hin; repeat (apply in_app_or in Hin; destruct Hin as [Hin | Hin]);
    auto; cbn in Hin; repeat (destruct Hin as [Hin | Hin]; try discriminate);
    try contradiction.
Qed.

(** X14. A query resolved to the price intent never touches the news side:
    the news table is as before, no news fetcher call is added, and no
    [news_result] is yielded.  A query resolved to the news intent never
    touches the price side in the same way. *)
Theorem single_intent_query_leaves_other_side_alone
  (e : Env) (q : string) (s : State) (t : string) :
  PyStr.truthy t = true ->
  let r := stream_agent_response_events e q s in
  (parse_of e q = mk_parsed GET_PRICE (Some t) ->
   news_cache (state_of r) = news_cache s
   /\ (forall x, In (call_get_news x) (calls (state_of r)) ->
                 In (call_get_news x) (calls s))
   /\ count_name NEWS_RESULT (events_of r) = 0)
  /\ (parse_of e q = mk_parsed GET_NEWS (Some t) ->
      price_history (state_of r) = price_history s
      /\ (forall x, In (call_get_token_price_from_api x) (calls (state_of r)) ->
                    In (call_get_token_price_from_api x) (calls s))
      /\ count_name PRICE_RESULT (events_of r) = 0).
Proof.
  intros Ht r. subst r. split; intros Hp.
  - destruct (get_smart_token_price_returns e t s) as (p & s' & Hq).
    rewrite (stream_price e q s t p s' Hp Ht Hq).
    pose proof (price_accessor_keeps_news e t s) as [Hn Hc].
    rewrite Hq in Hn, Hc. cbn [state_of events_of fst snd] in *.
    repeat split; auto.
    unfold count_name, price_event. destruct (PyDict.has_key "error" p); reflexivity.
  - destruct (get_smart_news_returns e t s) as (n & s' & Hq).
    rewrite (stream_news e q s t n s' Hp Ht Hq).
    pose proof (news_accessor_keeps_prices e t s) as [Hn Hc].
    rewrite Hq in Hn, Hc. cbn [state_of events_of fst snd] in *.
    repeat split; auto.
    unfold count_name, news_event. destruct (PyDict.has_key "error" n); reflexivity.
Qed.

Lemma single_intent_query_leaves_other_side_alone_witness :
  PyStr.truthy "bitcoin" = true
  /\ news_cache (state_of (stream_agent_response_events (full_env 0%Z)
                             "bitcoin price" sample_state))
     = news_cache sample_state.
Proof.
  split; [reflexivity|].
  exact (proj1 (proj1 (single_intent_query_leaves_other_side_alone
                         (full_env 0%Z) "bitcoin price" sample_state "bitcoin"
                         eq_refl) eq_refl)).
Defined.

(** X15. A token-listing query always yields the four events
    [intent_recognized], [status_update], [token_list_result], [done], and
    never an [error]: when the markets request fails, [token_list_result]
    carries the one placeholder entry with an empty id.  One fetcher call is
    made and the tables are not touched. *)
Theorem listing_never_yields_error (e : Env) (q : string) (s : State) :
  parse_of e q = mk_parsed LIST_TOKENS None ->
  stream_agent_response_events e q s
  = ([ intent_event LIST_TOKENS None;
       mk_event STATUS_UPDATE (JStr "Fetching full token list...");
       mk_event TOKEN_LIST_RESULT
         (JObj [("tokens",
                 match markets e with
                 | Response l => JArr (map token_entry l)
                 | RequestException _ => token_list_placeholder
                 end)]);
       done_event ],
     inr tt,
     mk_state (price_history s) (news_cache s)
       (calls s ++ [call_get_token_list])%list).
Proof.
  intros Hp. eapply stream_list; [exact Hp|].
  unfold get_token_list. run_monad. destruct (markets e); reflexivity.
Qed.

Lemma listing_never_yields_error_witness :
  events_of (stream_agent_response_events (demo_env 0%Z) "list all tokens"
               empty_state)
  = [ intent_event LIST_TOKENS None;
      mk_event STATUS_UPDATE (JStr "Fetching full token list...");
      mk_event TOKEN_LIST_RESULT (JObj [("tokens", token_list_placeholder)]);
      done_event ].
Proof.
  exact (f_equal (@events_of unit)
           (listing_never_yields_error (demo_env 0%Z) "list all tokens"
              empty_state eq_refl)).
Defined.

Lemma prefix_cons_differs c d a b :
  c <> d -> String.prefix (String c a) (String d b) = false.
Proof.
  intros H. cbn [String.prefix].
  destruct (ascii_dec c d); [contradiction | reflexivity].
Qed.

Lemma announced_wallet a :
  announced (ev_data (wallet_status_event a)) = Some WalletStep.
Proof.
  unfold wallet_status_event, announced. cbn [ev_data append].
  rewrite !prefix_cons, prefix_empty. reflexivity.
Qed.

Lemma announced_price t :
  announced (JStr ("Fetching price for " ++ t ++ "...")) = Some PriceStep.
Proof.
  unfold announced. cbn [append].
  rewrite !prefix_cons, prefix_empty.
  rewrite prefix_cons_differs by discriminate.
  reflexivity.
Qed.

Lemma announced_news t :
  announced (JStr ("Fetching news for " ++ t ++ "...")) = Some NewsStep.
Proof.
  unfold announced. cbn [append].
  rewrite !prefix_cons, prefix_empty.
  rewrite !prefix_cons_differs by discriminate.
  reflexivity.
Qed.

Lemma answers_price p : answers PriceStep (price_event p) = true.
Proof.
  unfold price_event. destruct (PyDict.has_key "error" p) eqn:E;
    [exact E | reflexivity].
Qed.

Lemma answers_news n : answers NewsStep (news_event n) = true.
Proof.
  unfold news_event. destruct (PyDict.has_key "error" n) eqn:E;
    [exact E | reflexivity].
Qed.

Lemma price_event_no_status p : ev_name (price_event p) <> STATUS_UPDATE.
Proof. unfold price_event. destruct (PyDict.has_key _ _); discriminate. Qed.

Lemma news_event_no_status n : ev_name (news_event n) <> STATUS_UPDATE.
Proof. unfold news_event. destruct (PyDict.has_key _ _); discriminate. Qed.

Lemma statuses_answered_skip ev rest :
  ev_name ev <> STATUS_UPDATE ->
  statuses_answered (ev :: rest) = statuses_answered rest.
Proof.
  intros H. cbn [statuses_answered]. destruct (ev_name ev); congruence.
Qed.

Lemma statuses_answered_step ev st next rest :
  ev_name ev = STATUS_UPDATE ->
  announced (ev_data ev) = Some st ->
  answers st next = true ->
  statuses_answered (ev :: next :: rest) = statuses_answered (next :: rest).
Proof.
  intros Hn Ha Hans. cbn [statuses_answered]. rewrite Hn, Ha, Hans. reflexivity.
Qed.

(** X16. In every sequence the producer yields, each [status_update]
    announces a step (wallet, token list, price or news) and is directly
    followed by the event that answers that step: [wallet_info_result] for
    the wallet step, [token_list_result] for the list step, [price_result]
    or an [error] carrying an error dict for the price step, [news_result] or
    such an [error] for the news step.  The sequence has three, four or six
    events, at most two of them [error], and never both a
    [wallet_info_result] or a [token_list_result] and a price or news
    event. *)
Theorem every_status_update_is_answered (e : Env) (q : string) (s : State) :
  let evs := events_of (stream_agent_response_events e q s) in
  statuses_answered evs = true
  /\ (length evs = 3 \/ length evs = 4 \/ length evs = 6)
  /\ count_name ERROR evs <= 2
  /\ (count_name WALLET_INFO_RESULT evs + count_name TOKEN_LIST_RESULT evs = 0
      \/ count_name PRICE_RESULT evs + count_name NEWS_RESULT evs
         + count_name ERROR evs = 0).
Proof.
  destruct (stream_run e q s) as (evs & s' & Heq & Hrun).
  cbv zeta. rewrite Heq. unfold events_of. cbn [fst].
  split.
  - destruct Hrun;
      rewrite statuses_answered_skip by discriminate.
    + rewrite (statuses_answered_step _ WalletStep)
        by (reflexivity || apply announced_wallet).
      reflexivity.
    + rewrite (statuses_answered_step _ ListStep) by reflexivity.
      reflexivity.
    + reflexivity.
    + rewrite (statuses_answered_step _ PriceStep)
        by (reflexivity || apply announced_price || apply answers_price).
      rewrite statuses_answered_skip by apply price_event_no_status.
      reflexivity.
    + rewrite (statuses_answered_step _ NewsStep)
        by (reflexivity || apply announced_news || apply answers_news).
      rewrite statuses_answered_skip by apply news_event_no_status.
      reflexivity.
    + rewrite (statuses_answered_step _ PriceStep)
        by (reflexivity || apply announced_price || apply answers_price).
      rewrite statuses_answered_skip by apply price_event_no_status.
      rewrite (statuses_answered_step _ NewsStep)
        by (reflexivity || apply announced_news || apply answers_news).
      rewrite statuses_answered_skip by apply news_event_no_status.
      reflexivity.
  - destruct Hrun; unfold price_event, news_event, count_name;
      repeat match goal with
        | |- context [PyDict.has_key "error" ?d] =>
            destruct (PyDict.has_key "error" d)
        end;
      cbn; repeat split; auto; lia.
Qed.

Example price_status_answered_by_news_is_rejected :
  statuses_answered
    [ mk_event STATUS_UPDATE (JStr "Fetching price for bitcoin...");
      mk_event NEWS_RESULT (JObj [("articles", JArr [])]) ]
  = false.
Proof. reflexivity. Qed.

(** ** Further results: the wallet fetcher *)

(** X17. [get_wallet_info] returns an error dict exactly when the API key is
    unset or empty, the balance request fails or its status is not "1", or
    one of the two transaction requests fails.  A transaction reply whose
    status is not "1" is no failure: it counts as no transactions.  On
    success the dict names the address asked, links to it, and counts the
    transactions of the two replies; without transactions both dates are
    "N/A". *)
Theorem wallet_info_error_iff_request_failed
  (e : Env) (address : string) (s : State) :
  exists w,
    get_wallet_info e address s
    = ([], inr w,
       mk_state (price_history s) (news_cache s)
         (calls s ++ [call_get_wallet_info address])%list)
    /\ (PyDict.has_key "error" w = true
        <-> (env_key e "ETHERSCAN_API_KEY" = None
             \/ (exists x, account_balance e address = RequestException x)
             \/ (exists b, account_balance e address = Response b
                           /\ bal_status b <> "1")
             \/ (exists x, account_txlist e address = RequestException x)
             \/ (exists x, account_tokentx e address = RequestException x)))
    /\ (PyDict.has_key "error" w = false ->
        exists b txs toks,
          account_balance e address = Response b
          /\ account_txlist e address = Response txs
          /\ account_tokentx e address = Response toks
          /\ PyDict.get "address" w = JStr address
          /\ PyDict.get "etherscan_url" w
             = JStr ("https://etherscan.io/address/" ++ address)
          /\ PyDict.get "eth_balance" w = JStr (format_eth e (bal_result b))
          /\ PyDict.get "normal_transaction_count" w
             = JNum (Z.of_nat (length (tx_list txs)))
          /\ PyDict.get "token_transaction_count" w
             = JNum (Z.of_nat (length (tx_list toks)))
          /\ (tx_list txs = [] ->
              PyDict.get "first_transaction" w = JStr "N/A"
              /\ PyDict.get "last_transaction" w = JStr "N/A")).
Proof.
  unfold get_wallet_info. run_monad.
  destruct (env_key e "ETHERSCAN_API_KEY") as [k|] eqn:Hk.
  2:{ eexists. split; [reflexivity|]. split; [|discriminate].
      split; auto. }
  destruct (account_balance e address) as [x|b] eqn:Hb.
  { eexists. split; [reflexivity|]. split; [|discriminate].
    split; [intros _; right; left; eauto | reflexivity]. }
  destruct (String.eqb_spec (bal_status b) "1") as [Hst | Hst]; cbn [negb].
  2:{ eexists. split; [reflexivity|]. split; [|discriminate].
      split; [intros _; right; right; left; eauto | reflexivity]. }
  destruct (account_txlist e address) as [x|txs] eqn:Ht.
  { eexists. split; [reflexivity|]. split; [|discriminate].
    split; [intros _; right; right; right; left; eauto | reflexivity]. }
  destruct (account_tokentx e address) as [x|toks] eqn:Hk2.
  { eexists. split; [reflexivity|]. split; [|discriminate].
    split; [intros _; right; right; right; right; eauto | reflexivity]. }
  eexists. split; [reflexivity|]. split.
  - split; [discriminate|].
    intros [H | [[x H] | [(b' & H & Hne) | [[x H] | [x H]]]]]; try discriminate.
    injection H as <-. contradiction.
  - intros _. exists b, txs, toks.
    do 8 (split; [reflexivity|]).
    intros H. rewrite H. split; reflexivity.
Qed.

Example wallet_info_of_an_account :
  outcome_of (get_wallet_info (full_env 0%Z) wallet_question empty_state)
  = inr (JObj
      [("address", JStr wallet_question);
       ("etherscan_url",
        JStr "https://etherscan.io/address/0x00000000219ab540356cbb839cbe05303d7705fa");
       ("eth_balance", JStr "1.0000 ETH");
       ("normal_transaction_count", JNum 2%Z);
       ("token_transaction_count", JNum 0%Z);
       ("first_transaction", JStr "2020-09-13");
       ("last_transaction", JStr "2023-11-14")]).
Proof. reflexivity. Qed.

(** ** Further results: the token index *)

Lemma before_first_paren a b :
  PyStr.contains " (" a = false -> before_first " (" (a ++ " (" ++ b) = a.
Proof.
  induction a as [|c r IH]; intros Hc.
  - cbn [append before_first]. rewrite !prefix_cons, prefix_empty. reflexivity.
  - cbn [PyStr.contains] in Hc. apply orb_false_iff in Hc.
    destruct Hc as [Hp Hr].
    cbn [append before_first].
    assert (Hpre : String.prefix " (" (String c (r ++ " (" ++ b)) = false).
    { destruct (ascii_dec c " ") as [-> | Hn].
      - rewrite prefix_cons in Hp |- *.
        destruct r as [|d r']; [reflexivity|].
        cbn [append]. destruct (ascii_dec d "(") as [-> | Hd].
        + rewrite prefix_cons, prefix_empty in Hp. discriminate.
        + cbn [String.prefix]. destruct (ascii_dec "(" d); [congruence|reflexivity].
      - cbn [String.prefix]. destruct (ascii_dec " " c); [congruence|reflexivity]. }
    change (String c (r ++ String " " (String "(" b)))
      with (String c (r ++ " (" ++ b)).
    rewrite Hpre. f_equal. apply IH. exact Hr.
Qed.

Lemma append_assoc (a b c : string) : (a ++ b) ++ c = a ++ (b ++ c).
Proof. induction a as [|x a IH]; cbn [append]; [reflexivity | rewrite IH; reflexivity]. Qed.

Lemma after_last_without c acc s :
  all_chars (fun d => negb (Ascii.eqb d c)) s = true ->
  after_last c acc s = acc ++ s.
Proof.
  revert acc. induction s as [|d r IH]; intros acc H; cbn [after_last].
  - clear. induction acc as [|x acc IH]; cbn [append]; [reflexivity | rewrite <- IH; reflexivity].
  - cbn [all_chars] in H. apply andb_true_iff in H. destruct H as [Hd Hr].
    apply negb_true_iff in Hd. rewrite Hd, (IH _ Hr), append_assoc. reflexivity.
Qed.

Lemma after_last_from c acc pre s :
  after_last c acc (pre ++ String c s) = after_last c EmptyString s.
Proof.
  revert acc. induction pre as [|d r IH]; intros acc; cbn [append after_last].
  - rewrite Ascii.eqb_refl. reflexivity.
  - destruct (Ascii.eqb d c); apply IH.
Qed.

Lemma drop_last_snoc s c : drop_last (s ++ String c EmptyString) = s.
Proof.
  unfold drop_last. rewrite RefJsonFacts.length_app. cbn [String.length].
  replace (String.length s + 1 - 1) with (String.length s) by lia.
  induction s as [|d r IH]; cbn [append String.length String.substring];
    [reflexivity | f_equal; exact IH].
Qed.

Lemma upper_char_not_paren c : not_paren (PyStr.upper_char c) = not_paren c.
Proof. destruct c as [[] [] [] [] [] [] [] []]; vm_compute; reflexivity. Qed.

Lemma upper_not_paren s :
  all_chars not_paren (PyStr.upper s) = all_chars not_paren s.
Proof.
  induction s as [|c r IH]; [reflexivity|].
  cbn [PyStr.upper PyStr.map_chars all_chars]. rewrite upper_char_not_paren.
  f_equal. exact IH.
Qed.

(** The entry read back from the text that [get_token_list] builds. *)
Lemma detailed_entry_of_token_entry t :
  PyStr.contains " (" (m_name t) = false ->
  all_chars not_paren (m_symbol t) = true ->
  detailed_entry (token_entry t) = Some (index_entry t).
Proof.
  intros Hn Hs. unfold detailed_entry, token_entry, index_entry.
  cbn [PyDict.assoc]. change ("id" =? "id") with true.
  change ("id" =? "text") with false. change ("text" =? "text") with true.
  cbv iota.
  assert (Hsym : drop_last
                   (after_last "(" EmptyString
                      (m_name t ++ " (" ++ PyStr.upper (m_symbol t) ++ ")"))
                 = PyStr.upper (m_symbol t)).
  { change (m_name t ++ " (" ++ PyStr.upper (m_symbol t) ++ ")")
      with (m_name t ++ " " ++ String "(" (PyStr.upper (m_symbol t) ++ ")")).
    rewrite <- append_assoc, after_last_from.
    rewrite after_last_without.
    - cbn [append]. apply drop_last_snoc.
    - clear Hn. revert Hs. rewrite <- upper_not_paren.
      generalize (PyStr.upper (m_symbol t)). clear.
      induction s as [|c r IH]; cbn [append all_chars]; [reflexivity|].
      unfold not_paren at 1. intros H. apply andb_true_iff in H.
      destruct H as [Hc Hr]. rewrite Hc. exact (IH Hr). }
  rewrite Hsym, lower_upper, (before_first_paren _ _ Hn). reflexivity.
Qed.

Lemma detailed_entries_of_token_entries l :
  Forall (fun t => PyStr.contains " (" (m_name t) = false
                   /\ all_chars not_paren (m_symbol t) = true) l ->
  detailed_entries (map token_entry l) = Some (map index_entry l).
Proof.
  induction 1 as [|t l [Hn Hs] _ IH]; [reflexivity|].
  cbn [map detailed_entries].
  rewrite (detailed_entry_of_token_entry t Hn Hs), IH. reflexivity.
Qed.

(** X18. [load_full_token_list] reads back what [get_token_list] wrote: when
    the markets request succeeds, the ids, names and symbols of the tokens
    are written in ASCII, no token name contains " (" and no symbol contains
    "(", the index gains, in order, one entry per token with the lower-cased
    id, name and symbol of the token, after the entries it already had.  One
    fetcher call is made.  (The symbol goes through [upper] and then
    [lower], which give the lower-cased symbol on ASCII only.) *)
Theorem token_index_reads_back_market_list
  (e : Env) (current : list token_info) (s : State) (l : list market) :
  markets e = Response l ->
  Forall (fun t => ascii_only (m_id t) = true
                   /\ ascii_only (m_name t) = true
                   /\ ascii_only (m_symbol t) = true
                   /\ PyStr.contains " (" (m_name t) = false
                   /\ all_chars not_paren (m_symbol t) = true) l ->
  load_full_token_list e current s
  = ([], inr (current ++ map index_entry l)%list,
     mk_state (price_history s) (news_cache s)
       (calls s ++ [call_get_token_list])%list).
Proof.
  intros Hm Hall. unfold load_full_token_list, get_token_list.
  rewrite Hm. run_monad.
  rewrite (detailed_entries_of_token_entries l); [reflexivity|].
  eapply Forall_impl; [|exact Hall].
  intros t (_ & _ & _ & Hn & Hs). split; assumption.
Qed.

Lemma token_index_reads_back_market_list_witness :
  load_full_token_list (full_env 0%Z) [] empty_state
  = ([], inr [mk_token_info "bitcoin" "bitcoin" "btc";
              mk_token_info "pi-network" "pi network" "pi"],
     mk_state [] [] [call_get_token_list]).
Proof.
  apply (token_index_reads_back_market_list (full_env 0%Z) [] empty_state
           [mk_market "bitcoin" "Bitcoin" "btc";
            mk_market "pi-network" "Pi Network" "pi"] eq_refl).
  repeat constructor.
Defined.

Example token_index_after_failed_request :
  outcome_of (load_full_token_list (demo_env 0%Z) [] empty_state)
  = inr [mk_token_info "" "error fetching tokens" "error fetching token"].
Proof. reflexivity. Qed.

Example token_name_with_parenthesis_is_cut :
  detailed_entry (token_entry (mk_market "usd-coin-pos" "USD Coin (PoS)" "usdc"))
  = Some (mk_token_info "usd-coin-pos" "usd coin" "usdc").
Proof. reflexivity. Qed.

(** ** Further results: the reference codec writes compact text *)

Module RefJsonText.
Import Decimal RefJson RefJsonFacts.

Lemma loads_dumps v : loads (dumps v) = Some v.
Proof.
  unfold loads, dumps.
  rewrite parse_print; [reflexivity | lia | exact I].
Qed.

Lemma dumps_nonempty v : dumps v <> EmptyString.
Proof.
  unfold dumps. pose proof (print_length_pos v EmptyString) as H.
  intros E. rewrite E in H. cbn in H. lia.
Qed.

Lemma all_chars_app p a b :
  all_chars p (a ++ b) = all_chars p a && all_chars p b.
Proof.
  induction a as [|c a IH]; cbn [append all_chars]; [reflexivity|].
  rewrite IH. apply andb_assoc.
Qed.

Lemma print_char_one_line c rest :
  one_line rest = true -> one_line (print_char c rest) = true.
Proof.
  intros Hr. unfold print_char, escape_letter.
  repeat match goal with
         | |- context [Ascii.eqb c ?k] =>
             destruct (Ascii.eqb_spec c k) as [-> | ?]; [exact Hr|]
         end.
  unfold one_line. cbn [all_chars]. fold (one_line rest). rewrite Hr.
  unfold not_newline. rewrite (proj2 (Ascii.eqb_neq c "010")) by assumption.
  reflexivity.
Qed.

Lemma print_chars_one_line s rest :
  one_line rest = true -> one_line (print_chars s rest) = true.
Proof.
  intros Hr. induction s as [|c s IH]; cbn [print_chars]; [exact Hr|].
  apply print_char_one_line. exact IH.
Qed.

Lemma print_string_one_line s rest :
  one_line rest = true -> one_line (print_string s rest) = true.
Proof.
  intros Hr. unfold print_string.
  change (one_line (print_chars s (String "034" rest)) = true).
  apply print_chars_one_line. exact Hr.
Qed.

Lemma print_uint_one_line d rest :
  one_line rest = true -> one_line (print_uint d rest) = true.
Proof. intros Hr. induction d; cbn [print_uint]; auto. Qed.

Lemma print_one_line v : forall rest,
  one_line rest = true -> one_line (print v rest) = true.
Proof.
  induction v as [| b | z | s | items IH | fields IH] using json_nested_ind;
    intros rest Hr.
  - exact Hr.
  - destruct b; exact Hr.
  - unfold print, print_int. destruct (Z.to_int z);
      [|change (one_line (print_uint d rest) = true)];
      apply print_uint_one_line; exact Hr.
  - apply print_string_one_line. exact Hr.
  - destruct items as [|x xs]; [exact Hr|].
    rewrite print_arr. inversion IH as [|? ? Hx Hxs]; subst.
    change (one_line (print x (print_elems print xs rest)) = true).
    apply Hx. clear Hx IH.
    induction Hxs as [|y ys Hy _ IHys]; cbn [print_elems]; [exact Hr|].
    change (one_line (print y (print_elems print ys rest)) = true).
    apply Hy. exact IHys.
  - destruct fields as [|[k x] kvs]; [exact Hr|].
    rewrite print_obj. inversion IH as [|? ? Hx Hxs]; subst. cbn [snd] in Hx.
    assert (Hm : forall k y t, (forall r, one_line r = true ->
                                          one_line (print y r) = true) ->
                               one_line t = true ->
                               one_line (print_member print (k, y) t) = true).
    { intros k' y t Hy Ht. unfold print_member. cbn [fst snd].
      apply print_string_one_line.
      change (one_line (print y t) = true). apply Hy. exact Ht. }
    change (one_line (print_member print (k, x) (print_members print kvs rest))
            = true).
    apply Hm; [exact Hx|]. clear Hx IH.
    induction Hxs as [|[k' y] ys Hy _ IHys]; cbn [print_members]; [exact Hr|].
    change (one_line (print_member print (k', y) (print_members print ys rest))
            = true).
    apply Hm; [exact Hy | exact IHys].
Qed.

Lemma dumps_one_line v : one_line (dumps v) = true.
Proof. apply print_one_line. reflexivity. Qed.

(** The last character of [s] is no white space. *)
Fixpoint ends_solid (s : string) : bool :=
  match s with
  | EmptyString => false
  | String c EmptyString => negb (PyStr.is_space c)
  | String _ r => ends_solid r
  end.

Lemma rstrip_cons c r :
  PyStr.rstrip (String c r)
  = match PyStr.rstrip r with
    | EmptyString =>
        if PyStr.is_space c then EmptyString else String c EmptyString
    | String d r' => String c (String d r')
    end.
Proof. reflexivity. Qed.

Lemma rstrip_solid s : ends_solid s = true -> PyStr.rstrip s = s.
Proof.
  induction s as [|c r IH]; [discriminate|].
  destruct r as [|d r'].
  - cbn. intros H. apply negb_true_iff in H. rewrite H. reflexivity.
  - intros H. change (ends_solid (String d r') = true) in H.
    rewrite rstrip_cons, (IH H). reflexivity.
Qed.

Lemma ends_solid_app a b : ends_solid b = true -> ends_solid (a ++ b) = true.
Proof.
  intros Hb. induction a as [|c a IH]; [exact Hb|].
  cbn [append]. destruct (a ++ b) eqn:E; [discriminate IH|exact IH].
Qed.

Lemma print_uint_solid d : d <> Nil -> ends_solid (print_uint d EmptyString) = true.
Proof.
  induction d; intros Hd; [congruence| ..]; cbn [print_uint];
    (destruct d; [reflexivity| ..]); apply IHd; discriminate.
Qed.

Lemma ends_solid_cons c r : ends_solid r = true -> ends_solid (String c r) = true.
Proof. intros H. apply (ends_solid_app (String c EmptyString) r H). Qed.

Lemma print_chars_solid s t :
  ends_solid t = true -> ends_solid (print_chars s t) = true.
Proof.
  intros H. change t with (EmptyString ++ t).
  rewrite print_chars_app. apply ends_solid_app. exact H.
Qed.

Lemma print_solid_before v t : ends_solid t = true -> ends_solid (print v t) = true.
Proof.
  intros H. change t with (EmptyString ++ t).
  rewrite print_app. apply ends_solid_app. exact H.
Qed.

Lemma print_member_solid kv t :
  ends_solid t = true -> ends_solid (print_member print kv t) = true.
Proof.
  intros H. unfold print_member, print_string.
  apply ends_solid_cons, print_chars_solid.
  do 3 apply ends_solid_cons. apply print_solid_before. exact H.
Qed.

Lemma print_solid v : ends_solid (print v EmptyString) = true.
Proof.
  destruct v as [| [] | z | s | [|x xs] | [|kv kvs]]; try reflexivity.
  - unfold print, print_int. pose proof (to_int_digits z) as Hd.
    destruct (Z.to_int z) as [d|d].
    + apply print_uint_solid. exact Hd.
    + apply ends_solid_cons, print_uint_solid. exact Hd.
  - unfold print, print_string.
    apply ends_solid_cons, print_chars_solid. reflexivity.
  - rewrite print_arr. apply ends_solid_cons, print_solid_before.
    induction xs as [|y ys IH]; [reflexivity|]. cbn [print_elems].
    do 2 apply ends_solid_cons. apply print_solid_before. exact IH.
  - rewrite print_obj. apply ends_solid_cons, print_member_solid.
    induction kvs as [|kv' ys IH]; [reflexivity|]. cbn [print_members].
    do 2 apply ends_solid_cons. apply print_member_solid. exact IH.
Qed.

Lemma print_uint_lstrip d rest :
  d <> Nil -> PyStr.lstrip (print_uint d rest) = print_uint d rest.
Proof. intros Hd. destruct d; [congruence| ..]; reflexivity. Qed.

Lemma print_lstrip v rest : PyStr.lstrip (print v rest) = print v rest.
Proof.
  destruct v as [| [] | z | s | [|x xs] | [|[k x] kvs]]; try reflexivity.
  unfold print, print_int. pose proof (to_int_digits z) as Hd.
  destruct (Z.to_int z) as [d|d]; [|reflexivity].
  apply print_uint_lstrip. exact Hd.
Qed.

Lemma dumps_stripped v : PyStr.strip (dumps v) = dumps v.
Proof.
  unfold PyStr.strip, dumps. rewrite print_lstrip.
  apply rstrip_solid, print_solid.
Qed.

End RefJsonText.

Lemma reference_codec_compact : compact reference_codec.
Proof.
  constructor.
  - exact RefJsonText.loads_dumps.
  - exact RefJsonText.dumps_stripped.
  - exact RefJsonText.dumps_nonempty.
  - exact RefJsonText.dumps_one_line.
Qed.

(** ** Further results: the SSE adapter on other lines *)

Section WireFacts2.
Context {codec : JsonCodec}.

Lemma sse_loop_app l1 l2 :
  sse_loop (l1 ++ l2)%list
  = match sse_loop l1 with
    | (o1, Some x) => (o1, Some x)
    | (o1, None) =>
        let (o2, failed) := sse_loop l2 in ((o1 ++ o2)%list, failed)
    end.
Proof.
  induction l1 as [|l l1 IH]; cbn [app sse_loop].
  - destruct (sse_loop l2). reflexivity.
  - destruct (sse_line l) as [x|chunks]; [reflexivity|].
    rewrite IH. destruct (sse_loop l1) as [o1 [x|]]; [reflexivity|].
    destruct (sse_loop l2) as [o2 f]. rewrite app_assoc. reflexivity.
Qed.

Lemma sse_adapter_is_sse_adapt e prompt s :
  _sse_adapter e prompt s
  = sse_adapt (map event_line (events_of (stream_agent_response_events e prompt s)))
      (outcome_of (stream_agent_response_events e prompt s)).
Proof. reflexivity. Qed.

End WireFacts2.

(** X19. A line that decodes to a JSON list, string, boolean or null ends
    the SSE stream: the frames of the lines before it are kept, the error
    frame follows whose message is the text of the [AttributeError], which
    names the type of the value, the lines after it are not read and no
    sentinel is sent. *)
Theorem sse_non_object_line_ends_stream
  (codec : JsonCodec) (evs : list event) (line : string) (v : json)
  (rest : list string) (outcome : exn + unit) :
  PyStr.truthy line = true ->
  loads line = Some v ->
  (forall fields, v <> JObj fields) ->
  (forall n, v <> JNum n) ->
  sse_adapt (map event_line evs ++ line :: rest)%list outcome
  = (flat_map event_frame evs
     ++ [ ("event: error" ++ newline)%string;
          ("data: "
           ++ dumps (JObj [("message",
                            JStr ("'" ++ match v with
                                         | JArr _ => "list"
                                         | JStr _ => "str"
                                         | JBool _ => "bool"
                                         | _ => "NoneType"
                                         end
                                  ++ "' object has no attribute 'get'"))])
           ++ newline ++ newline)%string ])%list.
Proof.
  intros Ht Hl Hv Hn. unfold sse_adapt.
  rewrite sse_loop_app, sse_loop_event_lines. cbn [sse_loop].
  unfold sse_line at 1. rewrite Ht, Hl. cbn [negb].
  destruct v as [| b | n | t | items | fields];
    try (rewrite app_nil_r; reflexivity).
  - destruct (Hn n eq_refl).
  - destruct (Hv fields eq_refl).
Qed.

Lemma sse_non_object_line_ends_stream_witness :
  sse_adapt (map event_line [done_event] ++ "[1, 2]" :: [event_line done_event])%list
    (inr tt)
  = (flat_map event_frame [done_event]
     ++ [ ("event: error" ++ newline)%string;
          ("data: "
           ++ dumps (JObj [("message",
                            JStr "'list' object has no attribute 'get'")])
           ++ newline ++ newline)%string ])%list.
Proof.
  apply (sse_non_object_line_ends_stream reference_codec [done_event] "[1, 2]"
           (JArr [JNum 1%Z; JNum 2%Z]) [event_line done_event] (inr tt));
    [reflexivity | reflexivity | discriminate | discriminate].
Defined.

(** X20. Empty lines are skipped, and a line that does not decode is sent as
    a [LOG] frame whose message is the stripped line; the frames of the lines
    before and after it are those of their events, and the sentinel ends the
    stream. *)
Theorem sse_undecodable_line_becomes_log
  (codec : JsonCodec) (before after : list event) (line : string) :
  PyStr.truthy line = true ->
  loads line = None ->
  sse_adapt (map event_line before
             ++ EmptyString :: line :: map event_line after)%list (inr tt)
  = (flat_map event_frame before
     ++ sse_frame (JStr "LOG") (JObj [("message", JStr (PyStr.strip line))])
     ++ flat_map event_frame after ++ [sentinel])%list.
Proof.
  intros Ht Hl. unfold sse_adapt.
  rewrite sse_loop_app, sse_loop_event_lines. cbn [sse_loop].
  unfold sse_line at 1. cbn [PyStr.truthy String.eqb negb].
  unfold sse_line at 1. rewrite Ht, Hl. cbn [negb].
  rewrite sse_loop_event_lines. cbn [app]. rewrite <- !app_assoc. reflexivity.
Qed.

Lemma sse_undecodable_line_becomes_log_witness :
  sse_adapt (map event_line [done_event]
             ++ EmptyString :: " oops " :: map event_line [done_event])%list
    (inr tt)
  = (flat_map event_frame [done_event]
     ++ sse_frame (JStr "LOG") (JObj [("message", JStr (PyStr.strip " oops "))])
     ++ flat_map event_frame [done_event] ++ [sentinel])%list.
Proof.
  apply (sse_undecodable_line_becomes_log reference_codec [done_event]
           [done_event] " oops "); reflexivity.
Defined.

(** ** Further results: the request side of the shim *)


Lemma select_prompt_spec body :
  match select_prompt body with
  | None =>
      (forall q, body_query body = Some q -> q_prompt q = EmptyString)
      /\ opt_truthy (body_prompt body) = false
  | Some prompt =>
      PyStr.truthy prompt = true
      /\ (forall q, body_query body = Some q ->
                    PyStr.truthy (q_prompt q) = true -> prompt = q_prompt q)
      /\ ((forall q, body_query body = Some q -> q_prompt q = EmptyString) ->
          body_prompt body = Some prompt)
  end.
Proof.
  assert (Hempty : forall t, PyStr.truthy t = false -> t = EmptyString).
  { intros t. unfold PyStr.truthy. destruct (String.eqb_spec t EmptyString);
      [auto | discriminate]. }
  unfold select_prompt. destruct (body_query body) as [q|].
  - destruct (PyStr.truthy (q_prompt q)) eqn:Hq.
    + split; [exact Hq|]. split; [intros q' [= <-] _; reflexivity|].
      intros H. rewrite (H q eq_refl) in Hq. discriminate.
    + destruct (opt_truthy (body_prompt body)) eqn:Hb.
      * destruct (body_prompt body) as [p|]; [|discriminate].
        split; [exact Hb|]. split; [|reflexivity].
        intros q' [= <-] H. congruence.
      * split; [|reflexivity]. intros q' [= <-]. apply Hempty. exact Hq.
  - destruct (opt_truthy (body_prompt body)) eqn:Hb.
    + destruct (body_prompt body) as [p|]; [|discriminate].
      split; [exact Hb|]. split; [discriminate | reflexivity].
    + split; [discriminate | reflexivity].
Qed.


Example extract_from_wrapped_query :
  _extract_prompt_and_session (fun k => "ulid" ++ Paging.py_str_int (Z.of_nat k)) 0
    (mk_body (Some "ignored") (Some (mk_query None "bitcoin price"))
       (Some (mk_session_model (Some "p1") (Some "") None None)))
  = inr ("bitcoin price", Some (mk_query (Some "ulid0") "bitcoin price"),
         mk_session_model (Some "p1") (Some "ulid1") (Some "ulid2")
           (Some (JObj [])), 3).
Proof. reflexivity. Qed.

(** X22. [POST /assist] opens an event stream exactly for an accepted body
    with a usable prompt, and the stream is then the frames of the producer's
    events for that prompt followed by the sentinel.  A body that is no JSON,
    that fails validation, or that has no non-empty prompt gets a 422
    response with the reason as its detail: nothing is streamed. *)
Theorem assist_streams_iff_prompt
  (codec : JsonCodec) (e : Env) (fresh : nat -> string) (n : nat)
  (request : request_body) (s : State) :
  match assist e fresh n request s with
  | EventStream chunks =>
      exists body prompt,
        request = Accepted body
        /\ select_prompt body = Some prompt
        /\ PyStr.truthy prompt = true
        /\ chunks
           = (flat_map event_frame
                (events_of (stream_agent_response_events e prompt s))
              ++ [sentinel])%list
  | Unprocessable content =>
      match request with
      | NotJson =>
          content
          = "{" ++ String "034" "detail" ++ String "034" ":"
            ++ String "034" "invalid JSON body" ++ String "034" "}"
      | Rejected detail => content = dumps (JObj [("detail", JStr detail)])
      | Accepted body =>
          select_prompt body = None
          /\ content
             = dumps (JObj [("detail",
                             JStr "Missing prompt (use 'prompt' or 'query.prompt').")])
      end
  end.
Proof.
  unfold assist. destruct request as [|detail|body]; [reflexivity | reflexivity|].
  unfold _extract_prompt_and_session.
  pose proof (select_prompt_spec body) as Hsel.
  destruct (select_prompt body) as [prompt|] eqn:Hp; [|split; reflexivity].
  destruct Hsel as [Ht _].
  repeat match goal with
         | |- context [let (_, _) := ?x in _] => destruct x
         end.
  exists body, prompt. repeat split; auto.
  unfold _sse_adapter, stream_agent_response. cbn [fst snd].
  rewrite sse_loop_event_lines.
  destruct (stream_run e prompt s) as (evs & s' & Heq & _).
  rewrite Heq. reflexivity.
Qed.

Example assist_without_prompt :
  assist (demo_env 0%Z) (fun _ => "ulid") 0
    (Accepted (mk_body (Some "") (Some (mk_query (Some "q1") "")) None))
    empty_state
  = Unprocessable
      (dumps (JObj [("detail",
                     JStr "Missing prompt (use 'prompt' or 'query.prompt').")])).
Proof. reflexivity. Qed.

(** ** Further results: the framework bridge *)

Section BridgeFacts.
Context {codec : JsonCodec} (Hcompact : compact codec).

Lemma strip_event_line v : PyStr.strip (dumps v ++ newline) = dumps v.
Proof.
  change (dumps v ++ newline) with (EmptyString ++ dumps v ++ newline).
  rewrite strip_padded by reflexivity. apply (dumps_stripped codec Hcompact).
Qed.

Lemma bridge_line_event_line ev :
  bridge_line (event_line ev) = inr [bridge_event ev].
Proof.
  unfold bridge_line, event_line, format_event.
  rewrite line_truthy, strip_event_line, (loads_dumps codec Hcompact).
  cbn [negb PyDict.get PyDict.assoc].
  change ("event" =? "event") with true. change ("data" =? "event") with false.
  change ("data" =? "data") with true. cbv iota.
  assert (Hn : py_truthy (JStr (event_name_str (ev_name ev))) = true)
    by (destruct (ev_name ev); reflexivity).
  rewrite Hn. unfold bridge_event. destruct (ev_data ev); reflexivity.
Qed.

Lemma bridge_loop_event_lines evs :
  bridge_loop (map event_line evs) = (map bridge_event evs, None).
Proof.
  induction evs as [|ev evs IH]; [reflexivity|].
  cbn [map bridge_loop]. rewrite bridge_line_event_line, IH. reflexivity.
Qed.

End BridgeFacts.

(** X23. With a codec whose text is compact, the framework agent makes one
    call on the response handler for each event of the producer, in order:
    [emit_json] with the payload when it is a dict or a list, [emit_text_block]
    with [str] of the payload otherwise, under the event's name; then it
    calls [complete] once.  No line is reported as [LOG] and no exception
    ends the method. *)
Theorem agent_bridges_every_event_then_completes
  (codec : JsonCodec) (e : Env) (prompt : string) (s : State) :
  compact codec ->
  agent_assist e prompt s
  = ((map bridge_event (events_of (stream_agent_response_events e prompt s))
      ++ [complete])%list, None).
Proof.
  intros Hc. unfold agent_assist, stream_agent_response. cbn [fst snd].
  rewrite (bridge_loop_event_lines Hc).
  destruct (stream_run e prompt s) as (evs & s' & Heq & _).
  rewrite Heq. reflexivity.
Qed.

Lemma agent_bridges_every_event_then_completes_witness :
  agent_assist (demo_env 0%Z) "price now" empty_state
  = ([ emit_json (JStr "intent_recognized")
         (JObj [("intent", JStr "GET_PRICE"); ("token", JNull)]);
       emit_json (JStr "error")
         (JObj [("message",
                 JStr "Sorry, I couldn't identify a cryptocurrency in your question.")]);
       emit_text_block (JStr "done") "Stream finished.";
       complete ], None).
Proof.
  exact (agent_bridges_every_event_then_completes reference_codec
           (demo_env 0%Z) "price now" empty_state reference_codec_compact).
Defined.

(** ** Further results: the SSE client reads back the adapter's frames *)

Lemma append_nil_r (a : string) : a ++ EmptyString = a.
Proof. induction a as [|c a IH]; cbn [append]; [reflexivity | rewrite IH; reflexivity]. Qed.

Lemma unbroken_cons c s :
  unbroken (String c s) = true ->
  line_break c = false /\ Ascii.eqb c "010" = false /\ unbroken s = true.
Proof.
  unfold unbroken. cbn [all_chars]. intros H. apply andb_true_iff in H.
  destruct H as [Hc Hs]. apply negb_true_iff in Hc. repeat split; try assumption.
  unfold line_break in Hc. destruct (Ascii.eqb c "010"); [discriminate | reflexivity].
Qed.

Lemma unbroken_one_line s : unbroken s = true -> one_line s = true.
Proof.
  induction s as [|c s IH]; [reflexivity|]. intros H.
  apply unbroken_cons in H. destruct H as (_ & Hc & Hs).
  unfold one_line. cbn [all_chars]. unfold not_newline at 1. rewrite Hc.
  exact (IH Hs).
Qed.

Lemma unbroken_app a b : unbroken (a ++ b) = unbroken a && unbroken b.
Proof. apply RefJsonText.all_chars_app. Qed.

Lemma split_lines_line l acc rest :
  unbroken l = true ->
  split_lines false acc (l ++ newline ++ rest)
  = (acc ++ l) :: split_lines false EmptyString rest.
Proof.
  revert acc. induction l as [|c l IH]; intros acc Hl.
  - cbn [append split_lines newline]. rewrite append_nil_r. reflexivity.
  - apply unbroken_cons in Hl. destruct Hl as (Hb & Hc & Hl).
    cbn [append split_lines]. rewrite Hc, Hb. cbn [andb].
    rewrite (IH _ Hl), append_assoc. reflexivity.
Qed.

Lemma rstrip_newline_one_line s : one_line s = true -> rstrip_newline s = s.
Proof.
  induction s as [|c s IH]; [reflexivity|]. intros H.
  unfold one_line in H. cbn [all_chars] in H. apply andb_true_iff in H.
  destruct H as [Hc Hs]. unfold not_newline in Hc. apply negb_true_iff in Hc.
  cbn [rstrip_newline]. rewrite (IH Hs), Hc. destruct s; reflexivity.
Qed.

Section ClientFacts.
Context {codec : JsonCodec} (Hcompact : compact codec).

Lemma concat_event_frame ev rest :
  concat_chunks (event_frame ev ++ rest) = frame_text ev (concat_chunks rest).
Proof.
  unfold event_frame, frame_text. cbn [app concat_chunks].
  rewrite !append_assoc. reflexivity.
Qed.

Lemma event_line_unbroken ev :
  unbroken ("event: " ++ event_name_str (ev_name ev)) = true.
Proof. destruct (ev_name ev); reflexivity. Qed.

Lemma data_line_unbroken s : unbroken s = true -> unbroken ("data: " ++ s) = true.
Proof. intros H. rewrite unbroken_app, H. reflexivity. Qed.

Lemma split_frame_text ev rest :
  sent_unbroken ev ->
  split_lines false EmptyString (frame_text ev rest)
  = ("event: " ++ event_name_str (ev_name ev))
    :: ("data: " ++ dumps (ev_data ev))
    :: EmptyString :: split_lines false EmptyString rest.
Proof.
  intros Hev. unfold frame_text.
  rewrite split_lines_line by apply event_line_unbroken.
  rewrite split_lines_line by (apply data_line_unbroken; exact Hev).
  rewrite split_lines_line by reflexivity.
  reflexivity.
Qed.

Lemma read_event_line ev lines :
  sse_read (mk_reader None lines) ("event: " ++ event_name_str (ev_name ev))
  = (mk_reader (Some (event_name_str (ev_name ev))) lines, []).
Proof. destruct (ev_name ev); reflexivity. Qed.

Lemma read_data_line name v :
  unbroken (dumps v) = true ->
  sse_read (mk_reader name []) ("data: " ++ dumps v)
  = (mk_reader name [dumps v], []).
Proof.
  intros Hv. unfold sse_read.
  rewrite rstrip_newline_one_line
    by (apply unbroken_one_line, data_line_unbroken; exact Hv).
  cbn [append PyStr.truthy String.eqb negb].
  rewrite prefix_cons_differs by discriminate.
  rewrite prefix_cons_differs by discriminate.
  rewrite !prefix_cons, prefix_empty.
  cbn [drop rd_event_name rd_data_lines app].
  replace (String " " (dumps v)) with (" " ++ dumps v ++ EmptyString)
    by (cbn [append]; rewrite append_nil_r; reflexivity).
  rewrite strip_padded by reflexivity.
  rewrite (dumps_stripped codec Hcompact). reflexivity.
Qed.

Lemma read_blank_line ev v :
  sse_read (mk_reader (Some (event_name_str (ev_name ev))) [dumps v]) EmptyString
  = (mk_reader None [], [mk_sse (event_name_str (ev_name ev)) (dumps v)]).
Proof. destruct (ev_name ev); reflexivity. Qed.

Lemma read_frame ev rest :
  sent_unbroken ev ->
  sse_read_all (mk_reader None [])
    (("event: " ++ event_name_str (ev_name ev))
     :: ("data: " ++ dumps (ev_data ev)) :: EmptyString :: rest)
  = client_event ev :: sse_read_all (mk_reader None []) rest.
Proof.
  intros Hev. cbn [sse_read_all].
  rewrite read_event_line, (read_data_line _ _ Hev), read_blank_line.
  reflexivity.
Qed.

Lemma client_reads_frames evs :
  Forall sent_unbroken evs ->
  sse_events (aiter_lines (flat_map event_frame evs ++ [sentinel]))
  = (map client_event evs ++ [mk_sse "done" "{}"])%list.
Proof.
  unfold sse_events, aiter_lines.
  induction 1 as [|ev evs Hev _ IH].
  - reflexivity.
  - cbn [flat_map map]. rewrite <- app_assoc, concat_event_frame.
    rewrite (split_frame_text _ _ Hev), (read_frame _ _ Hev).
    cbn [app]. f_equal. exact IH.
Qed.

Lemma decode_dumps v : decode_data (dumps v) = v.
Proof.
  unfold decode_data.
  assert (Ht : PyStr.truthy (dumps v) = true).
  { unfold PyStr.truthy. apply negb_true_iff, String.eqb_neq.
    apply (dumps_nonempty codec Hcompact). }
  rewrite Ht, (loads_dumps codec Hcompact). reflexivity.
Qed.

End ClientFacts.

(** X24. The bot's SSE reader reads back what the adapter wrote. When the
    codec's text is compact and no payload of the turn is written with a
    line boundary in it, the reader yields, from the lines of the adapter's
    chunks, one event per event of the producer, in order, with the
    producer's event name and, as data, the text of the producer's payload,
    which decodes to that payload; then the sentinel event "done" with data
    "{}". *)
Theorem sse_client_reads_back_producer_events
  (codec : JsonCodec) (e : Env) (prompt : string) (s : State) :
  compact codec ->
  Forall sent_unbroken (events_of (stream_agent_response_events e prompt s)) ->
  let evs := events_of (stream_agent_response_events e prompt s) in
  let read := sse_events (aiter_lines (_sse_adapter e prompt s)) in
  read = (map client_event evs ++ [mk_sse "done" "{}"])%list
  /\ map (fun x => (sse_event x, decode_data (sse_data x)))
       (firstn (length evs) read)
     = map (fun ev => (event_name_str (ev_name ev), ev_data ev)) evs.
Proof.
  intros Hc Hsent evs read.
  assert (Hread : read = (map client_event evs ++ [mk_sse "done" "{}"])%list).
  { subst read evs. unfold _sse_adapter, stream_agent_response. cbn [fst snd].
    rewrite sse_loop_event_lines.
    destruct (stream_run e prompt s) as (l & s' & Heq & _).
    rewrite Heq in Hsent |- *. cbn [events_of outcome_of fst snd] in Hsent |- *.
    apply (client_reads_frames Hc _ Hsent). }
  split; [exact Hread|]. rewrite Hread.
  rewrite firstn_app, length_map, Nat.sub_diag, firstn_O, app_nil_r.
  rewrite <- (length_map client_event evs), firstn_all, map_map.
  apply map_ext. intros ev. unfold client_event. cbn [sse_event sse_data].
  rewrite (decode_dumps Hc). reflexivity.
Qed.

Lemma sse_client_reads_back_producer_events_witness :
  sse_events (aiter_lines (_sse_adapter (demo_env 0%Z) "price now" empty_state))
  = [ mk_sse "intent_recognized"
        (dumps (JObj [("intent", JStr "GET_PRICE"); ("token", JNull)]));
      mk_sse "error"
        (dumps (JObj [("message",
                       JStr "Sorry, I couldn't identify a cryptocurrency in your question.")]));
      mk_sse "done" (dumps (JStr "Stream finished."));
      mk_sse "done" "{}" ].
Proof.
  refine (proj1 (sse_client_reads_back_producer_events reference_codec
                   (demo_env 0%Z) "price now" empty_state
                   reference_codec_compact _)).
  vm_compute. repeat constructor.
Defined.

(** ** Further results: the callback data and the pages of any list *)

Lemma digit_char_digit k : (0 <= k < 10)%Z -> digit_of (digit_char k) = Some k.
Proof.
  intros H.
  assert (Hk : exists m : nat, (m < 10)%nat /\ k = Z.of_nat m)
    by (exists (Z.to_nat k); lia).
  destruct Hk as (m & Hm & ->).
  do 10 (destruct m as [|m]; [reflexivity|]). lia.
Qed.

Lemma digit_char_facts k :
  (0 <= k < 10)%Z ->
  is_digit (digit_char k) = true
  /\ PyStr.is_space (digit_char k) = false
  /\ Ascii.eqb (digit_char k) "_" = false.
Proof.
  intros H.
  assert (Hk : exists m : nat, (m < 10)%nat /\ k = Z.of_nat m)
    by (exists (Z.to_nat k); lia).
  destruct Hk as (m & Hm & ->).
  do 10 (destruct m as [|m]; [repeat split; reflexivity|]). lia.
Qed.

Lemma digits_nat_str fuel : forall n acc,
  (0 <= n)%Z -> (Z.to_nat n < fuel)%nat ->
  digits 0 (nat_str fuel n acc) = digits n acc.
Proof.
  induction fuel as [|fuel IH]; intros n acc Hn Hf; [lia|].
  cbn [nat_str]. destruct (Z.ltb_spec n 10) as [Hlt|Hge].
  - cbn [digits]. rewrite digit_char_digit by (apply Z.mod_pos_bound; lia).
    rewrite Z.mod_small by lia. reflexivity.
  - assert (Hd : (0 <= n / 10 < n)%Z)
      by (split; [apply Z.div_pos; lia | apply Z.div_lt; lia]).
    rewrite IH by lia. cbn [digits].
    rewrite digit_char_digit by (apply Z.mod_pos_bound; lia).
    rewrite <- Z.div_mod by lia. reflexivity.
Qed.

Lemma nat_str_all (p : ascii -> bool) :
  (forall k, (0 <= k < 10)%Z -> p (digit_char k) = true) ->
  forall fuel n acc,
    all_chars p acc = true -> all_chars p (nat_str fuel n acc) = true.
Proof.
  intros Hp. induction fuel as [|fuel IH]; intros n acc Hacc; [exact Hacc|].
  assert (Hd : p (digit_char (n mod 10)) = true)
    by (apply Hp, Z.mod_pos_bound; lia).
  cbn [nat_str]. destruct (n <? 10)%Z.
  - cbn [all_chars]. rewrite Hd, Hacc. reflexivity.
  - apply IH. cbn [all_chars]. rewrite Hd, Hacc. reflexivity.
Qed.

Lemma nat_str_nonempty fuel : forall n acc,
  exists c r, nat_str (S fuel) n acc = String c r.
Proof.
  induction fuel as [|fuel IH]; intros n acc.
  - cbn [nat_str]. destruct (n <? 10)%Z; eauto.
  - change (nat_str (S (S fuel)) n acc)
      with (let acc' := String (digit_char (n mod 10)) acc in
            if (n <? 10)%Z then acc' else nat_str (S fuel) (n / 10) acc').
    cbv zeta. destruct (n <? 10)%Z; eauto.
Qed.

Lemma is_digit_cases c :
  is_digit c = true ->
  c = "0"%char \/ c = "1"%char \/ c = "2"%char \/ c = "3"%char
  \/ c = "4"%char \/ c = "5"%char \/ c = "6"%char \/ c = "7"%char
  \/ c = "8"%char \/ c = "9"%char.
Proof.
  destruct c as [[] [] [] [] [] [] [] []]; vm_compute; intros H;
    try discriminate H; auto 12.
Qed.

Lemma strip_unspaced s : unspaced s = true -> PyStr.strip s = s.
Proof.
  intros H. unfold PyStr.strip.
  assert (Hl : PyStr.lstrip s = s).
  { destruct s as [|c s]; [reflexivity|].
    unfold unspaced in H. cbn [all_chars] in H. apply andb_true_iff in H.
    destruct H as [Hc _]. apply negb_true_iff in Hc.
    cbn [PyStr.lstrip]. rewrite Hc. reflexivity. }
  rewrite Hl. clear Hl.
  induction s as [|c s IH]; [reflexivity|].
  unfold unspaced in H. cbn [all_chars] in H. apply andb_true_iff in H.
  destruct H as [Hc Hs]. apply negb_true_iff in Hc.
  cbn [PyStr.rstrip]. rewrite (IH Hs). destruct s; [rewrite Hc|]; reflexivity.
Qed.

Lemma last_part_plain s : forall acc,
  no_underscore s = true -> last_part acc s = acc ++ s.
Proof.
  induction s as [|c s IH]; intros acc H.
  - cbn [last_part]. rewrite append_nil_r. reflexivity.
  - unfold no_underscore in H. cbn [all_chars] in H. apply andb_true_iff in H.
    destruct H as [Hc Hs]. apply negb_true_iff in Hc.
    cbn [last_part]. rewrite Hc, (IH _ Hs), append_assoc. reflexivity.
Qed.

Lemma py_int_digits s :
  all_chars is_digit s = true -> s <> EmptyString ->
  py_int s = digits 0 s.
Proof.
  intros Hs Hne. unfold py_int.
  assert (Hu : unspaced s = true).
  { clear Hne. induction s as [|c s IH]; [reflexivity|].
    cbn [all_chars] in Hs. apply andb_true_iff in Hs. destruct Hs as [Hc Hs].
    unfold unspaced. cbn [all_chars]. fold (unspaced s). rewrite (IH Hs).
    apply is_digit_cases in Hc.
    repeat (destruct Hc as [-> | Hc]; [reflexivity|]). subst c. reflexivity. }
  rewrite (strip_unspaced _ Hu).
  destruct s as [|c s]; [contradiction|].
  cbn [all_chars] in Hs. apply andb_true_iff in Hs. destruct Hs as [Hc _].
  apply is_digit_cases in Hc.
  repeat (destruct Hc as [-> | Hc]; [reflexivity|]). subst c. reflexivity.
Qed.

Lemma py_int_of_nat_str n :
  (0 <= n)%Z ->
  let t := nat_str (S (Z.to_nat n)) n EmptyString in
  py_int t = Some n /\ unspaced t = true /\ no_underscore t = true
  /\ exists c r, t = String c r.
Proof.
  intros Hn t.
  assert (Hd : all_chars is_digit t = true)
    by (apply nat_str_all; [intros k Hk; apply (digit_char_facts k Hk) | reflexivity]).
  destruct (nat_str_nonempty (Z.to_nat n) n EmptyString) as (c & r & Ht).
  fold t in Ht. repeat split.
  - rewrite py_int_digits; [|exact Hd|rewrite Ht; discriminate].
    unfold t. rewrite digits_nat_str by lia. reflexivity.
  - apply nat_str_all; [|reflexivity].
    intros k Hk. destruct (digit_char_facts k Hk) as (_ & -> & _). reflexivity.
  - apply nat_str_all; [|reflexivity].
    intros k Hk. destruct (digit_char_facts k Hk) as (_ & _ & ->). reflexivity.
  - eauto.
Qed.

Lemma py_int_py_str_int n : py_int (py_str_int n) = Some n.
Proof.
  unfold py_str_int. destruct (Z.ltb_spec n 0) as [Hneg|Hpos].
  - destruct (py_int_of_nat_str (- n)%Z ltac:(lia)) as (Hi & Hu & _ & c & r & Ht).
    cbv zeta in *. unfold py_int in *.
    rewrite strip_unspaced in Hi by exact Hu.
    rewrite strip_unspaced
      by (unfold unspaced in *; cbn [append all_chars]; rewrite Hu; reflexivity).
    rewrite Ht in *. cbn [append].
    assert (Hdig : digits 0 (String c r) = Some (- n)%Z).
    { assert (Hd : all_chars is_digit (String c r) = true).
      { rewrite <- Ht. apply nat_str_all; [|reflexivity].
        intros k Hk. apply (digit_char_facts k Hk). }
      rewrite <- (py_int_digits _ Hd) by discriminate.
      unfold py_int. rewrite strip_unspaced by exact Hu. exact Hi. }
    rewrite Hdig. cbn [option_map]. rewrite Z.opp_involutive. reflexivity.
  - exact (proj1 (py_int_of_nat_str n Hpos)).
Qed.

Lemma no_underscore_py_str_int n : no_underscore (py_str_int n) = true.
Proof.
  unfold py_str_int. destruct (Z.ltb_spec n 0) as [Hneg|Hpos].
  - destruct (py_int_of_nat_str (- n)%Z ltac:(lia)) as (_ & _ & Hu & _).
    cbv zeta in Hu. unfold no_underscore in *. cbn [append all_chars].
    rewrite Hu. reflexivity.
  - exact (proj1 (proj2 (proj2 (py_int_of_nat_str n Hpos)))).
Qed.

Lemma callback_index n :
  py_int (last_part EmptyString ("more_tokens_" ++ py_str_int n)) = Some n.
Proof.
  cbn [append last_part Ascii.eqb Bool.eqb].
  rewrite last_part_plain by apply no_underscore_py_str_int.
  cbn [append]. apply py_int_py_str_int.
Qed.

(** X25. The callback data of a "Show More" button reads back: the index
    written into the data with [str] is the integer that [int] reads from
    the part after the last underscore, for every integer; and a press on
    such a button, with a list in [bot_data], shows the slice of 20 from
    that index and offers a further button exactly when the list goes on
    behind the slice. *)
Theorem show_more_button_reads_back_its_index
  (n : Z) (t : json) (tokens : list json) :
  py_int (py_str_int n) = Some n
  /\ py_int (last_part EmptyString ("more_tokens_" ++ py_str_int n)) = Some n
  /\ button_callback ("more_tokens_" ++ py_str_int n) (t :: tokens)
     = Edited
         (mk_page (py_slice (t :: tokens) n (n + 20))
            (if (n + 20 <? Z.of_nat (length (t :: tokens)))%Z
             then Some ("more_tokens_" ++ py_str_int (n + 20))
             else None)).
Proof.
  split; [apply py_int_py_str_int|]. split; [apply callback_index|].
  unfold button_callback. rewrite callback_index. reflexivity.
Qed.

Lemma button_at tokens j :
  tokens <> [] ->
  button_callback ("more_tokens_" ++ py_str_int (Z.of_nat j)) tokens
  = Edited (page_at tokens j).
Proof.
  intros Hne. unfold button_callback. rewrite callback_index.
  destruct tokens; [contradiction | reflexivity].
Qed.

Lemma first_page_at tokens : token_list_page tokens = page_at tokens 0.
Proof. reflexivity. Qed.

Lemma show_more_nonempty presses tokens p pages :
  show_more presses tokens p = Some pages -> pages <> [].
Proof.
  intros H Hnil. subst pages.
  destruct presses; cbn [show_more] in H; destruct (keyboard p);
    try discriminate H.
  destruct (button_callback _ _); try discriminate H.
  destruct (show_more _ _ _); cbn in H; discriminate H.
Qed.

Lemma show_more_from tokens : forall presses i,
  (i <= length tokens)%nat ->
  (length tokens - i <= 20 * presses + 20)%nat ->
  exists pages,
    show_more presses tokens (page_at tokens i) = Some pages
    /\ concat pages = skipn i tokens
    /\ Forall (fun pg => length pg = 20%nat) (removelast pages)
    /\ (length (last pages []) <= 20)%nat
    /\ ((i < length tokens)%nat -> last pages [] <> []).
Proof.
  induction presses as [|presses IH]; intros i Hi Hfuel.
  - assert (Hlast : (Z.of_nat i + 20 <? Z.of_nat (length tokens))%Z = false)
      by (apply Z.ltb_ge; lia).
    exists [skipn i tokens].
    assert (Hs : py_slice tokens (Z.of_nat i) (Z.of_nat i + 20) = skipn i tokens).
    { replace (Z.of_nat i + 20)%Z with (Z.of_nat (i + 20)) by lia.
      rewrite py_slice_within by lia.
      apply firstn_all2. rewrite length_skipn. lia. }
    unfold page_at. rewrite Hlast, Hs. cbn [show_more keyboard tokens_to_show].
    repeat split.
    + cbn [concat]. apply app_nil_r.
    + constructor.
    + cbn [last]. rewrite length_skipn. lia.
    + cbn [last]. intros Hlt Hnil. apply (f_equal (@length json)) in Hnil.
      rewrite length_skipn in Hnil. cbn in Hnil. lia.
  - destruct (Z.ltb_spec (Z.of_nat i + 20) (Z.of_nat (length tokens))) as [Hmore|Hlast].
    + destruct (IH (i + 20)%nat ltac:(lia) ltac:(lia))
        as (pages & Hp & Hcat & Hfull & Hlen & Hne).
      assert (Hs : py_slice tokens (Z.of_nat i) (Z.of_nat i + 20)
                   = firstn 20 (skipn i tokens)).
      { replace (Z.of_nat i + 20)%Z with (Z.of_nat (i + 20)) by lia.
      rewrite py_slice_within by lia.
        f_equal. lia. }
      exists (firstn 20 (skipn i tokens) :: pages).
      assert (Hpages : pages <> []) by exact (show_more_nonempty _ _ _ _ Hp).
      assert (Hshow : show_more (S presses) tokens (page_at tokens i)
                      = Some (firstn 20 (skipn i tokens) :: pages)).
      { unfold page_at at 1. apply Z.ltb_lt in Hmore. rewrite Hmore, Hs.
        cbn [show_more keyboard tokens_to_show].
        replace (Z.of_nat i + 20)%Z with (Z.of_nat (i + 20)) by lia.
        rewrite button_at
          by (intros ->; cbn in Hi; apply Z.ltb_lt in Hmore; cbn in Hmore; lia).
        rewrite Hp. reflexivity. }
      split; [exact Hshow|]. repeat split.
      * cbn [concat]. rewrite Hcat.
        rewrite <- (firstn_skipn 20 (skipn i tokens)) at 2.
        f_equal. rewrite skipn_skipn. f_equal. lia.
      * destruct pages as [|pg pages']; [contradiction|].
        cbn [removelast]. constructor; [|exact Hfull].
        rewrite length_firstn, length_skipn. lia.
      * destruct pages as [|pg pages']; [contradiction|]. exact Hlen.
      * destruct pages as [|pg pages']; [contradiction|].
        intros _. apply Hne. lia.
    + exists [skipn i tokens].
      assert (Hs : py_slice tokens (Z.of_nat i) (Z.of_nat i + 20) = skipn i tokens).
      { replace (Z.of_nat i + 20)%Z with (Z.of_nat (i + 20)) by lia.
      rewrite py_slice_within by lia.
        apply firstn_all2. rewrite length_skipn. lia. }
      unfold page_at. apply Z.ltb_ge in Hlast. rewrite Hlast, Hs.
      cbn [show_more keyboard tokens_to_show]. apply Z.ltb_ge in Hlast.
      repeat split.
      * cbn [concat]. apply app_nil_r.
      * constructor.
      * cbn [last]. rewrite length_skipn. lia.
      * cbn [last]. intros Hlt Hnil. apply (f_equal (@length json)) in Hnil.
        rewrite length_skipn in Hnil. cbn in Hnil. lia.
Qed.

(** X26. Paging shows every token exactly once, in order, for a list of any
    length: a user who gets the first rendering and presses "Show More"
    while there is a button sees pages whose concatenation is the list;
    every page but the last has 20 entries, the last has at most 20, and it
    is empty only when the list is. *)
Theorem paging_shows_every_token_once (tokens : list json) :
  exists pages,
    browse tokens = Some pages
    /\ concat pages = tokens
    /\ Forall (fun pg => length pg = 20%nat) (removelast pages)
    /\ (length (last pages []) <= 20)%nat
    /\ (last pages [] = [] <-> tokens = []).
Proof.
  destruct (show_more_from tokens (length tokens) 0 ltac:(lia) ltac:(lia))
    as (pages & Hp & Hcat & Hfull & Hlen & Hne).
  exists pages. unfold browse. rewrite first_page_at.
  split; [exact Hp|]. split; [exact Hcat|]. split; [exact Hfull|].
  split; [exact Hlen|]. split.
  - intros Hnil. destruct tokens as [|t tokens]; [reflexivity|].
    exfalso. apply Hne; [cbn; lia | exact Hnil].
  - intros ->. cbn in Hp. injection Hp as <-. reflexivity.
Qed.

Example browse_forty_five :
  browse forty_five_tokens
  = Some [firstn 20 forty_five_tokens;
          firstn 20 (skipn 20 forty_five_tokens);
          skipn 40 forty_five_tokens].
Proof. reflexivity. Qed.

(** ** Further results: the short history *)

Lemma py_slice_last {A} (l : list A) (k : nat) :
  (0 < k)%nat ->
  py_slice l (- Z.of_nat k) (Z.of_nat (length l)) = skipn (length l - k) l.
Proof.
  intros Hk. unfold py_slice, clamp.
  destruct (Z.ltb_spec (- Z.of_nat k) 0); [|lia].
  destruct (Z.ltb_spec (Z.of_nat (length l)) 0); [lia|].
  rewrite Z.min_id.
  replace (Z.to_nat (Z.max 0 (Z.of_nat (length l) + - Z.of_nat k)))
    with (length l - k)%nat by lia.
  apply firstn_all2. rewrite length_skipn. lia.
Qed.

Lemma history_after_push raw session :
  history (push_history raw session)
  = skipn (S (length (history session)) - 20) (history session ++ [raw]).
Proof.
  unfold push_history. cbn [history].
  change (-20)%Z with (- Z.of_nat 20)%Z.
  rewrite py_slice_last by lia. rewrite length_app. cbn [length].
  f_equal. lia.
Qed.

(** X27. The history of a chat is the last 20 messages: after a message it
    is the old history with the message appended, cut at the front to 20
    entries.  So it never holds more than 20 entries, the newest message is
    its last entry, and nothing is dropped while there is room; the rest of
    the session is untouched. *)
Theorem history_keeps_the_last_twenty (raw : string) (session : Session) :
  let session' := push_history raw session in
  history session'
  = skipn (S (length (history session)) - 20) (history session ++ [raw])
  /\ length (history session') = Nat.min 20 (S (length (history session)))
  /\ last (history session') EmptyString = raw
  /\ (exists dropped,
        (history session ++ [raw] = dropped ++ history session')%list
        /\ length dropped = (S (length (history session)) - 20)%nat)
  /\ last_token session' = last_token session
  /\ last_intent session' = last_intent session
  /\ processor_id session' = processor_id session
  /\ activity_id session' = activity_id session
  /\ request_id session' = request_id session.
Proof.
  cbv zeta. rewrite history_after_push.
  set (old := history session). set (k := (S (length old) - 20)%nat).
  assert (Hlen : length (old ++ [raw]) = S (length old))
    by (rewrite length_app; cbn; lia).
  split; [reflexivity|]. split; [rewrite length_skipn, Hlen; lia|]. split.
  - assert (Hk : (k <= length old)%nat) by lia.
    rewrite skipn_app. replace (k - length old)%nat with 0%nat by lia.
    cbn [skipn]. apply last_last.
  - split; [|repeat split; reflexivity].
    exists (firstn k (old ++ [raw])). split.
    + symmetry. apply firstn_skipn.
    + rewrite length_firstn, Hlen. lia.
Qed.

Example history_of_twenty_one :
  history (push_history "21"
             (mk_session "a" "b" "c" None None
                ["1"; "2"; "3"; "4"; "5"; "6"; "7"; "8"; "9"; "10"; "11";
                 "12"; "13"; "14"; "15"; "16"; "17"; "18"; "19"; "20"]))
  = ["2"; "3"; "4"; "5"; "6"; "7"; "8"; "9"; "10"; "11"; "12"; "13"; "14";
     "15"; "16"; "17"; "18"; "19"; "20"; "21"].
Proof. reflexivity. Qed.

(** ** Further results: the memory of a turn *)

Lemma run_begins_with_intent e q s evs s' :
  run e q s evs s' ->
  exists rest,
    evs = intent_event (intent (parse_of e q)) (token_id (parse_of e q)) :: rest
    /\ Forall (fun ev => ev_name ev <> INTENT_RECOGNIZED) rest.
Proof.
  assert (Hp : forall p, ev_name (price_event p) <> INTENT_RECOGNIZED)
    by (intros p; unfold price_event; destruct (PyDict.has_key _ _); discriminate).
  assert (Hn : forall n, ev_name (news_event n) <> INTENT_RECOGNIZED)
    by (intros n; unfold news_event; destruct (PyDict.has_key _ _); discriminate).
  intros Hrun.
  destruct Hrun;
    match goal with H : parse_of _ _ = _ |- _ => rewrite H end;
    cbn [intent token_id]; eexists; (split; [reflexivity|]);
    repeat (constructor; try discriminate; auto).
Qed.

Section TurnFacts.
Context {codec : JsonCodec} (Hcompact : compact codec).

Lemma assist_accepted e fresh n body prompt s :
  select_prompt body = Some prompt ->
  assist e fresh n (Accepted body) s = EventStream (_sse_adapter e prompt s).
Proof.
  intros H. unfold assist, _extract_prompt_and_session. rewrite H.
  repeat match goal with
    | |- context [let (_, _) := ?x in _] => destruct x
    end.
  reflexivity.
Qed.

Lemma assist_rejected e fresh n body s :
  select_prompt body = None ->
  assist e fresh n (Accepted body) s
  = Unprocessable
      (dumps (JObj [("detail",
                     JStr "Missing prompt (use 'prompt' or 'query.prompt').")])).
Proof.
  intros H. unfold assist, _extract_prompt_and_session. rewrite H. reflexivity.
Qed.

Lemma consume_other_events renders evs session :
  Forall (fun ev => ev_name ev <> INTENT_RECOGNIZED) evs ->
  consume renders (map client_event evs ++ [mk_sse "done" "{}"]) session
  = session.
Proof.
  intros H. revert session. induction H as [|ev evs Hev _ IH]; intros session.
  - cbn. destruct (renders _); reflexivity.
  - cbn [map app consume]. unfold observe, client_event at 1.
    cbn [sse_event sse_data].
    assert (Hname : (event_name_str (ev_name ev) =? "intent_recognized")%string
                    = false)
      by (destruct (ev_name ev); try reflexivity; contradiction).
    rewrite Hname. destruct (renders _); [apply IH | reflexivity].
Qed.

Lemma observe_intent i t session :
  observe session (client_event (intent_event i t))
  = Some (mk_session (processor_id session) (activity_id session)
            (request_id session)
            (if token_truthy t then t else last_token session)
            (Some (intent_str i)) (history session)).
Proof.
  unfold observe, client_event, intent_event. cbn [sse_event sse_data ev_name ev_data].
  cbn [event_name_str]. rewrite (decode_dumps Hcompact).
  change ("intent_recognized" =? "intent_recognized")%string with true. cbv iota.
  f_equal. unfold remember.
  change (PyDict.get "intent" (JObj [("intent", JStr (intent_str i));
                                     ("token", PyDict.of_opt_str t)]))
    with (JStr (intent_str i)).
  change (PyDict.get "token" (JObj [("intent", JStr (intent_str i));
                                    ("token", PyDict.of_opt_str t)]))
    with (PyDict.of_opt_str t).
  cbv zeta.
  assert (Hi : PyStr.truthy (intent_str i) = true) by (destruct i; reflexivity).
  cbv iota. rewrite Hi. destruct t as [t|]; cbn [PyDict.of_opt_str token_truthy];
    [destruct (PyStr.truthy t)|]; reflexivity.
Qed.

End TurnFacts.

(** X28. What a turn leaves in the memory of the chat.  The message is not
    empty, the codec's text is compact and no payload of the turn is written
    with a line boundary.  If the prompt sent is empty (the message was
    blank), the agent answers 422 and only the history changes.  Otherwise
    the session remembers the intent the resolver found for the prompt, and
    the subject it found if it found one, else the subject it had; the
    history has the message, and the identifiers are as before: whatever
    the rendering of the events does. *)
Theorem turn_remembers_intent_and_subject
  (codec : JsonCodec) (e : Env) (ulid : nat -> string) (n : nat)
  (server_ulid : nat -> string) (m : nat) (renders : SSEEvent -> bool)
  (raw : string) (session : Session) (s : State) :
  compact codec ->
  PyStr.truthy raw = true ->
  Forall sent_unbroken
    (events_of (stream_agent_response_events e
                  (build_contextual_prompt raw session) s)) ->
  let user_message := build_contextual_prompt raw session in
  let p := parse_of e user_message in
  handle_message e ulid n server_ulid m renders raw session s
  = if PyStr.truthy user_message then
      mk_session (processor_id session) (activity_id session)
        (request_id session)
        (if token_truthy (token_id p) then token_id p else last_token session)
        (Some (intent_str (intent p)))
        (history (push_history raw session))
    else push_history raw session.
Proof.
  intros Hc Hraw Hsent user_message p.
  unfold handle_message. rewrite Hraw. cbn [negb]. cbv zeta.
  fold user_message in Hsent |- *.
  destruct (PyStr.truthy user_message) eqn:Ht.
  - rewrite (assist_accepted e server_ulid m _ user_message s)
      by (unfold select_prompt, turn_payload; cbn [body_query q_prompt];
          rewrite Ht; reflexivity).
    unfold _sse_adapter, stream_agent_response. cbn [fst snd].
    rewrite sse_loop_event_lines.
    destruct (stream_run e user_message s) as (evs & s' & Heq & Hrun).
    rewrite Heq in Hsent |- *. cbn [events_of outcome_of fst snd] in Hsent |- *.
    rewrite (client_reads_frames Hc _ Hsent).
    destruct (run_begins_with_intent _ _ _ _ _ Hrun) as (rest & -> & Hrest).
    cbn [map app consume]. rewrite (observe_intent Hc).
    rewrite (consume_other_events _ _ _ Hrest).
    destruct (renders _); reflexivity.
  - rewrite (assist_rejected e server_ulid m _ s)
      by (unfold select_prompt, turn_payload;
          cbn [body_query body_prompt q_prompt opt_truthy];
          rewrite Ht; reflexivity).
    reflexivity.
Qed.

Lemma turn_remembers_intent_and_subject_witness :
  handle_message (demo_env 0%Z) (fun _ => "u") 0 (fun _ => "v") 0
    (fun _ => true) "bitcoin price" (_new_session "a" "b" "c") empty_state
  = mk_session "a" "b" "c" (Some "bitcoin") (Some "GET_PRICE")
      ["bitcoin price"].
Proof.
  refine (eq_trans
            (turn_remembers_intent_and_subject reference_codec (demo_env 0%Z)
               (fun _ => "u") 0 (fun _ => "v") 0 (fun _ => true)
               "bitcoin price" (_new_session "a" "b" "c") empty_state
               reference_codec_compact eq_refl _) _).
  - vm_compute. repeat constructor.
  - vm_compute. reflexivity.
Defined.

Example blank_message_only_joins_history :
  handle_message (demo_env 0%Z) (fun _ => "u") 0 (fun _ => "v") 0
    (fun _ => true) "  " (_new_session "a" "b" "c") empty_state
  = mk_session "a" "b" "c" None None ["  "].
Proof. vm_compute. reflexivity. Qed.

(** ** Further results: escaping *)

Module HtmlFacts.
Import Html.

Lemma replace_char_app c by_ a b :
  replace_char c by_ (a ++ b) = replace_char c by_ a ++ replace_char c by_ b.
Proof.
  induction a as [|d a IH]; [reflexivity|].
  cbn [append replace_char]. rewrite IH.
  destruct (Ascii.eqb d c); [rewrite append_assoc|]; reflexivity.
Qed.

Lemma escape_app a b : escape (a ++ b) = escape a ++ escape b.
Proof. unfold escape. rewrite !replace_char_app. reflexivity. Qed.

(** What [escape] writes for one character. *)
Lemma escape_one c :
  escape (String c EmptyString)
  = if Ascii.eqb c "&" then "&amp;"
    else if Ascii.eqb c "<" then "&lt;"
    else if Ascii.eqb c ">" then "&gt;"
    else if Ascii.eqb c "034" then "&quot;"
    else if Ascii.eqb c "'" then "&#x27;"
    else String c EmptyString.
Proof. destruct c as [[] [] [] [] [] [] [] []]; vm_compute; reflexivity. Qed.

Lemma escape_cons c s :
  escape (String c s) = escape (String c EmptyString) ++ escape s.
Proof. rewrite <- escape_app. reflexivity. Qed.

Lemma escape_one_no_markup c :
  all_chars no_markup (escape (String c EmptyString)) = true.
Proof. destruct c as [[] [] [] [] [] [] [] []]; vm_compute; reflexivity. Qed.

Lemma escape_one_plain c :
  plain c = true -> escape (String c EmptyString) = String c EmptyString.
Proof. destruct c as [[] [] [] [] [] [] [] []]; vm_compute; intros H; congruence. Qed.

Lemma escape_one_longer c :
  plain c = false -> (2 <= String.length (escape (String c EmptyString)))%nat.
Proof.
  destruct c as [[] [] [] [] [] [] [] []]; vm_compute; intros H;
    try discriminate H; lia.
Qed.

Lemma escape_one_nonempty c :
  (1 <= String.length (escape (String c EmptyString)))%nat.
Proof. destruct c as [[] [] [] [] [] [] [] []]; vm_compute; lia. Qed.

Lemma escape_length s : (String.length s <= String.length (escape s))%nat.
Proof.
  induction s as [|c s IH]; [cbn; lia|].
  rewrite escape_cons, RefJsonFacts.length_app. cbn [String.length].
  pose proof (escape_one_nonempty c). lia.
Qed.

Lemma escape_no_markup s : all_chars no_markup (escape s) = true.
Proof.
  induction s as [|c s IH]; [reflexivity|].
  rewrite escape_cons, RefJsonText.all_chars_app, escape_one_no_markup, IH.
  reflexivity.
Qed.

Lemma escape_fixed_iff_plain s : escape s = s <-> all_chars plain s = true.
Proof.
  induction s as [|c s IH]; [split; reflexivity|].
  rewrite escape_cons. cbn [all_chars]. destruct (plain c) eqn:Hc.
  - rewrite (escape_one_plain c Hc). cbn [append andb]. rewrite <- IH.
    split; [intros [= H]; exact H | intros ->; reflexivity].
  - cbn [andb]. split; [|discriminate].
    intros H. apply (f_equal String.length) in H.
    rewrite RefJsonFacts.length_app in H. cbn [String.length] in H.
    pose proof (escape_one_longer c Hc). pose proof (escape_length s). lia.
Qed.

End HtmlFacts.

(** X29. [h] makes a text safe for a message in HTML: its result holds none
    of [<], [>], the double quote and the single quote, whatever the text;
    it is the text itself exactly when the text holds none of these nor an
    ampersand; and escaping a text in pieces gives the same as escaping it
    whole. *)
Theorem escaped_text_has_no_markup (x : option string) (a b : string) :
  all_chars Html.no_markup (Html.h x) = true
  /\ (Html.escape a = a <-> all_chars Html.plain a = true)
  /\ Html.escape (a ++ b) = Html.escape a ++ Html.escape b
  /\ Html.h None = EmptyString.
Proof.
  split; [apply HtmlFacts.escape_no_markup|].
  split; [apply HtmlFacts.escape_fixed_iff_plain|].
  split; [apply HtmlFacts.escape_app | reflexivity].
Qed.

Example escape_link :
  Html.h (Some ("<a href=" ++ String "034" ("x&y" ++ String "034" ">")))
  = "&lt;a href=&quot;x&amp;y&quot;&gt;".
Proof. reflexivity. Qed.
